(** * SequentialStudy: a verified model of pages/dashboard/sequential-study.js

    The development embeds the [SequentialStudy] controller class: the
    construction of the section list, navigation between sections, quiz
    grading and the quiz result screen.  JavaScript values are modelled as
    follows.

    - integers held in JS numbers ([currentSectionIndex], [currentQuestion],
      [score]) are [Z]; the model is exact below 2^53;
    - strings are Rocq strings read as sequences of code units in the range
      U+0000..U+00FF; [toLowerCase], [trim] and [includes] are the ECMAScript
      functions restricted to that range;
    - the percentage of the result screen is computed in IEEE 754 binary64,
      with the executable specification of the Standard Library;
    - [undefined]/[null] are [None]; a thrown [TypeError] is [Threw];
    - the container element is abstracted to what the controller's own
      [querySelector] calls can observe;
    - an [async] method is run to completion before the next call starts
      (the fade timers only delay it). *)

From Stdlib Require Import ZArith List String Ascii Bool Lia.
From Stdlib Require Import Floats.SpecFloat.
Import ListNotations.
Open Scope Z_scope.

(** ** JavaScript primitives used by the module *)

Module JS.

(** [arr[i]] for a number [i]: [undefined] outside the array. *)
Definition index {A : Type} (arr : list A) (i : Z) : option A :=
  if i <? 0 then None else nth_error arr (Z.to_nat i).

(** [arr.length]. *)
Definition length {A : Type} (arr : list A) : Z := Z.of_nat (List.length arr).

(** [arr.slice(0, n)]. *)
Definition slice0 {A : Type} (n : nat) (arr : list A) : list A := firstn n arr.

(** In-place update of the object stored at position [i]. *)
Fixpoint update_nat {A : Type} (arr : list A) (i : nat) (f : A -> A) : list A :=
  match arr, i with
  | [], _ => []
  | x :: xs, O => f x :: xs
  | x :: xs, S j => x :: update_nat xs j f
  end.

Definition update {A : Type} (arr : list A) (i : Z) (f : A -> A) : list A :=
  if i <? 0 then arr else update_nat arr (Z.to_nat i) f.

(** WhiteSpace and LineTerminator code points below U+0100. *)
Definition is_whitespace (c : ascii) : bool :=
  let n := N_of_ascii c in
  (((9 <=? n) && (n <=? 13)) || (n =? 32) || (n =? 160))%N.

(** Simple lower-case mapping below U+0100: A-Z, and the Latin-1 capitals
    U+00C0..U+00DE except the multiplication sign U+00D7. *)
Definition lower_char (c : ascii) : ascii :=
  let n := N_of_ascii c in
  if (((65 <=? n) && (n <=? 90)) || ((192 <=? n) && (n <=? 214))
      || ((216 <=? n) && (n <=? 222)))%N
  then ascii_of_N (n + 32) else c.

Fixpoint toLowerCase (s : string) : string :=
  match s with
  | EmptyString => EmptyString
  | String c s' => String (lower_char c) (toLowerCase s')
  end.

Fixpoint trimStart (s : string) : string :=
  match s with
  | EmptyString => EmptyString
  | String c s' => if is_whitespace c then trimStart s' else s
  end.

Fixpoint trimEnd (s : string) : string :=
  match s with
  | EmptyString => EmptyString
  | String c s' =>
      match trimEnd s' with
      | EmptyString => if is_whitespace c then EmptyString else String c EmptyString
      | t => String c t
      end
  end.

Definition trim (s : string) : string := trimEnd (trimStart s).

(** [s.startsWith(p)]. *)
Fixpoint startsWith (s p : string) : bool :=
  match p, s with
  | EmptyString, _ => true
  | String _ _, EmptyString => false
  | String a p', String b s' => Ascii.eqb a b && startsWith s' p'
  end.

(** [s.includes(sub)]. *)
Fixpoint includes (s sub : string) : bool :=
  startsWith s sub ||
  match s with
  | EmptyString => false
  | String _ s' => includes s' sub
  end.

(** *** Numbers: IEEE 754 binary64 *)

Definition prec : Z := 53.
Definition emax : Z := 1024.

Definition Number : Type := spec_float.

(** The Number value of an integer. *)
Definition of_int (z : Z) : Number := binary_normalize prec emax z 0 false.

Definition div (x y : Number) : Number := SFdiv prec emax x y.
Definition mul (x y : Number) : Number := SFmul prec emax x y.

(** [Math.round]: the integer closest to [x], ties towards +infinity;
    NaN, the infinities and the zeros are returned unchanged, and a
    negative [x] that rounds to zero gives -0. *)
Definition Math_round (x : Number) : Number :=
  match x with
  | S754_finite s m e =>
      let v := if s then Z.neg m else Z.pos m in
      let n :=
        if 0 <=? e then v * 2 ^ e
        else (2 * v + 2 ^ (- e)) / 2 ^ (- e + 1) in
      if n =? 0 then S754_zero s else of_int n
  | _ => x
  end.

End JS.

(** Only whitespace. *)
Fixpoint all_whitespace (s : string) : bool :=
  match s with
  | EmptyString => true
  | String c s' => JS.is_whitespace c && all_whitespace s'
  end.

(** A call either returns or throws (a [TypeError] on a property access of
    [undefined] or [null]). *)
Inductive Outcome : Type :=
| Returned
| Threw.

(** ** Data model *)

(** The concept map of a study plan: an object with [main_topic] and
    [subtopics], or an array of [{concept}] objects. *)
Inductive ConceptMap : Type :=
| TopicMap (main_topic : string) (subtopics : list string)
| ConceptList (concepts : list string).

Record WorkedExample : Type := {
  ex_title : option string;
  ex_problem_statement : option string;
  ex_step_by_step_solution : option (list string);
  ex_solution : option string;
  ex_final_result : option string
}.

(** An entry of [active_recall].  [q_type] is compared with the literal
    ['multiple_choice'] only; every other value is a free-text question. *)
Record Question : Type := {
  q_question : string;
  q_type : string;
  q_options : option (list string);
  q_answer : string;
  q_difficulty_rating : option Z
}.

(** The study plan handed to the constructor; a missing property is [None]. *)
Record StudyPlanData : Type := {
  summary : option string;
  concept_map : option ConceptMap;
  learning_objectives : option (list string);
  worked_examples : option (list WorkedExample);
  active_recall : option (list Question)
}.

Inductive SectionType : Type :=
| explanation
| example
| quiz.

Inductive Content : Type :=
| ExplanationContent (summary_text : string) (conceptMap : option ConceptMap)
    (objectives : list string)
| ExampleContent (examples : list WorkedExample)
| QuizContent (questions : list Question) (currentQuestion : Z) (score : Z).

Record NextButton : Type := {
  text : string;
  enabled : bool
}.

Record StudySection : Type := {
  title : string;
  type : SectionType;
  content : Content;
  next_button : NextButton
}.

Definition SectionType_eqb (a b : SectionType) : bool :=
  match a, b with
  | explanation, explanation | example, example | quiz, quiz => true
  | _, _ => false
  end.

(** [x || d] for an optional property. *)
Definition or_default {A : Type} (x : option A) (d : A) : A :=
  match x with
  | Some v => v
  | None => d
  end.

(** [arr && arr.length > 0]. *)
Definition present_nonempty {A : Type} (x : option (list A)) : option (list A) :=
  match x with
  | Some (a :: l) => Some (a :: l)
  | _ => None
  end.

(** ** buildSections *)

Definition explanation_section (data : StudyPlanData) : StudySection :=
  {| title := "Understanding the Concept"%string;
     type := explanation;
     content := ExplanationContent (or_default (summary data) EmptyString)
                  (concept_map data)
                  (or_default (learning_objectives data) []);
     next_button := {| text := "Continue to Examples"%string; enabled := true |} |}.

Definition example_section (examples : list WorkedExample) : StudySection :=
  {| title := "See It in Action"%string;
     type := example;
     content := ExampleContent examples;
     next_button := {| text := "Continue to Quiz"%string; enabled := true |} |}.

Definition quiz_section (active : list Question) : StudySection :=
  {| title := "Test Your Understanding"%string;
     type := quiz;
     content := QuizContent (JS.slice0 3 active) 0 0;
     next_button := {| text := "Finish Section"%string; enabled := false |} |}.

Definition buildSections (data : StudyPlanData) : list StudySection :=
  let sections := [explanation_section data] in
  let sections :=
    match present_nonempty (worked_examples data) with
    | Some examples => sections ++ [example_section examples]
    | None => sections
    end in
  let sections :=
    match present_nonempty (active_recall data) with
    | Some active => sections ++ [quiz_section active]
    | None => sections
    end in
  sections.

(** ** The container element

    The rendered markup is abstracted to the elements that the controller
    looks up again: [.section-content] (every rendered section and the
    result screen), [#quiz-feedback] (a rendered quiz question) and
    [#next-quiz-question] (created inside the feedback by
    [submitQuizAnswer]).  The click listener of that button closes over the
    section object that was current at submission; the object is named by its
    position in [sections]. *)

Record Feedback : Type := {
  fb_correct : bool;
  fb_section : Z
}.

Inductive Dom : Type :=
| DomForeign
| DomSection (ty : SectionType) (feedback : option Feedback)
| DomResults (score total : Z) (percentage : JS.Number).

(** Effects visible outside the controller, in the order they happen. *)
Inductive Event : Type :=
| FadeOut
| FadeIn
| Completed (callback : nat).

(** ** The controller *)

Record SequentialStudy : Type := {
  data : StudyPlanData;
  currentSectionIndex : Z;
  sections : list StudySection;
  container : option Dom;
  onComplete : option nat
}.

Definition with_index (this : SequentialStudy) (i : Z) : SequentialStudy :=
  {| data := data this; currentSectionIndex := i; sections := sections this;
     container := container this; onComplete := onComplete this |}.

Definition with_sections (this : SequentialStudy) (s : list StudySection)
  : SequentialStudy :=
  {| data := data this; currentSectionIndex := currentSectionIndex this;
     sections := s; container := container this; onComplete := onComplete this |}.

Definition with_container (this : SequentialStudy) (c : option Dom)
  : SequentialStudy :=
  {| data := data this; currentSectionIndex := currentSectionIndex this;
     sections := sections this; container := c; onComplete := onComplete this |}.

(** [new SequentialStudy(studyPlanData)]. *)
Definition new_SequentialStudy (studyPlanData : StudyPlanData) : SequentialStudy :=
  {| data := studyPlanData;
     currentSectionIndex := 0;
     sections := buildSections studyPlanData;
     container := None;
     onComplete := None |}.

Definition setOnComplete (callback : nat) (this : SequentialStudy) : SequentialStudy :=
  {| data := data this; currentSectionIndex := currentSectionIndex this;
     sections := sections this; container := container this;
     onComplete := Some callback |}.

(** [this.sections[this.currentSectionIndex] || null]. *)
Definition getCurrentSection (this : SequentialStudy) : option StudySection :=
  JS.index (sections this) (currentSectionIndex this).

(** [renderQuiz] reads [question.difficulty_rating] of
    [content.questions[content.currentQuestion]]. *)
Definition renderQuiz (c : Content) : Outcome :=
  match c with
  | QuizContent questions currentQuestion _ =>
      match JS.index questions currentQuestion with
      | Some _ => Returned
      | None => Threw
      end
  | _ => Threw
  end.

Definition renderSection (this : SequentialStudy) : SequentialStudy * Outcome :=
  match container this with
  | None => (this, Returned)
  | Some _ =>
      match getCurrentSection this with
      | None => (this, Returned)
      | Some section =>
          match (if SectionType_eqb (type section) quiz
                 then renderQuiz (content section) else Returned) with
          | Threw => (this, Threw)
          | Returned =>
              (with_container this (Some (DomSection (type section) None)), Returned)
          end
      end
  end.

(** [render(containerElement)], with a container the controller has not
    rendered into yet. *)
Definition render (this : SequentialStudy) : SequentialStudy * Outcome :=
  renderSection (with_container this (Some DomForeign)).

Definition fadeOut (this : SequentialStudy) : list Event :=
  match container this with
  | None => []
  | Some _ => [FadeOut]
  end.

Definition fadeIn (this : SequentialStudy)
  : SequentialStudy * list Event * Outcome :=
  match container this with
  | None => (this, [], Returned)
  | Some _ =>
      match renderSection this with
      | (this', Returned) => (this', [FadeIn], Returned)
      | (this', Threw) => (this', [], Threw)
      end
  end.

(** [nextSection] after [await this.fadeOut()]: the increment and the fade
    in. *)
Definition nextSection_resume (this : SequentialStudy)
  : SequentialStudy * list Event * Outcome :=
  fadeIn (with_index this (currentSectionIndex this + 1)).

Definition nextSection (this : SequentialStudy)
  : SequentialStudy * list Event * Outcome :=
  if currentSectionIndex this >=? JS.length (sections this) - 1 then
    (this,
     match onComplete this with
     | Some callback => [Completed callback]
     | None => []
     end,
     Returned)
  else
    let out := fadeOut this in
    let '(this2, inn, o) := nextSection_resume this in
    (this2, out ++ inn, o).

Definition prevSection (this : SequentialStudy)
  : SequentialStudy * list Event * Outcome :=
  if currentSectionIndex this <=? 0 then (this, [], Returned)
  else
    let out := fadeOut this in
    let this1 := with_index this (currentSectionIndex this - 1) in
    let '(this2, inn, o) := fadeIn this1 in
    (this2, out ++ inn, o).

(** The verification of lines 586-593 of [submitQuizAnswer]. *)
Definition isCorrect (question : Question) (userAnswer : string) : bool :=
  if String.eqb (q_type question) "multiple_choice" then
    String.eqb (JS.trim (JS.toLowerCase userAnswer))
               (JS.trim (JS.toLowerCase (q_answer question)))
  else
    JS.includes (JS.toLowerCase userAnswer) (JS.toLowerCase (q_answer question))
    || JS.includes (JS.toLowerCase (q_answer question)) (JS.toLowerCase userAnswer).

(** [section.content.score++]. *)
Definition increment_score (section : StudySection) : StudySection :=
  match content section with
  | QuizContent questions currentQuestion score =>
      {| title := title section; type := type section;
         content := QuizContent questions currentQuestion (score + 1);
         next_button := next_button section |}
  | _ => section
  end.

(** [section.content.currentQuestion++]. *)
Definition increment_currentQuestion (section : StudySection) : StudySection :=
  match content section with
  | QuizContent questions currentQuestion score =>
      {| title := title section; type := type section;
         content := QuizContent questions (currentQuestion + 1) score;
         next_button := next_button section |}
  | _ => section
  end.

(** [section.next_button.enabled = true]. *)
Definition enable_next_button (section : StudySection) : StudySection :=
  {| title := title section; type := type section; content := content section;
     next_button := {| text := text (next_button section); enabled := true |} |}.

Definition submitQuizAnswer (userAnswer : string) (this : SequentialStudy)
  : SequentialStudy * Outcome :=
  match getCurrentSection this with
  | None => (this, Threw)
  | Some section =>
      match content section with
      | QuizContent questions currentQuestion _ =>
          match JS.index questions currentQuestion with
          | None => (this, Threw)
          | Some question =>
              let correct := isCorrect question userAnswer in
              let this1 :=
                if correct
                then with_sections this
                       (JS.update (sections this) (currentSectionIndex this)
                          increment_score)
                else this in
              match container this1 with
              | Some (DomSection quiz _) =>
                  (with_container this1
                     (Some (DomSection quiz
                              (Some {| fb_correct := correct;
                                       fb_section := currentSectionIndex this |}))),
                   Returned)
              | _ => (this1, Threw)
              end
          end
      | _ => (this, Threw)
      end
  end.

(** [Math.round((score / total) * 100)]. *)
Definition percentage_of (score total : Z) : JS.Number :=
  JS.Math_round (JS.mul (JS.div (JS.of_int score) (JS.of_int total)) (JS.of_int 100)).

Definition showQuizResults (this : SequentialStudy) : SequentialStudy * Outcome :=
  match getCurrentSection this with
  | None => (this, Threw)
  | Some section =>
      match content section with
      | QuizContent questions _ score =>
          let total := JS.length questions in
          let percentage := percentage_of score total in
          match container this with
          | Some (DomSection _ _) | Some (DomResults _ _ _) =>
              (with_sections
                 (with_container this (Some (DomResults score total percentage)))
                 (JS.update (sections this) (currentSectionIndex this)
                    enable_next_button),
               Returned)
          | _ => (this, Threw)
          end
      | _ => (this, Threw)
      end
  end.

(** The click listener of [#next-quiz-question] (lines 654-661).  Without the
    button there is nothing to click and the state is left as it is. *)
Definition nextQuizQuestion (this : SequentialStudy) : SequentialStudy * Outcome :=
  match container this with
  | Some (DomSection quiz (Some fb)) =>
      match JS.index (sections this) (fb_section fb) with
      | Some section =>
          match content section with
          | QuizContent questions currentQuestion _ =>
              if currentQuestion <? JS.length questions - 1 then
                renderSection
                  (with_sections this
                     (JS.update (sections this) (fb_section fb)
                        increment_currentQuestion))
              else showQuizResults this
          | _ => (this, Threw)
          end
      | None => (this, Returned)
      end
  | _ => (this, Returned)
  end.

(** ** Sequences of calls *)

Inductive Op : Type :=
| OpRender
| OpSetOnComplete (callback : nat)
| OpNextSection
| OpPrevSection
| OpSubmitQuizAnswer (userAnswer : string)
| OpNextQuizQuestion.

Definition step (this : SequentialStudy) (op : Op)
  : SequentialStudy * list Event * Outcome :=
  match op with
  | OpRender => let '(s, o) := render this in (s, [], o)
  | OpSetOnComplete callback => (setOnComplete callback this, [], Returned)
  | OpNextSection => nextSection this
  | OpPrevSection => prevSection this
  | OpSubmitQuizAnswer userAnswer =>
      let '(s, o) := submitQuizAnswer userAnswer this in (s, [], o)
  | OpNextQuizQuestion => let '(s, o) := nextQuizQuestion this in (s, [], o)
  end.

Definition step_state (this : SequentialStudy) (op : Op) : SequentialStudy :=
  fst (fst (step this op)).

Definition step_events (this : SequentialStudy) (op : Op) : list Event :=
  snd (fst (step this op)).

Fixpoint run (this : SequentialStudy) (ops : list Op) : SequentialStudy :=
  match ops with
  | [] => this
  | op :: ops' => run (step_state this op) ops'
  end.

Fixpoint run_events (this : SequentialStudy) (ops : list Op) : list Event :=
  match ops with
  | [] => []
  | op :: ops' => step_events this op ++ run_events (step_state this op) ops'
  end.

Definition iter_nextSection (n : nat) (this : SequentialStudy) : SequentialStudy :=
  Nat.iter n (fun s => fst (fst (nextSection s))) this.

(** The section index at which each of [n] successive [nextSection] calls is
    issued. *)
Fixpoint advance_indices (n : nat) (this : SequentialStudy) : list Z :=
  match n with
  | O => []
  | S k => currentSectionIndex this
           :: advance_indices k (fst (fst (nextSection this)))
  end.

(** The events of the call issued after [k] earlier [nextSection] calls. *)
Definition nextSection_events_after (k : nat) (this : SequentialStudy) : list Event :=
  snd (fst (nextSection (iter_nextSection k this))).

(** The question a [submitQuizAnswer] call grades, when it gets that far. *)
Definition current_question (this : SequentialStudy) : option (Z * Question) :=
  match getCurrentSection this with
  | Some section =>
      match content section with
      | QuizContent questions currentQuestion _ =>
          option_map (fun q => (currentQuestion, q))
            (JS.index questions currentQuestion)
      | _ => None
      end
  | None => None
  end.

(** Question positions graded by a call, and by a sequence of calls. *)
Definition submission (this : SequentialStudy) (op : Op) : list Z :=
  match op with
  | OpSubmitQuizAnswer _ =>
      match current_question this with
      | Some (i, _) => [i]
      | None => []
      end
  | _ => []
  end.

Fixpoint run_submissions (this : SequentialStudy) (ops : list Op) : list Z :=
  match ops with
  | [] => []
  | op :: ops' => submission this op ++ run_submissions (step_state this op) ops'
  end.

(** ** Observations on the quiz section *)

Definition find_quiz (secs : list StudySection) : option StudySection :=
  find (fun s => SectionType_eqb (type s) quiz) secs.

Definition section_score (s : StudySection) : Z :=
  match content s with
  | QuizContent _ _ score => score
  | _ => 0
  end.

Definition section_total (s : StudySection) : Z :=
  match content s with
  | QuizContent questions _ _ => JS.length questions
  | _ => 0
  end.

Definition quiz_score (this : SequentialStudy) : Z :=
  match find_quiz (sections this) with
  | Some s => section_score s
  | None => 0
  end.

Definition quiz_total (this : SequentialStudy) : Z :=
  match find_quiz (sections this) with
  | Some s => section_total s
  | None => 0
  end.

Definition quiz_navEnabled (this : SequentialStudy) : option bool :=
  option_map (fun s => enabled (next_button s)) (find_quiz (sections this)).

(** ** Reference definitions, following the specification *)

Definition worked_list (d : StudyPlanData) : list WorkedExample :=
  or_default (worked_examples d) [].

Definition quiz_list (d : StudyPlanData) : list Question :=
  or_default (active_recall d) [].

Definition has_section (ty : SectionType) (secs : list StudySection) : Prop :=
  exists s, In s secs /\ type s = ty.

(** Explanation, then Example if there are worked examples, then Quiz if
    there are quiz questions. *)
Definition spec_section_order (d : StudyPlanData) : list SectionType :=
  [explanation]
  ++ (match worked_list d with [] => [] | _ :: _ => [example] end)
  ++ (match quiz_list d with [] => [] | _ :: _ => [quiz] end).

(** [sub] occurs in [s]. *)
Definition Substring (sub s : string) : Prop :=
  exists pre post : string, s = (pre ++ sub ++ post)%string.

(** The short-answer rule as the specification words it: containment either
    way after lower-casing and trimming both strings. *)
Definition spec_shortAnswer_correct (question : Question) (candidate : string) : bool :=
  let c := JS.trim (JS.toLowerCase candidate) in
  let k := JS.trim (JS.toLowerCase (q_answer question)) in
  JS.includes k c || JS.includes c k.

(** The score bound of the data model. *)
Definition score_bounded (this : SequentialStudy) : Prop :=
  0 <= quiz_score this <= quiz_total this.

Definition index_in_bounds (this : SequentialStudy) : Prop :=
  0 <= currentSectionIndex this < JS.length (sections this).

(** [n / d] rounded to the nearest integer, halves up, in exact arithmetic. *)
Definition round_half_up (n d : Z) : Z := (2 * n + d) / (2 * d).

Definition exact_percentage (score total : Z) : Z := round_half_up (100 * score) total.

Definition Number_eqb (x y : JS.Number) : bool :=
  match x, y with
  | S754_zero a, S754_zero b => Bool.eqb a b
  | S754_infinity a, S754_infinity b => Bool.eqb a b
  | S754_nan, S754_nan => true
  | S754_finite a m e, S754_finite b m' e' =>
      Bool.eqb a b && Pos.eqb m m' && Z.eqb e e'
  | _, _ => false
  end.

(** Scores up to this bound are compared one by one with exact arithmetic. *)
Definition checked_scores : nat := 2000.

Definition percentage_agrees (total : Z) (score : nat) : bool :=
  Number_eqb (percentage_of (Z.of_nat score) total)
             (JS.of_int (exact_percentage (Z.of_nat score) total)).

Definition percentage_table (total : Z) : bool :=
  forallb (percentage_agrees total) (seq 0 (S checked_scores)).

(** ** The states a controller goes through *)

Definition quiz_state (questions : list Question) (currentQuestion score : Z)
  (en : bool) : StudySection :=
  {| title := "Test Your Understanding"%string;
     type := quiz;
     content := QuizContent questions currentQuestion score;
     next_button := {| text := "Finish Section"%string; enabled := en |} |}.

Definition leading_sections (d : StudyPlanData) : list StudySection :=
  explanation_section d ::
  match present_nonempty (worked_examples d) with
  | Some examples => [example_section examples]
  | None => []
  end.

(** The section list ends with the quiz section over [qs]; [log] holds the
    question positions graded so far. *)
Definition QuizInv (leading : list StudySection) (qs : list Question)
  (log : list Z) (this : SequentialStudy) : Prop :=
  exists currentQuestion score en,
    sections this = leading ++ [quiz_state qs currentQuestion score en]
    /\ 0 <= currentQuestion < JS.length qs
    /\ 0 <= score <= JS.length log
    /\ (forall i, 0 <= i < currentQuestion -> In i log)
    /\ (en = true -> forall i, 0 <= i < JS.length qs -> In i log)
    /\ (forall fb, container this = Some (DomSection quiz (Some fb)) ->
        fb_section fb = currentSectionIndex this
        /\ currentSectionIndex this = JS.length leading
        /\ In currentQuestion log).

(** A controller built from [d], after calls that graded the question
    positions in [log]. *)
Record Reached (d : StudyPlanData) (log : list Z) (this : SequentialStudy) : Prop := {
  reached_index : index_in_bounds this;
  reached_sections :
    match present_nonempty (active_recall d) with
    | None => sections this = leading_sections d
    | Some active => QuizInv (leading_sections d) (JS.slice0 3 active) log this
    end;
  reached_log :
    forall i, In i log -> 0 <= i < JS.length (JS.slice0 3 (quiz_list d))
}.

(** A section without quiz state. *)
Definition plain_section (s : StudySection) : Prop :=
  type s <> quiz /\ forall qs cq sc, content s <> QuizContent qs cq sc.

(** No [#next-quiz-question] button is on display. *)
Definition no_feedback (c : option Dom) : Prop :=
  forall fb, c <> Some (DomSection quiz (Some fb)).

(** What a call adds to the score: one for a submission judged correct. *)
Definition score_delta (this : SequentialStudy) (op : Op) : Z :=
  match op with
  | OpSubmitQuizAnswer userAnswer =>
      match current_question this with
      | Some (_, question) => if isCorrect question userAnswer then 1 else 0
      | None => 0
      end
  | _ => 0
  end.

(** The container shows the current section, as [renderSection] leaves it. *)
Definition Shown (this : SequentialStudy) : Prop :=
  exists s, getCurrentSection this = Some s
            /\ container this = Some (DomSection (type s) None).

(** Every quiz section of the list has a question to render. *)
Definition Renderable (secs : list StudySection) : Prop :=
  forall i s, JS.index secs i = Some s -> type s = quiz ->
              renderQuiz (content s) = Returned.



(** ** Relations between the states of a run *)

(** What a section keeps from one state of a run to a later one: its title,
    type and button text, an enabled button, the question list; the question
    position and the score can only have grown. *)
Definition section_persists (s s' : StudySection) : Prop :=
  title s' = title s
  /\ type s' = type s
  /\ text (next_button s') = text (next_button s)
  /\ (enabled (next_button s) = true -> enabled (next_button s') = true)
  /\ match content s with
     | QuizContent qs cq sc =>
         exists cq' sc', content s' = QuizContent qs cq' sc' /\ cq <= cq' /\ sc <= sc'
     | c => content s' = c
     end.

(** The container shows a quiz question. *)
Definition shows_quiz_question (c : option Dom) : bool :=
  match c with
  | Some (DomSection quiz _) => true
  | _ => false
  end.

(** What the container shows is the current section. *)
Definition Synced (this : SequentialStudy) : Prop :=
  forall ty fb, container this = Some (DomSection ty fb) ->
                exists s, getCurrentSection this = Some s /\ type s = ty.

(** ** The result message and the difficulty stars *)

(** [percentage === 100], [percentage >= 70] and [percentage >= 50] of
    [showQuizResults] (lines 673-678), on Numbers. *)
Definition result_message (percentage : JS.Number) : string :=
  if SFeqb percentage (JS.of_int 100) then "Perfect Score! You're a master."%string
  else if SFleb (JS.of_int 70) percentage then "Great job! You have a solid grasp."%string
  else if SFleb (JS.of_int 50) percentage
       then "Good start, review the concepts again."%string
       else "Keep practicing, you'll get there!"%string.

(** Scores above the number of questions, up to this bound beyond it, are
    compared one by one. *)
Definition checked_overcount : nat := 200.

Definition overcount_message_table (total : Z) : bool :=
  forallb (fun k => String.eqb
                      (result_message (percentage_of (total + 1 + Z.of_nat k) total))
                      "Great job! You have a solid grasp.")
    (seq 0 (S checked_overcount)).

(** [question.difficulty_rating || 3]. *)
Definition effective_rating (question : Question) : Z :=
  match q_difficulty_rating question with
  | None | Some 0 => 3
  | Some r => r
  end.

(** The five stars of [renderQuiz]: star [i] is lit when
    [i < (question.difficulty_rating || 3)]. *)
Definition difficulty_stars (question : Question) : list bool :=
  map (fun i => i <? effective_rating question) [0; 1; 2; 3; 4].

(** ** Click listeners

    [renderSection] attaches a listener to the continue button when the
    section's next button is enabled and to the back button when there is
    one; [initializeQuiz] attaches one to every option button and to the
    submit button of the text area; [submitQuizAnswer] disables the options
    and removes the submit button; [showQuizResults] replaces the section
    content.  The listener of [#next-quiz-question] is part of [Dom]. *)

Record Listeners : Type := {
  on_continue : bool;
  on_back : bool;
  on_option : bool;
  on_short_answer : bool
}.

Definition no_listeners : Listeners :=
  {| on_continue := false; on_back := false; on_option := false;
     on_short_answer := false |}.

(** The options are disabled, the submit button is gone. *)
Definition clear_form (w : Listeners) : Listeners :=
  {| on_continue := on_continue w; on_back := on_back w; on_option := false;
     on_short_answer := false |}.

(** [question.type === 'multiple_choice' && question.options]: [renderQuiz]
    puts out one button per option, and the text area otherwise. *)
Definition has_option_buttons (question : Question) : bool :=
  String.eqb (q_type question) "multiple_choice"
  && match q_options question with
     | Some _ => true
     | None => false
     end.

Definition option_buttons (question : Question) : list string :=
  if has_option_buttons question then or_default (q_options question) [] else [].

(** The listeners that a rendering of the current section attaches. *)
Definition listeners_of (this : SequentialStudy) : Listeners :=
  match getCurrentSection this with
  | None => no_listeners
  | Some section =>
      let question :=
        if SectionType_eqb (type section) quiz
        then option_map snd (current_question this) else None in
      {| on_continue := enabled (next_button section);
         on_back := 0 <? currentSectionIndex this;
         on_option :=
           match question with
           | Some q => match option_buttons q with [] => false | _ :: _ => true end
           | None => false
           end;
         on_short_answer :=
           match question with
           | Some q => negb (has_option_buttons q)
           | None => false
           end |}
  end.

(** The listeners after [renderSection] on [this]: new ones when the markup
    was written. *)
Definition renderSection_wires (this : SequentialStudy) (w : Listeners) : Listeners :=
  match container this, getCurrentSection this, snd (renderSection this) with
  | Some _, Some _, Returned => listeners_of this
  | _, _, _ => w
  end.

(** The listeners after a call. *)
Definition listeners_after (this : SequentialStudy) (op : Op) (w : Listeners)
  : Listeners :=
  match op with
  | OpRender => renderSection_wires (with_container this (Some DomForeign)) w
  | OpSetOnComplete _ => w
  | OpNextSection =>
      if currentSectionIndex this >=? JS.length (sections this) - 1 then w
      else renderSection_wires (with_index this (currentSectionIndex this + 1)) w
  | OpPrevSection =>
      if currentSectionIndex this <=? 0 then w
      else renderSection_wires (with_index this (currentSectionIndex this - 1)) w
  | OpSubmitQuizAnswer userAnswer =>
      match snd (submitQuizAnswer userAnswer this) with
      | Returned => clear_form w
      | Threw => w
      end
  | OpNextQuizQuestion =>
      match container this with
      | Some (DomSection quiz (Some fb)) =>
          match JS.index (sections this) (fb_section fb) with
          | Some section =>
              match content section with
              | QuizContent questions currentQuestion _ =>
                  if currentQuestion <? JS.length questions - 1 then
                    renderSection_wires
                      (with_sections this
                         (JS.update (sections this) (fb_section fb)
                            increment_currentQuestion)) w
                  else
                    match snd (showQuizResults this) with
                    | Returned => clear_form w
                    | Threw => w
                    end
              | _ => w
              end
          | None => w
          end
      | _ => w
      end
  end.

(** The page: the controller and the listeners in its container. *)
Record Page : Type := {
  controller : SequentialStudy;
  listeners : Listeners
}.

Inductive UIEvent : Type :=
| ClickContinue
| ClickBack
| ClickOption (answer : string)
| ClickSubmitShortAnswer (value : string)
| ClickNextQuestion
| HostSetOnComplete (callback : nat).

(** The call a click leads to, if any listener takes it.  The submit button
    of the text area passes on [value.trim()] unless it is empty. *)
Definition handled (u : Page) (ev : UIEvent) : option Op :=
  match ev with
  | ClickContinue =>
      if on_continue (listeners u) then Some OpNextSection else None
  | ClickBack =>
      if on_back (listeners u) then Some OpPrevSection else None
  | ClickOption answer =>
      if on_option (listeners u) then Some (OpSubmitQuizAnswer answer) else None
  | ClickSubmitShortAnswer value =>
      if on_short_answer (listeners u) then
        match JS.trim value with
        | EmptyString => None
        | answer => Some (OpSubmitQuizAnswer answer)
        end
      else None
  | ClickNextQuestion => Some OpNextQuizQuestion
  | HostSetOnComplete callback => Some (OpSetOnComplete callback)
  end.

Definition page_step (u : Page) (ev : UIEvent) : Page * list Event :=
  match handled u ev with
  | Some op =>
      ({| controller := step_state (controller u) op;
          listeners := listeners_after (controller u) op (listeners u) |},
       step_events (controller u) op)
  | None => (u, [])
  end.

Fixpoint page_run (u : Page) (evs : list UIEvent) : Page :=
  match evs with
  | [] => u
  | ev :: evs' => page_run (fst (page_step u ev)) evs'
  end.

(** The page after [new SequentialStudy(data)] and [render(container)]. *)
Definition page_open (d : StudyPlanData) : Page :=
  {| controller := step_state (new_SequentialStudy d) OpRender;
     listeners := listeners_after (new_SequentialStudy d) OpRender no_listeners |}.

(** The calls that a sequence of clicks leads to. *)
Fixpoint page_ops (u : Page) (evs : list UIEvent) : list Op :=
  match evs with
  | [] => []
  | ev :: evs' =>
      match handled u ev with
      | Some op => [op]
      | None => []
      end ++ page_ops (fst (page_step u ev)) evs'
  end.

(** What holds of the listeners on every page reached by clicks. *)
Record Wired (u : Page) : Prop := {
  wired_container : container (controller u) <> None;
  wired_continue :
    on_continue (listeners u) = true ->
    exists s, getCurrentSection (controller u) = Some s
              /\ enabled (next_button s) = true;
  wired_back :
    on_back (listeners u) = true -> 0 < currentSectionIndex (controller u);
  wired_form :
    on_option (listeners u) = true \/ on_short_answer (listeners u) = true ->
    container (controller u) = Some (DomSection quiz None)
    /\ exists i q,
        current_question (controller u) = Some (i, q)
        /\ (on_option (listeners u) = true -> option_buttons q <> [])
        /\ (on_short_answer (listeners u) = true -> has_option_buttons q = false)
}.

(** ** The progress indicator and the summary of [renderSection]

    One bar per section (lines 156-164): the current one, the ones before
    it, the ones after it. *)

Inductive Bar : Type :=
| BarCurrent
| BarDone
| BarUpcoming.

Definition bar (current idx : Z) : Bar :=
  if idx =? current then BarCurrent
  else if idx <? current then BarDone else BarUpcoming.

(** [sections.map((s, idx) => ...)], from position [idx] on. *)
Fixpoint bars_from (current idx : Z) (secs : list StudySection) : list Bar :=
  match secs with
  | [] => []
  | _ :: rest => bar current idx :: bars_from current (idx + 1) rest
  end.

Definition progress_bars (this : SequentialStudy) : list Bar :=
  bars_from (currentSectionIndex this) 0 (sections this).

(** [Step ${currentSectionIndex + 1} of ${sections.length}]. *)
Definition step_label (this : SequentialStudy) : Z * Z :=
  (currentSectionIndex this + 1, JS.length (sections this)).

(** A line terminator: what [.] of a regular expression does not match. *)
Definition is_line_terminator (c : ascii) : bool :=
  let n := N_of_ascii c in ((n =? 10) || (n =? 13))%N.

Definition is_star (c : ascii) : bool := (N_of_ascii c =? 42)%N.

(** The text up to the first [**] when no line terminator comes before it:
    the group of [/\*\*(.*?)\*\*/] matched right after an opening [**]. *)
Fixpoint bold_group (s : string) : option string :=
  match s with
  | EmptyString => None
  | String c s' =>
      if JS.startsWith s "**" then Some EmptyString
      else if is_line_terminator c then None
           else option_map (String c) (bold_group s')
  end.

Definition strong_open : string :=
  "<strong class='text-gray-900 bg-yellow-50 px-1 rounded'>".

Definition strong_close : string := "</strong>".

(** [.replace(/\*\*(.*?)\*\*/g, "<strong ...>$1</strong>")]: [skip] counts
    the characters of the current match that are still to be passed over. *)
Fixpoint replace_bold (skip : nat) (s : string) : string :=
  match s with
  | EmptyString => EmptyString
  | String c s' =>
      match skip with
      | S n => replace_bold n s'
      | O =>
          match (if JS.startsWith s "**"
                 then match s' with
                      | String _ after => bold_group after
                      | EmptyString => None
                      end
                 else None) with
          | Some group =>
              (strong_open ++ group ++ strong_close
               ++ replace_bold (String.length group + 3) s')%string
          | None => String c (replace_bold 0 s')
          end
      end
  end.

Definition is_newline (c : ascii) : bool := (N_of_ascii c =? 10)%N.

(** [.replace(/\n/g, "<br>")]. *)
Fixpoint replace_newlines (s : string) : string :=
  match s with
  | EmptyString => EmptyString
  | String c s' =>
      if is_newline c then ("<br>" ++ replace_newlines s')%string
      else String c (replace_newlines s')
  end.

(** [formattedSummary] of [renderExplanation] (lines 280-282). *)
Definition formattedSummary (summary_text : string) : string :=
  replace_newlines
    (replace_bold 0
       (match summary_text with
        | EmptyString => "No summary available."%string
        | _ => summary_text
        end)).

Fixpoint string_forallb (p : ascii -> bool) (s : string) : bool :=
  match s with
  | EmptyString => true
  | String c s' => p c && string_forallb p s'
  end.

(** A character that neither replacement of [formattedSummary] touches. *)
Definition plain_char (c : ascii) : bool := negb (is_star c) && negb (is_newline c).

(** ** Overlapping calls

    [prevSection] after [await this.fadeOut()]: the decrement and the fade
    in. *)
Definition prevSection_resume (this : SequentialStudy)
  : SequentialStudy * list Event * Outcome :=
  fadeIn (with_index this (currentSectionIndex this - 1)).

(** The controller after two calls of [nextSection] of which the second
    passed the guard while the first was still waiting for the fade out (a
    second click within the 400 ms): both resume, one after the other. *)
Definition nextSection_overlapped (this : SequentialStudy) : SequentialStudy :=
  fst (fst (nextSection_resume (fst (fst (nextSection_resume this))))).

(** The same for two calls of [prevSection]. *)
Definition prevSection_overlapped (this : SequentialStudy) : SequentialStudy :=
  fst (fst (prevSection_resume (fst (fst (prevSection_resume this))))).

(** ** Sample documents *)

Definition mc_question (ans : string) : Question :=
  {| q_question := "Which one?"%string; q_type := "multiple_choice"%string;
     q_options := Some [ans; "other"%string]; q_answer := ans;
     q_difficulty_rating := None |}.

Definition short_question (ans : string) : Question :=
  {| q_question := "Explain."%string; q_type := "short_answer"%string;
     q_options := None; q_answer := ans; q_difficulty_rating := Some 2 |}.

Definition sample_example : WorkedExample :=
  {| ex_title := Some "Worked"%string; ex_problem_statement := Some "P"%string;
     ex_step_by_step_solution := None; ex_solution := Some "S"%string;
     ex_final_result := None |}.

Definition sample_doc (examples : list WorkedExample) (qs : list Question)
  : StudyPlanData :=
  {| summary := Some "Summary"%string; concept_map := None;
     learning_objectives := Some ["Objective"%string];
     worked_examples := Some examples; active_recall := Some qs |}.

(** A document with no worked example and two questions, walked through to
    the end with a completion callback registered. *)
Definition two_question_doc : StudyPlanData :=
  sample_doc [] [mc_question "a"; short_question "b"].

Definition two_question_walk : list Op :=
  [OpSetOnComplete 1%nat; OpRender; OpNextSection;
   OpSubmitQuizAnswer "a"; OpNextQuizQuestion;
   OpSubmitQuizAnswer "b"; OpNextQuizQuestion; OpNextSection].

(** A multiple-choice question with an empty list of options. *)
Definition optionless_question : Question :=
  {| q_question := "Which one?"%string; q_type := "multiple_choice"%string;
     q_options := Some []; q_answer := "a"%string; q_difficulty_rating := Some 1 |}.

(** Two correct answers and a wrong one, before the last click. *)
Definition two_of_three : SequentialStudy :=
  run (new_SequentialStudy
         (sample_doc [] [mc_question "a"; mc_question "b"; mc_question "c"]))
    [OpRender; OpNextSection; OpSubmitQuizAnswer "a"; OpNextQuizQuestion;
     OpSubmitQuizAnswer "b"; OpNextQuizQuestion; OpSubmitQuizAnswer "x"].

Ltac in_cases H :=
  cbn in H;
  repeat match type of H with
         | _ \/ _ => destruct H as [H | H]
         | False => contradiction
         end.

(** * Properties *)

(** ** Arrays *)

Lemma JS_length_nonneg {A : Type} (l : list A) : 0 <= JS.length l.
Proof. unfold JS.length. lia. Qed.

Lemma JS_index_Some {A : Type} (l : list A) (i : Z) :
  0 <= i < JS.length l -> exists x, JS.index l i = Some x.
Proof.
  unfold JS.index, JS.length. intros H.
  destruct (Z.ltb_spec i 0) as [Hneg | _]; [lia |].
  destruct (nth_error l (Z.to_nat i)) as [x |] eqn:E.
  - now exists x.
  - apply nth_error_None in E. lia.
Qed.

Lemma JS_index_bounds {A : Type} (l : list A) (i : Z) (x : A) :
  JS.index l i = Some x -> 0 <= i < JS.length l.
Proof.
  unfold JS.index, JS.length.
  destruct (Z.ltb_spec i 0) as [Hneg | Hpos]; [discriminate |].
  intros E. assert (Hlt : (Z.to_nat i < List.length l)%nat).
  { apply nth_error_Some. congruence. }
  lia.
Qed.

Lemma update_nat_length {A : Type} (f : A -> A) (l : list A) (i : nat) :
  List.length (JS.update_nat l i f) = List.length l.
Proof.
  revert i. induction l as [| x xs IH]; intros [| j]; simpl; auto.
Qed.

Lemma JS_update_length {A : Type} (f : A -> A) (l : list A) (i : Z) :
  JS.length (JS.update l i f) = JS.length l.
Proof.
  unfold JS.update, JS.length.
  destruct (i <? 0); [reflexivity |]. now rewrite update_nat_length.
Qed.

(** ** Construction *)

Lemma buildSections_leading (d : StudyPlanData) :
  buildSections d =
  leading_sections d
  ++ match present_nonempty (active_recall d) with
     | Some active => [quiz_state (JS.slice0 3 active) 0 0 false]
     | None => []
     end.
Proof.
  unfold buildSections, leading_sections.
  destruct (present_nonempty (worked_examples d));
    destruct (present_nonempty (active_recall d)); reflexivity.
Qed.

Lemma firstn_prefix {A : Type} (n : nat) (l : list A) :
  exists rest, l = firstn n l ++ rest.
Proof. exists (skipn n l). symmetry. apply firstn_skipn. Qed.

Lemma has_example_iff (d : StudyPlanData) :
  has_section example (buildSections d) <-> worked_list d <> [].
Proof.
  unfold buildSections, has_section, worked_list.
  destruct (worked_examples d) as [[| e es] |];
    destruct (active_recall d) as [[| q qs] |];
    cbn [present_nonempty or_default]; split;
    try (intros (s & Hin & Hty); in_cases Hin; subst s; discriminate);
    try (intros Hne; now contradiction Hne);
    intros _; exists (example_section (e :: es)); cbn; auto.
Qed.

Lemma has_quiz_iff (d : StudyPlanData) :
  has_section quiz (buildSections d) <-> quiz_list d <> [].
Proof.
  unfold buildSections, has_section, quiz_list.
  destruct (worked_examples d) as [[| e es] |];
    destruct (active_recall d) as [[| q qs] |];
    cbn [present_nonempty or_default]; split;
    try (intros (s & Hin & Hty); in_cases Hin; subst s; discriminate);
    try (intros Hne; now contradiction Hne);
    intros _; exists (quiz_section (q :: qs)); cbn; auto.
Qed.

Lemma quiz_section_questions (d : StudyPlanData) (s : StudySection) :
  In s (buildSections d) -> type s = quiz ->
  content s = QuizContent (firstn 3 (quiz_list d)) 0 0.
Proof.
  unfold buildSections, quiz_list.
  destruct (worked_examples d) as [[| e es] |];
    destruct (active_recall d) as [[| q qs] |];
    cbn [present_nonempty or_default]; intros Hin Hty;
    in_cases Hin; subst s; try discriminate Hty; reflexivity.
Qed.

Lemma section_order (d : StudyPlanData) :
  map type (buildSections d) = spec_section_order d.
Proof.
  unfold buildSections, spec_section_order, worked_list, quiz_list.
  destruct (worked_examples d) as [[| e es] |];
    destruct (active_recall d) as [[| q qs] |]; reflexivity.
Qed.

Lemma explanation_first (d : StudyPlanData) :
  exists rest, buildSections d = explanation_section d :: rest.
Proof.
  rewrite buildSections_leading. unfold leading_sections.
  eexists. reflexivity.
Qed.

(** C1. The section list built by the constructor starts with the
    Explanation section; it has an Example section exactly when the document
    has worked examples and a Quiz section exactly when it has quiz
    questions; the Quiz section holds the first min(3, len) questions of the
    document, in order, with the quiz state at zero; and the order of the
    sections is Explanation, Example, Quiz. *)
Theorem buildSections_reference (d : StudyPlanData) :
  (exists rest, buildSections d = explanation_section d :: rest)
  /\ (has_section example (buildSections d) <-> worked_list d <> [])
  /\ (has_section quiz (buildSections d) <-> quiz_list d <> [])
  /\ (forall s, In s (buildSections d) -> type s = quiz ->
        content s = QuizContent (firstn 3 (quiz_list d)) 0 0
        /\ List.length (firstn 3 (quiz_list d))
           = Nat.min 3 (List.length (quiz_list d))
        /\ exists rest, quiz_list d = firstn 3 (quiz_list d) ++ rest)
  /\ map type (buildSections d) = spec_section_order d.
Proof.
  split; [apply explanation_first |].
  split; [apply has_example_iff |].
  split; [apply has_quiz_iff |].
  split; [| apply section_order].
  intros s Hin Hty. split; [now apply quiz_section_questions |].
  split; [apply length_firstn | apply firstn_prefix].
Qed.

Lemma buildSections_reference_witness :
  content (quiz_section [mc_question "a"; mc_question "b"; mc_question "c";
                         mc_question "d"])
  = QuizContent [mc_question "a"; mc_question "b"; mc_question "c"] 0 0.
Proof.
  refine (proj1 (proj1 (proj2 (proj2 (proj2
            (buildSections_reference
               (sample_doc [] [mc_question "a"; mc_question "b"; mc_question "c";
                               mc_question "d"])))))
            (quiz_section [mc_question "a"; mc_question "b"; mc_question "c";
                           mc_question "d"]) _ _)).
  - simpl. auto.
  - reflexivity.
Defined.

(** ** What each method leaves alone *)

Lemma renderSection_frame (this : SequentialStudy) :
  currentSectionIndex (fst (renderSection this)) = currentSectionIndex this
  /\ sections (fst (renderSection this)) = sections this
  /\ onComplete (fst (renderSection this)) = onComplete this.
Proof.
  unfold renderSection.
  destruct (container this); [| now cbn].
  destruct (getCurrentSection this) as [section |]; [| now cbn].
  destruct (SectionType_eqb (type section) quiz);
    [destruct (renderQuiz (content section)) |]; now cbn.
Qed.

Lemma fadeIn_frame (this : SequentialStudy) :
  currentSectionIndex (fst (fst (fadeIn this))) = currentSectionIndex this
  /\ sections (fst (fst (fadeIn this))) = sections this
  /\ onComplete (fst (fst (fadeIn this))) = onComplete this.
Proof.
  unfold fadeIn. destruct (container this); [| now cbn].
  pose proof (renderSection_frame this) as H.
  destruct (renderSection this) as [this' []]; exact H.
Qed.

Lemma nextSection_last (this : SequentialStudy) :
  JS.length (sections this) - 1 <= currentSectionIndex this ->
  nextSection this =
  (this,
   match onComplete this with Some callback => [Completed callback] | None => [] end,
   Returned).
Proof.
  intros H. unfold nextSection.
  destruct (Z.geb_spec (currentSectionIndex this) (JS.length (sections this) - 1));
    [reflexivity | lia].
Qed.

Lemma nextSection_inner (this : SequentialStudy) :
  currentSectionIndex this < JS.length (sections this) - 1 ->
  currentSectionIndex (fst (fst (nextSection this))) = currentSectionIndex this + 1
  /\ sections (fst (fst (nextSection this))) = sections this
  /\ onComplete (fst (fst (nextSection this))) = onComplete this
  /\ forall callback, ~ In (Completed callback) (snd (fst (nextSection this))).
Proof.
  intros H. unfold nextSection, nextSection_resume.
  destruct (Z.geb_spec (currentSectionIndex this) (JS.length (sections this) - 1));
    [lia |].
  pose proof (fadeIn_frame (with_index this (currentSectionIndex this + 1))) as F.
  assert (E : forall callback,
             ~ In (Completed callback)
                 (snd (fst (fadeIn (with_index this (currentSectionIndex this + 1)))))).
  { intros callback. unfold fadeIn.
    destruct (container (with_index this (currentSectionIndex this + 1)));
      [| cbn; tauto].
    destruct (renderSection (with_index this (currentSectionIndex this + 1)))
      as [t []]; cbn; [intros [X | []]; discriminate X | tauto]. }
  destruct (fadeIn (with_index this (currentSectionIndex this + 1)))
    as [[this2 inn] o]. cbn in *.
  repeat split; try tauto.
  intros callback Hin. apply in_app_or in Hin. destruct Hin as [Hin | Hin].
  - unfold fadeOut in Hin. destruct (container this); cbn in Hin;
      [destruct Hin as [X | []]; discriminate X | contradiction].
  - exact (E callback Hin).
Qed.

Lemma prevSection_inner (this : SequentialStudy) :
  0 < currentSectionIndex this ->
  currentSectionIndex (fst (fst (prevSection this))) = currentSectionIndex this - 1
  /\ sections (fst (fst (prevSection this))) = sections this
  /\ onComplete (fst (fst (prevSection this))) = onComplete this.
Proof.
  intros H. unfold prevSection.
  destruct (Z.leb_spec (currentSectionIndex this) 0); [lia |].
  pose proof (fadeIn_frame (with_index this (currentSectionIndex this - 1))) as F.
  destruct (fadeIn (with_index this (currentSectionIndex this - 1)))
    as [[this2 inn] o]. exact F.
Qed.

Lemma submitQuizAnswer_frame (a : string) (this : SequentialStudy) :
  currentSectionIndex (fst (submitQuizAnswer a this)) = currentSectionIndex this
  /\ JS.length (sections (fst (submitQuizAnswer a this))) = JS.length (sections this).
Proof.
  unfold submitQuizAnswer.
  destruct (getCurrentSection this) as [section |]; [| now cbn].
  destruct (content section) as [| | questions cq sc]; try now cbn.
  destruct (JS.index questions cq) as [question |]; [| now cbn].
  destruct (isCorrect question a);
    (destruct (container _) as [[| [] fb |] |]; cbn;
     rewrite ?JS_update_length; now split).
Qed.

Lemma showQuizResults_frame (this : SequentialStudy) :
  currentSectionIndex (fst (showQuizResults this)) = currentSectionIndex this
  /\ JS.length (sections (fst (showQuizResults this))) = JS.length (sections this).
Proof.
  unfold showQuizResults.
  destruct (getCurrentSection this) as [section |]; [| now cbn].
  destruct (content section) as [| | questions cq sc]; try now cbn.
  destruct (container this) as [[| ty fb |] |]; cbn;
    rewrite ?JS_update_length; now split.
Qed.

Lemma nextQuizQuestion_frame (this : SequentialStudy) :
  currentSectionIndex (fst (nextQuizQuestion this)) = currentSectionIndex this
  /\ JS.length (sections (fst (nextQuizQuestion this))) = JS.length (sections this).
Proof.
  unfold nextQuizQuestion.
  destruct (container this) as [[| [] [fb |] |] |]; try now cbn.
  destruct (JS.index (sections this) (fb_section fb)) as [section |]; [| now cbn].
  destruct (content section) as [| | questions cq sc]; try now cbn.
  destruct (cq <? JS.length questions - 1).
  - destruct (renderSection_frame
                (with_sections this
                   (JS.update (sections this) (fb_section fb)
                      increment_currentQuestion))) as (E1 & E2 & _).
    rewrite E1, E2. cbn. rewrite JS_update_length. now split.
  - apply showQuizResults_frame.
Qed.

Lemma render_frame (this : SequentialStudy) :
  currentSectionIndex (fst (render this)) = currentSectionIndex this
  /\ sections (fst (render this)) = sections this.
Proof.
  unfold render.
  destruct (renderSection_frame (with_container this (Some DomForeign)))
    as (E1 & E2 & _).
  now rewrite E1, E2.
Qed.

Lemma step_index_in_bounds (this : SequentialStudy) (op : Op) :
  index_in_bounds this -> index_in_bounds (step_state this op).
Proof.
  unfold index_in_bounds, step_state, step. intros H.
  destruct op as [| callback | | | a |].
  - destruct (render_frame this) as (E1 & E2).
    destruct (render this) as [s o]. cbn in *. now rewrite E1, E2.
  - exact H.
  - destruct (Z.lt_ge_cases (currentSectionIndex this)
                (JS.length (sections this) - 1)) as [Hlt | Hge].
    + destruct (nextSection_inner this Hlt) as (E1 & E2 & _).
      rewrite E1, E2. lia.
    + now rewrite (nextSection_last this Hge).
  - destruct (Z.lt_ge_cases 0 (currentSectionIndex this)) as [Hlt | Hge].
    + destruct (prevSection_inner this Hlt) as (E1 & E2 & _).
      rewrite E1, E2. lia.
    + unfold prevSection.
      destruct (Z.leb_spec (currentSectionIndex this) 0); [exact H | lia].
  - destruct (submitQuizAnswer_frame a this) as (E1 & E2).
    destruct (submitQuizAnswer a this) as [s o]. cbn in *. now rewrite E1, E2.
  - destruct (nextQuizQuestion_frame this) as (E1 & E2).
    destruct (nextQuizQuestion this) as [s o]. cbn in *. now rewrite E1, E2.
Qed.

Lemma new_index_in_bounds (d : StudyPlanData) :
  index_in_bounds (new_SequentialStudy d).
Proof.
  unfold index_in_bounds. cbn.
  destruct (explanation_first d) as [rest ->]. unfold JS.length. cbn. lia.
Qed.

Lemma run_index_in_bounds (ops : list Op) (this : SequentialStudy) :
  index_in_bounds this -> index_in_bounds (run this ops).
Proof.
  revert this. induction ops as [| op ops IH]; intros this H; cbn;
    [exact H | apply IH, step_index_in_bounds, H].
Qed.

Lemma getCurrentSection_in_bounds (this : SequentialStudy) :
  index_in_bounds this ->
  exists s, getCurrentSection this = Some s
            /\ nth_error (sections this) (Z.to_nat (currentSectionIndex this)) = Some s.
Proof.
  intros H. destruct (JS_index_Some _ _ H) as [s E].
  exists s. split; [exact E |].
  unfold getCurrentSection, JS.index in E.
  destruct (Z.ltb_spec (currentSectionIndex this) 0);
    [unfold index_in_bounds in H; lia | exact E].
Qed.

(** ** Navigation *)

(** C9. The index invariant 0 <= currentSectionIndex < len(sections) holds
    for a new controller, every call preserves it, and so on every state
    reached from a new controller [getCurrentSection] returns the section at
    [currentSectionIndex] and never the [null] of its fallback. *)
Theorem currentSectionIndex_invariant :
  (forall d, index_in_bounds (new_SequentialStudy d))
  /\ (forall this op, index_in_bounds this -> index_in_bounds (step_state this op))
  /\ (forall d ops,
        index_in_bounds (run (new_SequentialStudy d) ops)
        /\ exists s,
            getCurrentSection (run (new_SequentialStudy d) ops) = Some s
            /\ nth_error (sections (run (new_SequentialStudy d) ops))
                 (Z.to_nat (currentSectionIndex (run (new_SequentialStudy d) ops)))
               = Some s).
Proof.
  split; [exact new_index_in_bounds |].
  split; [exact step_index_in_bounds |].
  intros d ops.
  assert (H : index_in_bounds (run (new_SequentialStudy d) ops))
    by apply run_index_in_bounds, new_index_in_bounds.
  split; [exact H | now apply getCurrentSection_in_bounds].
Qed.

Lemma currentSectionIndex_invariant_witness :
  index_in_bounds
    (step_state (new_SequentialStudy (sample_doc [] [mc_question "a"]))
       OpNextSection).
Proof.
  apply (proj1 (proj2 currentSectionIndex_invariant)).
  unfold index_in_bounds. cbn. lia.
Defined.

(** The invariant is one of completed calls: two calls that both pass the
    guard before either resumes (a second click during the fade out) leave the
    index past the last section. *)
Lemma overlapping_nextSection_calls :
  let this := new_SequentialStudy (sample_doc [] [mc_question "a"]) in
  (currentSectionIndex this >=? JS.length (sections this) - 1) = false
  /\ getCurrentSection
       (fst (fst (nextSection_resume (fst (fst (nextSection_resume this))))))
     = None.
Proof. split; reflexivity. Qed.

(** C10. On the last section [nextSection] returns with the controller as it
    was (index and sections included), starts no transition, and does nothing
    at all when no completion handler is registered. *)
Theorem nextSection_at_last_section (this : SequentialStudy) :
  currentSectionIndex this = JS.length (sections this) - 1 ->
  fst (fst (nextSection this)) = this
  /\ snd (nextSection this) = Returned
  /\ (forall e, In e (snd (fst (nextSection this))) ->
        exists callback, onComplete this = Some callback /\ e = Completed callback)
  /\ (onComplete this = None -> nextSection this = (this, [], Returned)).
Proof.
  intros H. rewrite (nextSection_last this) by lia. cbn.
  repeat split.
  - intros e Hin. destruct (onComplete this) as [callback |]; cbn in Hin.
    + destruct Hin as [<- | []]. now exists callback.
    + contradiction.
  - now intros ->.
Qed.

Lemma nextSection_at_last_section_witness :
  nextSection (new_SequentialStudy (sample_doc [] []))
  = (new_SequentialStudy (sample_doc [] []), [], Returned).
Proof.
  apply (nextSection_at_last_section (new_SequentialStudy (sample_doc [] []))).
  - reflexivity.
  - reflexivity.
Defined.

(** C3. On the first section [prevSection] changes nothing and starts no
    transition; on any later section it lowers [currentSectionIndex] by
    exactly one, which stays at or above zero. *)
Theorem prevSection_steps (this : SequentialStudy) :
  (currentSectionIndex this = 0 -> prevSection this = (this, [], Returned))
  /\ (0 < currentSectionIndex this ->
      currentSectionIndex (fst (fst (prevSection this))) = currentSectionIndex this - 1
      /\ 0 <= currentSectionIndex (fst (fst (prevSection this)))
      /\ sections (fst (fst (prevSection this))) = sections this).
Proof.
  split.
  - intros H. unfold prevSection. now rewrite H.
  - intros H. destruct (prevSection_inner this H) as (E1 & E2 & _).
    rewrite E1, E2. repeat split. lia.
Qed.

Lemma prevSection_steps_witness :
  prevSection (new_SequentialStudy (sample_doc [] [mc_question "a"]))
  = (new_SequentialStudy (sample_doc [] [mc_question "a"]), [], Returned)
  /\ currentSectionIndex
       (fst (fst (prevSection
                    (step_state
                       (new_SequentialStudy (sample_doc [] [mc_question "a"]))
                       OpNextSection)))) = 0.
Proof.
  split.
  - apply (proj1 (prevSection_steps
                    (new_SequentialStudy (sample_doc [] [mc_question "a"])))).
    reflexivity.
  - apply (proj2 (prevSection_steps
                    (step_state
                       (new_SequentialStudy (sample_doc [] [mc_question "a"]))
                       OpNextSection))).
    cbn. lia.
Defined.

Lemma iter_nextSection_S (k : nat) (this : SequentialStudy) :
  iter_nextSection (S k) this = fst (fst (nextSection (iter_nextSection k this))).
Proof. reflexivity. Qed.

Lemma iter_nextSection_index (k : nat) (this : SequentialStudy) :
  currentSectionIndex this = 0 -> sections this <> [] ->
  currentSectionIndex (iter_nextSection k this)
  = Z.min (Z.of_nat k) (JS.length (sections this) - 1)
  /\ sections (iter_nextSection k this) = sections this
  /\ onComplete (iter_nextSection k this) = onComplete this.
Proof.
  intros H0 Hne.
  assert (Hlen : 1 <= JS.length (sections this)).
  { unfold JS.length. destruct (sections this); [contradiction | cbn; lia]. }
  induction k as [| k (IH1 & IH2 & IH3)].
  - cbn. rewrite H0. repeat split. lia.
  - rewrite iter_nextSection_S.
    destruct (Z.lt_ge_cases (currentSectionIndex (iter_nextSection k this))
                (JS.length (sections (iter_nextSection k this)) - 1))
      as [Hlt | Hge].
    + destruct (nextSection_inner _ Hlt) as (E1 & E2 & E3 & _).
      rewrite E1, E2, E3, IH1, IH2, IH3. repeat split.
      rewrite IH1, IH2 in Hlt. lia.
    + rewrite (nextSection_last _ Hge). cbn. rewrite IH1, IH2, IH3.
      repeat split. rewrite IH1, IH2 in Hge. lia.
Qed.

Lemma advance_indices_from (k : nat) (this : SequentialStudy) :
  0 <= currentSectionIndex this ->
  currentSectionIndex this + Z.of_nat k <= JS.length (sections this) ->
  advance_indices k this
  = map Z.of_nat (seq (Z.to_nat (currentSectionIndex this)) k).
Proof.
  revert this. induction k as [| k IH]; intros this H0 Hk; [reflexivity |].
  cbn [advance_indices seq map]. f_equal; [lia |].
  destruct k as [| k]; [reflexivity |].
  assert (Hlt : currentSectionIndex this < JS.length (sections this) - 1) by lia.
  destruct (nextSection_inner this Hlt) as (E1 & E2 & _).
  rewrite IH; rewrite ?E1, ?E2; try lia.
  f_equal. f_equal. lia.
Qed.

(** C2. From a controller at section 0 with a registered completion
    callback, the len(sections) successive [nextSection] calls are issued at
    the indices 0, 1, ..., len-1, each once and in this order; every call
    issued before the last section raises the index by exactly one and does
    not invoke the callback; every call issued on the last section (the
    len-th call and each later one) invokes the callback exactly once and
    leaves the controller as it is. *)
Theorem nextSection_visits_all (this : SequentialStudy) (callback : nat) :
  currentSectionIndex this = 0 ->
  sections this <> [] ->
  onComplete this = Some callback ->
  advance_indices (List.length (sections this)) this
  = map Z.of_nat (seq 0 (List.length (sections this)))
  /\ (forall k, (S k < List.length (sections this))%nat ->
        currentSectionIndex (iter_nextSection (S k) this)
        = currentSectionIndex (iter_nextSection k this) + 1
        /\ forall cb, ~ In (Completed cb) (nextSection_events_after k this))
  /\ (forall k, (List.length (sections this) <= S k)%nat ->
        nextSection_events_after k this = [Completed callback]
        /\ iter_nextSection (S k) this = iter_nextSection k this).
Proof.
  intros H0 Hne Hcb. split; [| split].
  - rewrite (advance_indices_from _ this); rewrite ?H0; [reflexivity | lia |].
    unfold JS.length. lia.
  - intros k Hk.
    destruct (iter_nextSection_index k this H0 Hne) as (E1 & E2 & _).
    assert (Hlt : currentSectionIndex (iter_nextSection k this)
                  < JS.length (sections (iter_nextSection k this)) - 1).
    { rewrite E1, E2. unfold JS.length. lia. }
    destruct (nextSection_inner _ Hlt) as (F1 & _ & _ & F4).
    rewrite iter_nextSection_S. split; [exact F1 | exact F4].
  - intros k Hk.
    destruct (iter_nextSection_index k this H0 Hne) as (E1 & E2 & E3).
    assert (Hge : JS.length (sections (iter_nextSection k this)) - 1
                  <= currentSectionIndex (iter_nextSection k this)).
    { rewrite E1, E2. unfold JS.length. lia. }
    unfold nextSection_events_after. rewrite iter_nextSection_S.
    rewrite (nextSection_last _ Hge). cbn. rewrite E3, Hcb. now split.
Qed.

Lemma nextSection_visits_all_witness :
  advance_indices 2
    (setOnComplete 7%nat
       (new_SequentialStudy (sample_doc [] [mc_question "a"])))
  = [0; 1]
  /\ nextSection_events_after 1
       (setOnComplete 7%nat
          (new_SequentialStudy (sample_doc [] [mc_question "a"])))
     = [Completed 7%nat]
  /\ nextSection_events_after 2
       (setOnComplete 7%nat
          (new_SequentialStudy (sample_doc [] [mc_question "a"])))
     = [Completed 7%nat].
Proof.
  pose proof (nextSection_visits_all
                (setOnComplete 7%nat
                   (new_SequentialStudy (sample_doc [] [mc_question "a"])))
                7%nat eq_refl ltac:(discriminate) eq_refl) as (H1 & _ & H3).
  split; [exact H1 |].
  split; [apply (H3 1%nat) | apply (H3 2%nat)]; cbn; lia.
Defined.

(** ** Strings *)

Lemma startsWith_spec (s p : string) :
  JS.startsWith s p = true <-> exists post, s = (p ++ post)%string.
Proof.
  revert s. induction p as [| a p IH]; intros s; cbn.
  - split; [intros _; now exists s | intros _; now destruct s].
  - destruct s as [| b s].
    + split; [discriminate | intros [post H]; discriminate H].
    + cbn [JS.startsWith]. rewrite andb_true_iff, Ascii.eqb_eq, IH. split.
      * intros [-> [post ->]]. now exists post.
      * intros [post H]. injection H as -> ->. split; [reflexivity | now exists post].
Qed.

Lemma includes_spec (s sub : string) :
  JS.includes s sub = true <-> Substring sub s.
Proof.
  unfold Substring. induction s as [| c s IH]; cbn [JS.includes];
    rewrite orb_true_iff, startsWith_spec.
  - split.
    + intros [[post H] | H]; [| discriminate]. now exists EmptyString, post.
    + intros (pre & post & H). left. destruct pre; [now exists post |].
      discriminate H.
  - rewrite IH. split.
    + intros [[post H] | (pre & post & H)].
      * now exists EmptyString, post.
      * exists (String c pre), post. cbn. now rewrite H.
    + intros (pre & post & H). destruct pre as [| c' pre].
      * left. now exists post.
      * right. injection H as _ H. now exists pre, post.
Qed.

(** [trim] removes whitespace, all of it, from both ends and nothing else. *)
Lemma trimStart_spec (s : string) :
  exists ws, s = (ws ++ JS.trimStart s)%string
             /\ all_whitespace ws = true
             /\ forall c r, JS.trimStart s = String c r -> JS.is_whitespace c = false.
Proof.
  induction s as [| c s (ws & E & W & N)]; cbn [JS.trimStart].
  - exists EmptyString. repeat split. discriminate.
  - destruct (JS.is_whitespace c) eqn:C.
    + exists (String c ws). cbn. rewrite C, W, <- E. now repeat split.
    + exists EmptyString. repeat split. intros c' r H. now injection H as <- _.
Qed.

Lemma trimEnd_spec (s : string) :
  exists ws, s = (JS.trimEnd s ++ ws)%string
             /\ all_whitespace ws = true
             /\ forall r c, JS.trimEnd s = (r ++ String c EmptyString)%string ->
                            JS.is_whitespace c = false.
Proof.
  induction s as [| c s (ws & E & W & N)]; cbn [JS.trimEnd].
  - exists EmptyString. repeat split. intros [| a r] c H; discriminate H.
  - destruct (JS.trimEnd s) as [| a t] eqn:T.
    + cbn in E. subst s. destruct (JS.is_whitespace c) eqn:C.
      * exists (String c ws). cbn. rewrite C, W. now repeat split.
      * exists ws. cbn. repeat split; [exact W |].
        intros [| a r] c' H; cbn in H.
        -- now injection H as <-.
        -- injection H as _ H. destruct r; discriminate H.
    + exists ws. cbn. rewrite E at 1. repeat split; [exact W |].
      intros [| b r] c' H; cbn in H.
      * discriminate H.
      * injection H as _ H. exact (N r c' H).
Qed.

Lemma JS_index_update {A : Type} (f : A -> A) (l : list A) (i : Z) :
  JS.index (JS.update l i f) i = option_map f (JS.index l i).
Proof.
  unfold JS.index, JS.update. destruct (i <? 0); [reflexivity |].
  generalize (Z.to_nat i) as n. induction l as [| x xs IH]; intros [| n]; cbn; auto.
Qed.

(** ** Grading *)

Lemma submitQuizAnswer_grades (a : string) (this : SequentialStudy)
  (section : StudySection) (questions : list Question) (cq sc : Z)
  (question : Question) :
  getCurrentSection this = Some section ->
  content section = QuizContent questions cq sc ->
  JS.index questions cq = Some question ->
  (exists section',
      getCurrentSection (fst (submitQuizAnswer a this)) = Some section'
      /\ content section'
         = QuizContent questions cq (sc + if isCorrect question a then 1 else 0))
  /\ (forall fb0, container this = Some (DomSection quiz fb0) ->
        container (fst (submitQuizAnswer a this))
        = Some (DomSection quiz
                  (Some {| fb_correct := isCorrect question a;
                           fb_section := currentSectionIndex this |}))
        /\ snd (submitQuizAnswer a this) = Returned).
Proof.
  intros Hs Hc Hq. unfold submitQuizAnswer. rewrite Hs, Hc, Hq.
  destruct (isCorrect question a); split.
  - exists (increment_score section). split.
    + destruct (container _) as [[| [] fb |] |]; cbn;
        unfold getCurrentSection; cbn; rewrite JS_index_update;
        unfold getCurrentSection in Hs; now rewrite Hs.
    + unfold increment_score. now rewrite Hc.
  - intros fb0 Hd. cbn. rewrite Hd. now split.
  - exists section. split.
    + destruct (container this) as [[| [] fb |] |]; cbn; exact Hs.
    + rewrite Hc. now rewrite Z.add_0_r.
  - intros fb0 Hd. rewrite Hd. now split.
Qed.

(** C4. A multiple-choice question is judged correct exactly when the
    candidate and the stored answer are equal after lower-casing and
    trimming both; [submitQuizAnswer] shows that verdict and adds one to the
    score for it, nothing otherwise; "Paris" is correct for "paris". *)
Theorem multiple_choice_grading (question : Question) (candidate : string) :
  q_type question = "multiple_choice"%string ->
  (isCorrect question candidate = true
   <-> JS.trim (JS.toLowerCase candidate)
       = JS.trim (JS.toLowerCase (q_answer question)))
  /\ (forall this section questions cq sc fb0,
        getCurrentSection this = Some section ->
        content section = QuizContent questions cq sc ->
        JS.index questions cq = Some question ->
        container this = Some (DomSection quiz fb0) ->
        (exists section',
            getCurrentSection (fst (submitQuizAnswer candidate this)) = Some section'
            /\ content section'
               = QuizContent questions cq
                   (sc + if isCorrect question candidate then 1 else 0))
        /\ container (fst (submitQuizAnswer candidate this))
           = Some (DomSection quiz
                     (Some {| fb_correct := isCorrect question candidate;
                              fb_section := currentSectionIndex this |})))
  /\ isCorrect (mc_question "paris") "Paris" = true.
Proof.
  intros Hty. split; [| split; [| reflexivity]].
  - unfold isCorrect. rewrite Hty, String.eqb_refl.
    apply String.eqb_eq.
  - intros this section questions cq sc fb0 Hs Hc Hq Hd.
    destruct (submitQuizAnswer_grades candidate this section questions cq sc
                question Hs Hc Hq) as (H1 & H2).
    split; [exact H1 | exact (proj1 (H2 fb0 Hd))].
Qed.

Lemma multiple_choice_grading_witness :
  isCorrect (mc_question "Paris") "  PARIS " = true.
Proof.
  apply (proj1 (multiple_choice_grading (mc_question "Paris") "  PARIS " eq_refl)).
  reflexivity.
Defined.

Lemma shortAnswer_trim_counterexample :
  ~ (isCorrect (short_question "cell ") "the cell" = true
     <-> spec_shortAnswer_correct (short_question "cell ") "the cell" = true).
Proof.
  intros [_ H]. specialize (H eq_refl). discriminate H.
Qed.

(** C5 (amended). A question of any other type is judged correct exactly
    when, after lower-casing both strings (nothing is trimmed), the candidate
    occurs in the stored answer or the stored answer occurs in the candidate;
    the verdict is the containment rule on trimmed strings whenever neither
    lower-cased string has surrounding whitespace; "The mitochondria is the
    powerhouse" is correct for "mitochondria". *)
Theorem short_answer_grading (question : Question) (candidate : string) :
  q_type question <> "multiple_choice"%string ->
  (isCorrect question candidate = true
   <-> Substring (JS.toLowerCase candidate) (JS.toLowerCase (q_answer question))
       \/ Substring (JS.toLowerCase (q_answer question)) (JS.toLowerCase candidate))
  /\ (JS.trim (JS.toLowerCase candidate) = JS.toLowerCase candidate ->
      JS.trim (JS.toLowerCase (q_answer question)) = JS.toLowerCase (q_answer question) ->
      isCorrect question candidate = spec_shortAnswer_correct question candidate)
  /\ isCorrect (short_question "mitochondria") "The mitochondria is the powerhouse"
     = true.
Proof.
  intros Hty. apply String.eqb_neq in Hty.
  split; [| split; [| reflexivity]].
  - unfold isCorrect. rewrite Hty, orb_true_iff, !includes_spec. tauto.
  - intros Hc Hk. unfold isCorrect, spec_shortAnswer_correct.
    rewrite Hty, Hc, Hk. apply orb_comm.
Qed.

Lemma short_answer_grading_witness :
  isCorrect (short_question "Cell") "the cell wall" = true.
Proof.
  apply (proj1 (short_answer_grading (short_question "Cell") "the cell wall"
                  ltac:(discriminate))).
  right. exists "the "%string, " wall"%string. reflexivity.
Defined.

(** ** The result screen *)

Lemma Number_eqb_eq (x y : JS.Number) : Number_eqb x y = true -> x = y.
Proof.
  destruct x as [a | a | | a m e], y as [b | b | | b m' e']; cbn;
    try discriminate; try reflexivity.
  - intros H. apply Bool.eqb_prop in H. now subst.
  - intros H. apply Bool.eqb_prop in H. now subst.
  - rewrite !andb_true_iff. intros [[H1 H2] H3].
    apply Bool.eqb_prop in H1. apply Pos.eqb_eq in H2. apply Z.eqb_eq in H3.
    now subst.
Qed.

Lemma percentage_tables :
  percentage_table 1 = true /\ percentage_table 2 = true /\ percentage_table 3 = true.
Proof. vm_compute. repeat split. Qed.

Lemma percentage_of_exact (score total : Z) :
  1 <= total <= 3 ->
  0 <= score <= Z.of_nat checked_scores ->
  percentage_of score total = JS.of_int (exact_percentage score total).
Proof.
  intros Ht Hs. destruct percentage_tables as (T1 & T2 & T3).
  assert (Hin : In (Z.to_nat score) (seq 0 (S checked_scores))).
  { apply in_seq. lia. }
  assert (T : percentage_table total = true).
  { assert (C : total = 1 \/ total = 2 \/ total = 3) by lia.
    destruct C as [-> | [-> | ->]]; assumption. }
  unfold percentage_table in T. rewrite forallb_forall in T.
  specialize (T _ Hin). unfold percentage_agrees in T.
  rewrite Z2Nat.id in T by lia. now apply Number_eqb_eq.
Qed.

Lemma round_half_up_nearest (n d : Z) :
  0 < d ->
  2 * (round_half_up n d * d) - d <= 2 * n < 2 * (round_half_up n d * d) + d.
Proof.
  intros Hd. unfold round_half_up.
  pose proof (Z.div_mod (2 * n + d) (2 * d) ltac:(lia)) as E.
  pose proof (Z.mod_pos_bound (2 * n + d) (2 * d) ltac:(lia)) as B.
  nia.
Qed.

(** C8. When the quiz is finalised the result screen reports the score, the
    number of questions of the Quiz section and a percentage equal to
    100 * score / total rounded to the nearest integer in exact arithmetic;
    for score 2 of 3 it is 67. *)
Theorem showQuizResults_percentage (this : SequentialStudy)
  (section : StudySection) (questions : list Question) (cq score : Z)
  (ty : SectionType) (fb : option Feedback) :
  getCurrentSection this = Some section ->
  content section = QuizContent questions cq score ->
  container this = Some (DomSection ty fb) ->
  1 <= JS.length questions <= 3 ->
  0 <= score <= Z.of_nat checked_scores ->
  container (fst (showQuizResults this))
  = Some (DomResults score (JS.length questions)
            (JS.of_int (exact_percentage score (JS.length questions))))
  /\ 2 * (exact_percentage score (JS.length questions) * JS.length questions)
     - JS.length questions
     <= 2 * (100 * score)
     < 2 * (exact_percentage score (JS.length questions) * JS.length questions)
       + JS.length questions
  /\ percentage_of 2 3 = JS.of_int 67.
Proof.
  intros Hs Hc Hd Ht Hsc. split; [| split].
  - unfold showQuizResults. rewrite Hs, Hc, Hd. cbn.
    now rewrite percentage_of_exact.
  - apply round_half_up_nearest. lia.
  - now rewrite (percentage_of_exact 2 3) by (cbn; lia).
Qed.

Lemma showQuizResults_percentage_witness :
  container (fst (showQuizResults two_of_three))
  = Some (DomResults 2
            (JS.length [mc_question "a"; mc_question "b"; mc_question "c"])
            (JS.of_int
               (exact_percentage 2
                  (JS.length [mc_question "a"; mc_question "b"; mc_question "c"])))).
Proof.
  assert (H1 : getCurrentSection two_of_three
               = Some (quiz_state
                         [mc_question "a"; mc_question "b"; mc_question "c"]
                         2 2 false))
    by (vm_compute; reflexivity).
  assert (H3 : container two_of_three
               = Some (DomSection quiz
                         (Some {| fb_correct := false; fb_section := 1 |})))
    by (vm_compute; reflexivity).
  apply (showQuizResults_percentage two_of_three _ _ 2 2 _ _ H1 eq_refl H3).
  - vm_compute. split; discriminate.
  - vm_compute. split; discriminate.
Defined.

(** ** The quiz section inside the section list *)

Lemma leading_plain (d : StudyPlanData) : Forall plain_section (leading_sections d).
Proof.
  unfold leading_sections.
  destruct (present_nonempty (worked_examples d));
    repeat constructor; cbn; discriminate.
Qed.

Lemma leading_length (d : StudyPlanData) : 1 <= JS.length (leading_sections d).
Proof.
  unfold leading_sections, JS.length.
  destruct (present_nonempty (worked_examples d)); cbn; lia.
Qed.

Lemma JS_length_app {A : Type} (l l' : list A) :
  JS.length (l ++ l') = JS.length l + JS.length l'.
Proof. unfold JS.length. rewrite length_app. lia. Qed.

Lemma index_app_last {A : Type} (l : list A) (x : A) :
  JS.index (l ++ [x]) (JS.length l) = Some x.
Proof.
  unfold JS.index, JS.length.
  destruct (Z.ltb_spec (Z.of_nat (List.length l)) 0); [lia |].
  rewrite Nat2Z.id, nth_error_app2, Nat.sub_diag; [reflexivity | lia].
Qed.

Lemma update_nat_app_last {A : Type} (f : A -> A) (l : list A) (x : A) :
  JS.update_nat (l ++ [x]) (List.length l) f = l ++ [f x].
Proof. induction l as [| y l IH]; cbn; [reflexivity | now rewrite IH]. Qed.

Lemma update_app_last {A : Type} (f : A -> A) (l : list A) (x : A) :
  JS.update (l ++ [x]) (JS.length l) f = l ++ [f x].
Proof.
  unfold JS.update, JS.length.
  destruct (Z.ltb_spec (Z.of_nat (List.length l)) 0); [lia |].
  rewrite Nat2Z.id. apply update_nat_app_last.
Qed.

Lemma index_app_cases {A : Type} (l : list A) (x y : A) (i : Z) :
  JS.index (l ++ [x]) i = Some y ->
  (i = JS.length l /\ y = x) \/ (JS.index l i = Some y /\ i < JS.length l).
Proof.
  intros H. pose proof (JS_index_bounds _ _ _ H) as B.
  rewrite JS_length_app in B. unfold JS.length in B at 2. cbn in B.
  destruct (Z.eq_dec i (JS.length l)) as [-> | Hne].
  - left. rewrite index_app_last in H. injection H as <-. now split.
  - right. split; [| lia]. revert H. unfold JS.index, JS.length in *.
    destruct (i <? 0); [discriminate |].
    rewrite nth_error_app1 by lia. auto.
Qed.

Lemma index_plain (l : list StudySection) (i : Z) (s : StudySection) :
  Forall plain_section l -> JS.index l i = Some s -> plain_section s.
Proof.
  intros Hl H. unfold JS.index in H. destruct (i <? 0); [discriminate |].
  apply nth_error_In in H. rewrite Forall_forall in Hl. auto.
Qed.

Lemma find_quiz_app (l : list StudySection) (q : StudySection) :
  Forall plain_section l -> type q = quiz -> find_quiz (l ++ [q]) = Some q.
Proof.
  intros Hl Hq. unfold find_quiz.
  induction Hl as [| s l [Hs _] _ IH]; cbn.
  - now rewrite Hq.
  - destruct (type s); try contradiction; exact IH.
Qed.

Lemma find_quiz_plain (l : list StudySection) :
  Forall plain_section l -> find_quiz l = None.
Proof.
  intros Hl. unfold find_quiz.
  induction Hl as [| s l [Hs _] _ IH]; cbn; [reflexivity |].
  destruct (type s); try contradiction; exact IH.
Qed.

Lemma present_nonempty_quiz_list (d : StudyPlanData) (active : list Question) :
  present_nonempty (active_recall d) = Some active ->
  quiz_list d = active /\ 1 <= JS.length (JS.slice0 3 active).
Proof.
  unfold quiz_list, JS.length, JS.slice0.
  destruct (active_recall d) as [[| q qs] |]; cbn; try discriminate.
  intros H. injection H as <-. cbn. split; [reflexivity | lia].
Qed.

Lemma present_nonempty_none (d : StudyPlanData) :
  present_nonempty (active_recall d) = None -> quiz_list d = [].
Proof.
  unfold quiz_list.
  destruct (active_recall d) as [[| q qs] |]; cbn; try discriminate; reflexivity.
Qed.

(** ** Rendering on reached states *)

Lemma renderSection_clears (this : SequentialStudy) :
  index_in_bounds this ->
  (forall s, getCurrentSection this = Some s -> type s = quiz ->
             renderQuiz (content s) = Returned) ->
  no_feedback (container (fst (renderSection this)))
  /\ (container this <> None ->
      exists s, getCurrentSection this = Some s
                /\ container (fst (renderSection this))
                   = Some (DomSection (type s) None)).
Proof.
  intros Hb Hr. destruct (JS_index_Some _ _ Hb) as [s Hs].
  fold (getCurrentSection this) in Hs. specialize (Hr s Hs).
  unfold renderSection.
  destruct (container this) as [c |] eqn:Hc.
  - rewrite Hs.
    assert (E : (if SectionType_eqb (type s) quiz
                 then renderQuiz (content s) else Returned) = Returned).
    { destruct (type s); cbn; auto. }
    rewrite E. cbn. split.
    + intros fb H. discriminate H.
    + intros _. now exists s.
  - cbn. rewrite Hc. split; [intros fb H; discriminate H | congruence].
Qed.

(** ** Calls on reached states *)

Lemma current_section_cases (L : list StudySection) (Q : StudySection)
  (this : SequentialStudy) :
  sections this = L ++ [Q] -> Forall plain_section L -> index_in_bounds this ->
  (currentSectionIndex this = JS.length L /\ getCurrentSection this = Some Q)
  \/ (currentSectionIndex this < JS.length L
      /\ exists s, getCurrentSection this = Some s /\ plain_section s).
Proof.
  intros Hs HL Hb. destruct (JS_index_Some _ _ Hb) as [s E].
  fold (getCurrentSection this) in E. rewrite E.
  unfold getCurrentSection in E. rewrite Hs in E.
  destruct (index_app_cases _ _ _ _ E) as [[-> ->] | [E' Hlt]].
  - left. now split.
  - right. split; [exact Hlt |]. exists s. split; [reflexivity |].
    eapply index_plain; eauto.
Qed.

Lemma submitQuizAnswer_threw (a : string) (this : SequentialStudy) :
  current_question this = None -> submitQuizAnswer a this = (this, Threw).
Proof.
  unfold current_question, submitQuizAnswer.
  destruct (getCurrentSection this) as [s |]; [| reflexivity].
  destruct (content s) as [| | qs cq sc]; try reflexivity.
  destruct (JS.index qs cq); [discriminate | reflexivity].
Qed.

Lemma quiz_observations (L : list StudySection) (qs : list Question)
  (cq sc : Z) (en : bool) (this : SequentialStudy) :
  sections this = L ++ [quiz_state qs cq sc en] -> Forall plain_section L ->
  quiz_score this = sc /\ quiz_total this = JS.length qs
  /\ quiz_navEnabled this = Some en.
Proof.
  intros Hs HL. unfold quiz_score, quiz_total, quiz_navEnabled.
  rewrite Hs, find_quiz_app by (auto; reflexivity). now cbn.
Qed.

Lemma plain_current_question (this : SequentialStudy) (s : StudySection) :
  getCurrentSection this = Some s -> plain_section s -> current_question this = None.
Proof.
  intros E [_ P]. unfold current_question. rewrite E.
  destruct (content s) as [| | qs cq sc] eqn:C; try reflexivity.
  now destruct (P qs cq sc).
Qed.


Lemma renderQuiz_reached (L : list StudySection) (qs : list Question)
  (cq sc : Z) (en : bool) (this : SequentialStudy) (s : StudySection) :
  sections this = L ++ [quiz_state qs cq sc en] -> Forall plain_section L ->
  0 <= cq < JS.length qs ->
  getCurrentSection this = Some s -> type s = quiz ->
  renderQuiz (content s) = Returned.
Proof.
  intros Hs HL Hcq E Hty. unfold getCurrentSection in E. rewrite Hs in E.
  destruct (index_app_cases _ _ _ _ E) as [[_ ->] | [E' _]].
  - cbn. now destruct (JS_index_Some _ _ Hcq) as [q ->].
  - destruct (index_plain _ _ _ HL E') as [P _]. contradiction.
Qed.

Lemma fadeIn_clears (this : SequentialStudy) :
  index_in_bounds this ->
  (forall s, getCurrentSection this = Some s -> type s = quiz ->
             renderQuiz (content s) = Returned) ->
  no_feedback (container (fst (fst (fadeIn this)))).
Proof.
  intros Hb Hr. unfold fadeIn.
  destruct (container this) as [c |] eqn:E.
  - destruct (renderSection_clears this Hb Hr) as [H _].
    destruct (renderSection this) as [t []]; exact H.
  - cbn. rewrite E. intros fb H. discriminate H.
Qed.

Lemma QuizInv_no_feedback (L : list StudySection) (qs : list Question)
  (log : list Z) (this : SequentialStudy) (cq sc : Z) (en : bool) :
  sections this = L ++ [quiz_state qs cq sc en] ->
  0 <= cq < JS.length qs ->
  0 <= sc <= JS.length log ->
  (forall i, 0 <= i < cq -> In i log) ->
  (en = true -> forall i, 0 <= i < JS.length qs -> In i log) ->
  no_feedback (container this) ->
  QuizInv L qs log this.
Proof.
  intros Hs Hcq Hsc Hlt Hen Hc. exists cq, sc, en.
  repeat (split; [assumption |]). intros fb H. now destruct (Hc fb).
Qed.

Lemma quiz_score_sections (a b : SequentialStudy) :
  sections a = sections b ->
  quiz_score a = quiz_score b /\ quiz_navEnabled a = quiz_navEnabled b.
Proof. unfold quiz_score, quiz_navEnabled. now intros ->. Qed.


Lemma QuizInv_same (L : list StudySection) (qs : list Question) (log : list Z)
  (this that : SequentialStudy) :
  sections that = sections this -> container that = container this ->
  currentSectionIndex that = currentSectionIndex this ->
  QuizInv L qs log this -> QuizInv L qs log that.
Proof.
  intros E1 E2 E3 (cq & sc & en & Hs & H). exists cq, sc, en.
  rewrite E1, E2, E3. now split.
Qed.

Lemma step_quiz (L : list StudySection) (qs : list Question) (log : list Z)
  (this : SequentialStudy) (op : Op) :
  Forall plain_section L -> index_in_bounds this -> QuizInv L qs log this ->
  QuizInv L qs (log ++ submission this op) (step_state this op)
  /\ quiz_score (step_state this op) = quiz_score this + score_delta this op
  /\ (quiz_navEnabled this = Some true ->
      quiz_navEnabled (step_state this op) = Some true)
  /\ (forall i, In i (submission this op) -> 0 <= i < JS.length qs).
Proof.
  intros HL Hb HI.
  pose proof HI as (cq & sc & en & Hs & Hcq & Hsc & Hlt & Hen & Hdom).
  destruct (quiz_observations _ _ _ _ _ _ Hs HL) as (Osc & Otot & Oen).
  assert (Same : forall that,
             sections that = sections this ->
             no_feedback (container that) \/
             (container that = container this
              /\ currentSectionIndex that = currentSectionIndex this) ->
             QuizInv L qs (log ++ []) that
             /\ quiz_score that = quiz_score this + 0
             /\ (quiz_navEnabled this = Some true -> quiz_navEnabled that = Some true)
             /\ (forall i : Z, In i [] -> 0 <= i < JS.length qs)).
  { intros that E1 Hc. rewrite app_nil_r, Z.add_0_r.
    destruct (quiz_score_sections that this E1) as [-> ->].
    split; [| split; [reflexivity | split; [tauto | intros i []]]].
    destruct Hc as [Hc | [E2 E3]].
    - apply (QuizInv_no_feedback L qs log that cq sc en); auto; congruence.
    - eapply QuizInv_same; eauto. }
  assert (Hr : forall that,
             sections that = sections this ->
             forall s, getCurrentSection that = Some s -> type s = quiz ->
                       renderQuiz (content s) = Returned).
  { intros that E1 s E Hty.
    apply (renderQuiz_reached L qs cq sc en that s); auto. congruence. }
  destruct op as [| callback | | | a |].
  - (* render *)
    cbn [submission score_delta]. unfold step_state, step.
    destruct (render_frame this) as (F1 & F2).
    assert (Hc : no_feedback (container (fst (render this)))).
    { unfold render. apply renderSection_clears; [exact Hb |].
      now apply Hr. }
    destruct (render this) as [s o]. cbn [fst] in *. apply Same; auto.
  - (* setOnComplete *)
    cbn [submission score_delta]. apply Same; [reflexivity |]. right. now split.
  - (* nextSection *)
    cbn [submission score_delta]. unfold step_state, step, nextSection, nextSection_resume.
    destruct (Z.geb_spec (currentSectionIndex this) (JS.length (sections this) - 1)).
    + cbn [fst]. apply Same; [reflexivity |]. right. now split.
    + pose proof (fadeIn_frame (with_index this (currentSectionIndex this + 1)))
        as (F1 & F2 & _).
      assert (Hc : no_feedback
                     (container
                        (fst (fst (fadeIn (with_index this
                                             (currentSectionIndex this + 1))))))).
      { apply fadeIn_clears; [| now apply Hr].
        unfold index_in_bounds in *. cbn. lia. }
      destruct (fadeIn (with_index this (currentSectionIndex this + 1)))
        as [[t2 inn] o]. cbn [fst] in *. apply Same; auto.
  - (* prevSection *)
    cbn [submission score_delta]. unfold step_state, step, prevSection.
    destruct (Z.leb_spec (currentSectionIndex this) 0).
    + cbn [fst]. apply Same; [reflexivity |]. right. now split.
    + pose proof (fadeIn_frame (with_index this (currentSectionIndex this - 1)))
        as (F1 & F2 & _).
      assert (Hc : no_feedback
                     (container
                        (fst (fst (fadeIn (with_index this
                                             (currentSectionIndex this - 1))))))).
      { apply fadeIn_clears; [| now apply Hr].
        unfold index_in_bounds in *. cbn. lia. }
      destruct (fadeIn (with_index this (currentSectionIndex this - 1)))
        as [[t2 inn] o]. cbn [fst] in *. apply Same; auto.
  - (* submitQuizAnswer *)
    destruct (current_section_cases _ _ _ Hs HL Hb) as [[Hi E] | [Hi (s & E & P)]].
    + destruct (JS_index_Some _ _ Hcq) as [q Hq].
      assert (Ecur : current_question this = Some (cq, q)).
      { unfold current_question. rewrite E. cbn. now rewrite Hq. }
      unfold submission, score_delta. rewrite Ecur.
      unfold step_state, step, submitQuizAnswer. rewrite E.
      cbn [content quiz_state]. rewrite Hq.
      assert (Hlog : JS.length (log ++ [cq]) = JS.length log + 1).
      { rewrite JS_length_app. reflexivity. }
      assert (Hnew : forall sc' (that : SequentialStudy),
                 sections that = L ++ [quiz_state qs cq sc' en] ->
                 0 <= sc' <= JS.length log + 1 ->
                 currentSectionIndex that = currentSectionIndex this ->
                 container that
                 = match container this with
                   | Some (DomSection quiz _) =>
                       Some (DomSection quiz
                               (Some {| fb_correct := isCorrect q a;
                                        fb_section := currentSectionIndex this |}))
                   | c => c
                   end ->
                 QuizInv L qs (log ++ [cq]) that
                 /\ quiz_score that = sc'
                 /\ (quiz_navEnabled this = Some true ->
                     quiz_navEnabled that = Some true)
                 /\ (forall i, In i [cq] -> 0 <= i < JS.length qs)).
      { intros sc' that T1 T2 T3 T4.
        destruct (quiz_observations _ _ _ _ _ _ T1 HL) as (Nsc & _ & Nen).
        rewrite Nsc, Nen, Oen. repeat split; auto.
        - exists cq, sc', en. rewrite Hlog.
          repeat (split; [first [assumption | lia] |]).
          split; [intros i Hi'; apply in_or_app; left; auto |].
          split; [intros He i Hi'; apply in_or_app; left; auto |].
          intros fb Hfb. rewrite T4 in Hfb. rewrite T3.
          destruct (container this) as [[| [] fb0 |] |]; try discriminate Hfb.
          injection Hfb as <-. cbn. repeat split; auto.
          apply in_or_app. right. now left.
        - destruct H as [<- | []]. lia.
        - destruct H as [<- | []]. lia. }
      destruct (isCorrect q a) eqn:Ok.
      * rewrite Osc.
        assert (Hup : JS.update (sections this) (currentSectionIndex this)
                        increment_score
                      = L ++ [quiz_state qs cq (sc + 1) en]).
        { rewrite Hs, Hi, update_app_last. reflexivity. }
        destruct (container this) as [[| [] fb0 |] |] eqn:Ec;
          cbn [with_sections container fst snd]; rewrite ?Ec; cbn [fst];
          apply Hnew; cbn; rewrite ?Ec; auto; lia.
      * rewrite Osc, Z.add_0_r.
        destruct (container this) as [[| [] fb0 |] |] eqn:Ec;
          cbn [fst]; apply Hnew; cbn; rewrite ?Ec; auto; lia.
    + pose proof (plain_current_question _ _ E P) as Ecur.
      unfold submission, score_delta, step_state, step.
      rewrite Ecur, (submitQuizAnswer_threw a this Ecur). cbn [fst].
      apply Same; [reflexivity |]. right. now split.
  - (* nextQuizQuestion *)
    cbn [submission score_delta]. unfold step_state, step, nextQuizQuestion.
    destruct (container this) as [[| [] [fb |] |] |] eqn:Ec;
      try (cbn [fst]; apply Same; [reflexivity |]; right; now split).
    destruct (Hdom fb eq_refl) as (Hfb & Hi & Hin).
    rewrite Hfb, Hi, Hs, index_app_last. cbn [content quiz_state].
    destruct (Z.ltb_spec cq (JS.length qs - 1)) as [Hadv | Hfin].
    + rewrite update_app_last.
      change (increment_currentQuestion (quiz_state qs cq sc en))
        with (quiz_state qs (cq + 1) sc en).
      set (t1 := with_sections this (L ++ [quiz_state qs (cq + 1) sc en])).
      assert (Hs1 : sections t1 = L ++ [quiz_state qs (cq + 1) sc en]) by reflexivity.
      destruct (renderSection_frame t1) as (F1 & F2 & _).
      assert (Hc : no_feedback (container (fst (renderSection t1)))).
      { apply renderSection_clears.
        - unfold index_in_bounds in *. cbn. rewrite JS_length_app in *.
          rewrite Hs, JS_length_app in Hb. exact Hb.
        - intros s E Hty. eapply renderQuiz_reached; eauto. lia. }
      destruct (renderSection t1) as [t2 o]. cbn [fst] in *.
      rewrite app_nil_r, Z.add_0_r.
      destruct (quiz_observations _ _ _ _ _ _ (eq_trans F2 Hs1) HL)
        as (Nsc & _ & Nen).
      rewrite Nsc, Nen, Osc, Oen.
      split; [| split; [reflexivity | split; [auto | intros i []]]].
      apply (QuizInv_no_feedback L qs log t2 (cq + 1) sc en); auto;
        try congruence; try lia.
      intros i Hi'. destruct (Z.eq_dec i cq) as [-> | Hne]; [exact Hin |].
      apply Hlt. lia.
    + unfold showQuizResults, getCurrentSection.
      rewrite Hi, Hs, index_app_last. cbn [content quiz_state].
      rewrite Ec, update_app_last.
      change (enable_next_button (quiz_state qs cq sc en))
        with (quiz_state qs cq sc true).
      cbn [fst]. rewrite app_nil_r, Z.add_0_r.
      match goal with
      | |- QuizInv _ _ _ ?t /\ _ =>
          assert (Hs1 : sections t = L ++ [quiz_state qs cq sc true]) by reflexivity;
          destruct (quiz_observations _ _ _ _ _ _ Hs1 HL) as (Nsc & _ & Nen)
      end.
      rewrite Nsc, Nen, Osc.
      split; [| split; [reflexivity | split; [auto | intros i []]]].
      eapply QuizInv_no_feedback; eauto.
      * intros _ i Hi'. destruct (Z.eq_dec i cq) as [-> | Hne]; [exact Hin |].
        apply Hlt. lia.
      * intros fb' H. discriminate H.
Qed.

Lemma nextQuizQuestion_plain (L : list StudySection) (this : SequentialStudy) :
  sections this = L -> Forall plain_section L ->
  fst (nextQuizQuestion this) = this.
Proof.
  intros Hs HL. unfold nextQuizQuestion.
  destruct (container this) as [[| [] [fb |] |] |]; try reflexivity.
  destruct (JS.index (sections this) (fb_section fb)) as [s |] eqn:E;
    [| reflexivity].
  rewrite Hs in E. destruct (index_plain _ _ _ HL E) as [_ P].
  destruct (content s) as [| | qs cq sc] eqn:C; try reflexivity.
  now destruct (P qs cq sc).
Qed.

Lemma step_plain (L : list StudySection) (this : SequentialStudy) (op : Op) :
  sections this = L -> Forall plain_section L -> index_in_bounds this ->
  sections (step_state this op) = L /\ submission this op = []
  /\ score_delta this op = 0.
Proof.
  intros Hs HL Hb. unfold step_state, step.
  destruct op as [| callback | | | a |]; cbn [submission score_delta].
  - destruct (render_frame this) as (_ & F).
    destruct (render this) as [s o]. cbn [fst] in *. now rewrite F.
  - now cbn.
  - destruct (Z.lt_ge_cases (currentSectionIndex this)
                (JS.length (sections this) - 1)) as [Hlt | Hge].
    + destruct (nextSection_inner this Hlt) as (_ & F & _). now rewrite F.
    + now rewrite (nextSection_last this Hge).
  - destruct (Z.lt_ge_cases 0 (currentSectionIndex this)) as [Hlt | Hge].
    + destruct (prevSection_inner this Hlt) as (_ & F & _). now rewrite F.
    + unfold prevSection.
      destruct (Z.leb_spec (currentSectionIndex this) 0); [now cbn | lia].
  - destruct (JS_index_Some _ _ Hb) as [s E].
    fold (getCurrentSection this) in E.
    assert (P : plain_section s).
    { unfold getCurrentSection in E. rewrite Hs in E.
      eapply index_plain; eauto. }
    rewrite (plain_current_question _ _ E P).
    rewrite (submitQuizAnswer_threw a this (plain_current_question _ _ E P)).
    now cbn.
  - pose proof (nextQuizQuestion_plain L this Hs HL) as F.
    destruct (nextQuizQuestion this) as [s o]. cbn [fst] in *. now rewrite F.
Qed.

Lemma quiz_plain_observations (this : SequentialStudy) :
  Forall plain_section (sections this) ->
  quiz_score this = 0 /\ quiz_total this = 0 /\ quiz_navEnabled this = None.
Proof.
  intros H. unfold quiz_score, quiz_total, quiz_navEnabled.
  now rewrite (find_quiz_plain _ H).
Qed.

Lemma step_reached (d : StudyPlanData) (log : list Z) (this : SequentialStudy)
  (op : Op) :
  Reached d log this ->
  Reached d (log ++ submission this op) (step_state this op)
  /\ quiz_score (step_state this op) = quiz_score this + score_delta this op
  /\ (quiz_navEnabled this = Some true ->
      quiz_navEnabled (step_state this op) = Some true).
Proof.
  intros [Hb Hs Hl].
  pose proof (step_index_in_bounds this op Hb) as Hb'.
  pose proof (leading_plain d) as HL.
  destruct (present_nonempty (active_recall d)) as [active |] eqn:Ea.
  - destruct (present_nonempty_quiz_list d active Ea) as [Eq _].
    destruct (step_quiz _ _ _ _ op HL Hb Hs) as (I & Sc & En & Sub).
    split; [| now split].
    constructor; [exact Hb' | now rewrite Ea |].
    intros i Hin. rewrite Eq. apply in_app_or in Hin.
    destruct Hin as [Hin | Hin]; [| now apply Sub].
    rewrite <- Eq. now apply Hl.
  - destruct (step_plain _ this op Hs HL Hb) as (S1 & S2 & S3).
    rewrite S2, S3, app_nil_r, Z.add_0_r.
    assert (P : Forall plain_section (sections this)) by now rewrite Hs.
    assert (P' : Forall plain_section (sections (step_state this op)))
      by now rewrite S1.
    destruct (quiz_plain_observations _ P) as (-> & _ & ->).
    destruct (quiz_plain_observations _ P') as (-> & _ & ->).
    split; [| split; [reflexivity | discriminate]].
    constructor; [exact Hb' | now rewrite Ea | exact Hl].
Qed.

Lemma new_reached (d : StudyPlanData) : Reached d [] (new_SequentialStudy d).
Proof.
  constructor.
  - apply new_index_in_bounds.
  - pose proof (buildSections_leading d) as B.
    destruct (present_nonempty (active_recall d)) as [active |] eqn:Ea;
      cbn [sections new_SequentialStudy].
    + destruct (present_nonempty_quiz_list d active Ea) as [_ Hlen].
      exists 0, 0, false. split; [exact B |].
      split; [lia |]. split; [cbn; lia |].
      split; [intros i Hi; lia |].
      split; [discriminate |].
      intros fb H. discriminate H.
    + now rewrite app_nil_r in B.
  - intros i [].
Qed.

Lemma run_reached (d : StudyPlanData) (ops : list Op) (log : list Z)
  (this : SequentialStudy) :
  Reached d log this ->
  Reached d (log ++ run_submissions this ops) (run this ops)
  /\ quiz_score this <= quiz_score (run this ops)
  /\ (quiz_navEnabled this = Some true ->
      quiz_navEnabled (run this ops) = Some true).
Proof.
  revert log this. induction ops as [| op ops IH]; intros log this H.
  - cbn. rewrite app_nil_r. split; [exact H |]. split; [lia | auto].
  - cbn [run run_submissions].
    destruct (step_reached d log this op H) as (H1 & Sc & En).
    destruct (IH _ _ H1) as (H2 & Sc2 & En2).
    rewrite app_assoc. split; [exact H2 |]. split; [| auto].
    assert (0 <= score_delta this op).
    { unfold score_delta. destruct op; try lia.
      destruct (current_question this) as [[i q] |]; [| lia].
      destruct (isCorrect q userAnswer); lia. }
    lia.
Qed.

(** ** The score *)

Lemma reached_observations (d : StudyPlanData) (log : list Z)
  (this : SequentialStudy) :
  Reached d log this ->
  0 <= quiz_score this <= JS.length log
  /\ quiz_total this = JS.length (JS.slice0 3 (quiz_list d))
  /\ (quiz_navEnabled this = Some true ->
      forall i, 0 <= i < quiz_total this -> In i log)
  /\ (quiz_list d <> [] -> exists en, quiz_navEnabled this = Some en).
Proof.
  intros [Hb Hs Hl]. pose proof (leading_plain d) as HL.
  destruct (present_nonempty (active_recall d)) as [active |] eqn:Ea.
  - destruct (present_nonempty_quiz_list d active Ea) as [Eq _].
    destruct Hs as (cq & sc & en & Hs & Hcq & Hsc & Hlt & Hen & Hdom).
    destruct (quiz_observations _ _ _ _ _ _ Hs HL) as (-> & -> & ->).
    rewrite Eq. repeat split; try lia.
    + intros E. injection E as ->. now apply Hen.
    + intros _. now exists en.
  - assert (P : Forall plain_section (sections this)) by now rewrite Hs.
    destruct (quiz_plain_observations _ P) as (-> & -> & ->).
    rewrite (present_nonempty_none d Ea). cbn.
    pose proof (JS_length_nonneg log).
    repeat split; try lia; try discriminate. intros H'. now destruct H'.
Qed.

Lemma bounded_NoDup_length (log : list Z) (n : Z) :
  0 <= n -> NoDup log -> (forall i, In i log -> 0 <= i < n) ->
  JS.length log <= n.
Proof.
  intros Hn Hnd Hin.
  assert (Hincl : incl log (map Z.of_nat (seq 0 (Z.to_nat n)))).
  { intros i Hi. specialize (Hin i Hi). apply in_map_iff.
    exists (Z.to_nat i). split; [lia |]. apply in_seq. lia. }
  pose proof (NoDup_incl_length Hnd Hincl) as Hlen.
  rewrite length_map, length_seq in Hlen. unfold JS.length. lia.
Qed.


Lemma score_delta_range (this : SequentialStudy) (op : Op) :
  score_delta this op = 0 \/ score_delta this op = 1.
Proof.
  unfold score_delta. destruct op; auto.
  destruct (current_question this) as [[i q] |]; auto.
  destruct (isCorrect q userAnswer); auto.
Qed.

(** A question can be graded again after going back and forth: the score of
    a one-question quiz reaches two. *)
Lemma score_unbounded_counterexample :
  ~ score_bounded
      (run (new_SequentialStudy (sample_doc [sample_example] [mc_question "a"]))
         [OpRender; OpNextSection; OpNextSection; OpSubmitQuizAnswer "a";
          OpPrevSection; OpNextSection; OpSubmitQuizAnswer "a"]).
Proof. unfold score_bounded. vm_compute. intros [_ H]. now apply H. Qed.

(** C6 (amended). On every state reached from a new controller the score of
    the Quiz section is at least zero and at most the number of submissions
    graded so far; it is at most the number of questions whenever no question
    position was graded twice; every call changes it by exactly one for a
    submission judged correct and by zero otherwise; and it never decreases. *)
Theorem score_accounting (d : StudyPlanData) (ops : list Op) :
  0 <= quiz_score (run (new_SequentialStudy d) ops)
    <= JS.length (run_submissions (new_SequentialStudy d) ops)
  /\ (NoDup (run_submissions (new_SequentialStudy d) ops) ->
      quiz_score (run (new_SequentialStudy d) ops)
      <= quiz_total (run (new_SequentialStudy d) ops))
  /\ (forall op,
        quiz_score (step_state (run (new_SequentialStudy d) ops) op)
        = quiz_score (run (new_SequentialStudy d) ops)
          + score_delta (run (new_SequentialStudy d) ops) op
        /\ (score_delta (run (new_SequentialStudy d) ops) op = 0
            \/ score_delta (run (new_SequentialStudy d) ops) op = 1))
  /\ (forall ops',
        quiz_score (run (new_SequentialStudy d) ops)
        <= quiz_score (run (run (new_SequentialStudy d) ops) ops')).
Proof.
  destruct (run_reached d ops [] _ (new_reached d)) as (R & _ & _).
  cbn [app] in R.
  destruct (reached_observations _ _ _ R) as (Hsc & Htot & _ & _).
  split; [exact Hsc |]. split; [| split].
  - intros Hnd. rewrite Htot.
    pose proof (bounded_NoDup_length _ _ (JS_length_nonneg _) Hnd
                  (reached_log _ _ _ R)). lia.
  - intros op. split; [| apply score_delta_range].
    now destruct (step_reached d _ _ op R) as (_ & E & _).
  - intros ops'. now destruct (run_reached d ops' _ _ R) as (_ & E & _).
Qed.

Lemma score_accounting_witness :
  quiz_score two_of_three <= quiz_total two_of_three.
Proof.
  apply (proj1 (proj2 (score_accounting
                         (sample_doc [] [mc_question "a"; mc_question "b";
                                         mc_question "c"])
                         [OpRender; OpNextSection; OpSubmitQuizAnswer "a";
                          OpNextQuizQuestion; OpSubmitQuizAnswer "b";
                          OpNextQuizQuestion; OpSubmitQuizAnswer "x"]))).
  vm_compute. repeat constructor; cbn; intuition discriminate.
Defined.

(** ** The next button of the quiz *)

Lemma renderable_quiz (L : list StudySection) (qs : list Question)
  (cq sc : Z) (en : bool) :
  Forall plain_section L -> 0 <= cq < JS.length qs ->
  Renderable (L ++ [quiz_state qs cq sc en]).
Proof.
  intros HL Hcq i s E Hty.
  destruct (index_app_cases _ _ _ _ E) as [[_ ->] | [E' _]].
  - cbn. now destruct (JS_index_Some _ _ Hcq) as [q ->].
  - destruct (index_plain _ _ _ HL E') as [P _]. contradiction.
Qed.

Lemma renderSection_shown (this : SequentialStudy) :
  index_in_bounds this -> Renderable (sections this) -> container this <> None ->
  Shown (fst (renderSection this)).
Proof.
  intros Hb Hr Hc.
  destruct (renderSection_clears this Hb) as (_ & H).
  { intros s E. apply (Hr _ _ E). }
  destruct (H Hc) as (s & E & C).
  destruct (renderSection_frame this) as (F1 & F2 & _).
  exists s. split; [| exact C].
  unfold getCurrentSection in *. now rewrite F1, F2.
Qed.

Lemma fadeIn_state (this : SequentialStudy) :
  container this <> None -> fst (fst (fadeIn this)) = fst (renderSection this).
Proof.
  intros Hc. unfold fadeIn. destruct (container this); [| contradiction].
  now destruct (renderSection this) as [t []].
Qed.





Lemma quiz_list_present (d : StudyPlanData) :
  quiz_list d <> [] ->
  present_nonempty (active_recall d) = Some (quiz_list d).
Proof.
  unfold quiz_list. destruct (active_recall d) as [[| q qs] |]; cbn;
    try contradiction; reflexivity.
Qed.



(** ** A complete walk *)

(** Sections Explanation and Quiz; the first [nextSection] fades to the quiz;
    after both answers the next button is enabled and both were correct; the
    final [nextSection] invokes the callback. *)
Example two_question_scenario :
  map type (sections (new_SequentialStudy two_question_doc)) = [explanation; quiz]
  /\ quiz_navEnabled (run (new_SequentialStudy two_question_doc) two_question_walk)
     = Some true
  /\ quiz_score (run (new_SequentialStudy two_question_doc) two_question_walk) = 2
  /\ run_events (new_SequentialStudy two_question_doc) two_question_walk
     = [FadeOut; FadeIn; Completed 1%nat].
Proof. vm_compute. repeat split. Qed.

(** * Further properties of the controller and of its page *)

(** ** Sections along a run *)

Lemma section_persists_refl (s : StudySection) : section_persists s s.
Proof.
  unfold section_persists. repeat split; auto.
  destruct (content s) as [| | qs cq sc]; auto.
  exists cq, sc. repeat split; lia.
Qed.

Lemma section_persists_trans (a b c : StudySection) :
  section_persists a b -> section_persists b c -> section_persists a c.
Proof.
  unfold section_persists.
  intros (T1 & Y1 & X1 & E1 & C1) (T2 & Y2 & X2 & E2 & C2).
  repeat split; try congruence; auto.
  destruct (content a) as [| | qs cq sc].
  - rewrite C1 in C2. exact C2.
  - rewrite C1 in C2. exact C2.
  - destruct C1 as (cq1 & sc1 & C1 & Hq1 & Hs1). rewrite C1 in C2.
    destruct C2 as (cq2 & sc2 & C2 & Hq2 & Hs2).
    exists cq2, sc2. repeat split; [exact C2 | lia | lia].
Qed.

Lemma Forall2_persists_refl (l : list StudySection) : Forall2 section_persists l l.
Proof. induction l; constructor; auto using section_persists_refl. Qed.

Lemma Forall2_persists_trans (a b c : list StudySection) :
  Forall2 section_persists a b -> Forall2 section_persists b c ->
  Forall2 section_persists a c.
Proof.
  intros H. revert c. induction H as [| x y l l' Hxy _ IH]; intros c Hc;
    inversion Hc; subst; constructor; eauto using section_persists_trans.
Qed.

Lemma Forall2_update_nat (f : StudySection -> StudySection) :
  (forall s, section_persists s (f s)) ->
  forall l n, Forall2 section_persists l (JS.update_nat l n f).
Proof.
  intros Hf. induction l as [| x xs IH]; intros [| n]; cbn; constructor;
    auto using section_persists_refl, Forall2_persists_refl.
Qed.

Lemma Forall2_update (f : StudySection -> StudySection) (l : list StudySection)
  (i : Z) :
  (forall s, section_persists s (f s)) ->
  Forall2 section_persists l (JS.update l i f).
Proof.
  intros Hf. unfold JS.update. destruct (i <? 0).
  - apply Forall2_persists_refl.
  - now apply Forall2_update_nat.
Qed.

Lemma increment_score_persists (s : StudySection) :
  section_persists s (increment_score s).
Proof.
  unfold section_persists, increment_score.
  destruct (content s) as [| | qs cq sc] eqn:C; cbn; rewrite ?C; repeat split; auto.
  exists cq, (sc + 1). repeat split; lia.
Qed.

Lemma increment_currentQuestion_persists (s : StudySection) :
  section_persists s (increment_currentQuestion s).
Proof.
  unfold section_persists, increment_currentQuestion.
  destruct (content s) as [| | qs cq sc] eqn:C; cbn; rewrite ?C; repeat split; auto.
  exists (cq + 1), sc. repeat split; lia.
Qed.

Lemma enable_next_button_persists (s : StudySection) :
  section_persists s (enable_next_button s).
Proof.
  unfold section_persists, enable_next_button. cbn. repeat split; auto.
  destruct (content s) as [| | qs cq sc]; auto.
  exists cq, sc. repeat split; lia.
Qed.

Lemma nextSection_sections (this : SequentialStudy) :
  sections (fst (fst (nextSection this))) = sections this.
Proof.
  destruct (Z.lt_ge_cases (currentSectionIndex this)
              (JS.length (sections this) - 1)) as [Hlt | Hge].
  - now destruct (nextSection_inner this Hlt) as (_ & F & _).
  - now rewrite (nextSection_last this Hge).
Qed.

Lemma prevSection_sections (this : SequentialStudy) :
  sections (fst (fst (prevSection this))) = sections this.
Proof.
  destruct (Z.lt_ge_cases 0 (currentSectionIndex this)) as [Hlt | Hge].
  - now destruct (prevSection_inner this Hlt) as (_ & F & _).
  - unfold prevSection.
    destruct (Z.leb_spec (currentSectionIndex this) 0); [reflexivity | lia].
Qed.

Lemma submitQuizAnswer_sections (a : string) (this : SequentialStudy) :
  sections (fst (submitQuizAnswer a this)) = sections this
  \/ sections (fst (submitQuizAnswer a this))
     = JS.update (sections this) (currentSectionIndex this) increment_score.
Proof.
  unfold submitQuizAnswer.
  destruct (getCurrentSection this) as [section |]; [| now left].
  destruct (content section) as [| | qs cq sc]; try now left.
  destruct (JS.index qs cq) as [q |]; [| now left].
  destruct (isCorrect q a).
  - right. now destruct (container _) as [[| [] fb |] |].
  - left. now destruct (container this) as [[| [] fb |] |].
Qed.

Lemma showQuizResults_sections (this : SequentialStudy) :
  sections (fst (showQuizResults this)) = sections this
  \/ sections (fst (showQuizResults this))
     = JS.update (sections this) (currentSectionIndex this) enable_next_button.
Proof.
  unfold showQuizResults.
  destruct (getCurrentSection this) as [section |]; [| now left].
  destruct (content section) as [| | qs cq sc]; try now left.
  destruct (container this) as [[| ty fb |] |]; cbn; auto.
Qed.

Lemma nextQuizQuestion_sections (this : SequentialStudy) :
  Forall2 section_persists (sections this) (sections (fst (nextQuizQuestion this))).
Proof.
  unfold nextQuizQuestion.
  destruct (container this) as [[| [] [fb |] |] |];
    try apply Forall2_persists_refl.
  destruct (JS.index (sections this) (fb_section fb)) as [section |];
    [| apply Forall2_persists_refl].
  destruct (content section) as [| | qs cq sc]; try apply Forall2_persists_refl.
  destruct (cq <? JS.length qs - 1).
  - destruct (renderSection_frame
                (with_sections this
                   (JS.update (sections this) (fb_section fb)
                      increment_currentQuestion))) as (_ & -> & _).
    cbn. apply Forall2_update, increment_currentQuestion_persists.
  - destruct (showQuizResults_sections this) as [-> | ->].
    + apply Forall2_persists_refl.
    + apply Forall2_update, enable_next_button_persists.
Qed.

Lemma step_sections_persist (this : SequentialStudy) (op : Op) :
  Forall2 section_persists (sections this) (sections (step_state this op)).
Proof.
  unfold step_state, step. destruct op as [| callback | | | a |].
  - destruct (render_frame this) as (_ & F).
    destruct (render this) as [s o]. cbn [fst] in *. rewrite F.
    apply Forall2_persists_refl.
  - apply Forall2_persists_refl.
  - rewrite nextSection_sections. apply Forall2_persists_refl.
  - rewrite prevSection_sections. apply Forall2_persists_refl.
  - pose proof (submitQuizAnswer_sections a this) as F.
    destruct (submitQuizAnswer a this) as [s o]. cbn [fst] in *.
    destruct F as [-> | ->].
    + apply Forall2_persists_refl.
    + apply Forall2_update, increment_score_persists.
  - pose proof (nextQuizQuestion_sections this) as F.
    now destruct (nextQuizQuestion this) as [s o].
Qed.

(** X1. No sequence of calls, from any state, removes, adds or reorders a
    section, changes a title, a type, a button text or a question list,
    disables a next button, or lowers a question position or a score. *)
Theorem run_sections_persist (this : SequentialStudy) (ops : list Op) :
  Forall2 section_persists (sections this) (sections (run this ops)).
Proof.
  revert this. induction ops as [| op ops IH]; intros this; cbn [run].
  - apply Forall2_persists_refl.
  - eapply Forall2_persists_trans; [apply step_sections_persist | apply IH].
Qed.

(** ** Reached states: what can throw *)

Lemma run_new_reached (d : StudyPlanData) (ops : list Op) :
  Reached d (run_submissions (new_SequentialStudy d) ops)
    (run (new_SequentialStudy d) ops).
Proof.
  destruct (run_reached d ops [] _ (new_reached d)) as (R & _). exact R.
Qed.

Lemma reached_renderable (d : StudyPlanData) (log : list Z)
  (this : SequentialStudy) :
  Reached d log this -> Renderable (sections this).
Proof.
  intros [Hb Hs _]. pose proof (leading_plain d) as HL.
  destruct (present_nonempty (active_recall d)) as [active |].
  - destruct Hs as (cq & sc & en & -> & Hcq & _).
    now apply renderable_quiz.
  - rewrite Hs. intros i s E Hty.
    destruct (index_plain _ _ _ HL E) as [P _]. contradiction.
Qed.

Lemma renderSection_returns (this : SequentialStudy) :
  Renderable (sections this) -> snd (renderSection this) = Returned.
Proof.
  intros Hr. unfold renderSection.
  destruct (container this); [| reflexivity].
  destruct (getCurrentSection this) as [s |] eqn:E; [| reflexivity].
  destruct (SectionType_eqb (type s) quiz) eqn:T; [| reflexivity].
  rewrite (Hr _ _ E); [reflexivity |]. now destruct (type s).
Qed.

Lemma fadeIn_returns (this : SequentialStudy) :
  Renderable (sections this) ->
  snd (fadeIn this) = Returned
  /\ snd (fst (fadeIn this)) = match container this with
                               | Some _ => [FadeIn]
                               | None => []
                               end.
Proof.
  intros Hr. unfold fadeIn. destruct (container this); [| now split].
  pose proof (renderSection_returns this Hr) as H.
  destruct (renderSection this) as [t o]. cbn in H. subst o. now split.
Qed.

Lemma nextSection_events (this : SequentialStudy) :
  Renderable (sections this) ->
  snd (nextSection this) = Returned
  /\ snd (fst (nextSection this))
     = if currentSectionIndex this >=? JS.length (sections this) - 1
       then match onComplete this with
            | Some callback => [Completed callback]
            | None => []
            end
       else match container this with
            | Some _ => [FadeOut; FadeIn]
            | None => []
            end.
Proof.
  intros Hr. unfold nextSection, nextSection_resume.
  destruct (currentSectionIndex this >=? JS.length (sections this) - 1);
    [now split |].
  destruct (fadeIn_returns (with_index this (currentSectionIndex this + 1)) Hr)
    as [O E].
  destruct (fadeIn (with_index this (currentSectionIndex this + 1)))
    as [[t inn] o]. cbn in *. subst o inn. unfold fadeOut.
  now destruct (container this).
Qed.

Lemma prevSection_events (this : SequentialStudy) :
  Renderable (sections this) ->
  snd (prevSection this) = Returned
  /\ snd (fst (prevSection this))
     = if currentSectionIndex this <=? 0 then []
       else match container this with
            | Some _ => [FadeOut; FadeIn]
            | None => []
            end.
Proof.
  intros Hr. unfold prevSection.
  destruct (currentSectionIndex this <=? 0); [now split |].
  destruct (fadeIn_returns (with_index this (currentSectionIndex this - 1)) Hr)
    as [O E].
  destruct (fadeIn (with_index this (currentSectionIndex this - 1)))
    as [[t inn] o]. cbn in *. subst o inn. unfold fadeOut.
  now destruct (container this).
Qed.

Lemma submitQuizAnswer_outcome (a : string) (this : SequentialStudy) :
  snd (submitQuizAnswer a this) = Returned
  <-> current_question this <> None
      /\ shows_quiz_question (container this) = true.
Proof.
  assert (No : forall t : SequentialStudy,
             snd (t, Threw) = Returned
             <-> None <> (None : option (Z * Question))
                 /\ shows_quiz_question (container this) = true).
  { intros t. cbn. split; [discriminate | intros [H _]; now destruct H]. }
  unfold submitQuizAnswer, current_question.
  destruct (getCurrentSection this) as [s |]; [| apply No].
  destruct (content s) as [| | qs cq sc]; try apply No.
  destruct (JS.index qs cq) as [q |]; [| apply No].
  cbn [option_map].
  assert (Yes : forall t t' : SequentialStudy,
             container t = container this ->
             snd (match container t with
                  | Some (DomSection quiz _) => (t', Returned)
                  | _ => (t, Threw)
                  end) = Returned
             <-> Some (cq, q) <> None
                 /\ shows_quiz_question (container this) = true).
  { intros t t' ->. destruct (container this) as [[| [] fb |] |]; cbn;
      (split; [intros H; first [discriminate H
                               | split; [discriminate | reflexivity]]
              | intros [_ H]; first [discriminate H | reflexivity]]). }
  destruct (isCorrect q a); apply Yes; reflexivity.
Qed.

Lemma update_nat_other {A : Type} (f : A -> A) (l : list A) (i j : nat) :
  i <> j -> nth_error (JS.update_nat l i f) j = nth_error l j.
Proof.
  revert i j. induction l as [| x xs IH]; intros [| i] [| j] H; cbn; auto;
    try (now destruct H).
Qed.

Lemma JS_index_update_other {A : Type} (f : A -> A) (l : list A) (i j : Z) :
  i <> j -> JS.index (JS.update l i f) j = JS.index l j.
Proof.
  intros H. unfold JS.index, JS.update.
  destruct (Z.ltb_spec j 0); [reflexivity |].
  destruct (Z.ltb_spec i 0); [reflexivity |].
  apply update_nat_other. lia.
Qed.

Lemma renderable_increment (l : list StudySection) (i : Z) (s : StudySection)
  (qs : list Question) (cq sc : Z) :
  Renderable l -> JS.index l i = Some s -> content s = QuizContent qs cq sc ->
  cq < JS.length qs - 1 ->
  Renderable (JS.update l i increment_currentQuestion).
Proof.
  intros Hr Hi Hc Hlt j s' E Hty.
  destruct (Z.eq_dec i j) as [<- | Hne].
  - rewrite JS_index_update, Hi in E. injection E as <-.
    unfold increment_currentQuestion in *. rewrite Hc in *. cbn in *.
    pose proof (Hr _ _ Hi Hty) as Hq. rewrite Hc in Hq. cbn in Hq.
    destruct (JS.index qs cq) as [q |] eqn:Eq; [| discriminate Hq].
    apply JS_index_bounds in Eq.
    destruct (JS_index_Some qs (cq + 1)) as [q' ->]; [lia | reflexivity].
  - rewrite JS_index_update_other in E by exact Hne. exact (Hr _ _ E Hty).
Qed.

Lemma renderSection_synced (this : SequentialStudy) :
  index_in_bounds this -> Renderable (sections this) ->
  Synced (fst (renderSection this))
  \/ (container this = None /\ fst (renderSection this) = this).
Proof.
  intros Hb Hr. destruct (container this) as [c |] eqn:Ec.
  - left. destruct (renderSection_shown this Hb Hr) as (s & E & C);
      [congruence |].
    intros ty fb H. rewrite C in H. injection H as <- _. now exists s.
  - right. split; [reflexivity |]. unfold renderSection. now rewrite Ec.
Qed.

Lemma synced_none (this : SequentialStudy) : container this = None -> Synced this.
Proof. intros E ty fb H. rewrite E in H. discriminate H. Qed.

Lemma step_state_cases (this : SequentialStudy) (op : Op) :
  step_state this op
  = match op with
    | OpRender => fst (render this)
    | OpSetOnComplete callback => setOnComplete callback this
    | OpNextSection => fst (fst (nextSection this))
    | OpPrevSection => fst (fst (prevSection this))
    | OpSubmitQuizAnswer a => fst (submitQuizAnswer a this)
    | OpNextQuizQuestion => fst (nextQuizQuestion this)
    end.
Proof.
  unfold step_state, step. destruct op as [| callback | | | a |]; try reflexivity.
  - now destruct (render this).
  - now destruct (submitQuizAnswer a this).
  - now destruct (nextQuizQuestion this).
Qed.


Lemma step_synced (d : StudyPlanData) (log : list Z) (this : SequentialStudy)
  (op : Op) :
  Reached d log this -> Synced this -> Synced (step_state this op).
Proof.
  intros R Hy. pose proof (reached_renderable _ _ _ R) as Hr.
  pose proof (reached_index _ _ _ R) as Hb.
  assert (Re : forall t, sections t = sections this -> index_in_bounds t ->
                         Synced (fst (renderSection t))).
  { intros t Es Hbt.
    destruct (renderSection_synced t Hbt) as [H | [Ec ->]];
      [now rewrite Es | exact H | now apply synced_none]. }
  rewrite step_state_cases. destruct op as [| callback | | | a |].
  - pose proof (Re (with_container this (Some DomForeign)) eq_refl Hb) as H.
    unfold render. destruct (renderSection _) as [t o]. exact H.
  - exact Hy.
  - unfold nextSection, nextSection_resume.
    destruct (Z.geb_spec (currentSectionIndex this) (JS.length (sections this) - 1));
      [exact Hy |].
    set (t1 := with_index this (currentSectionIndex this + 1)).
    assert (Hb1 : index_in_bounds t1).
    { unfold index_in_bounds in *. cbn. lia. }
    pose proof (Re t1 eq_refl Hb1) as HS.
    unfold fadeIn. destruct (container t1) eqn:Ec.
    + destruct (renderSection t1) as [t []]; exact HS.
    + cbn. now apply synced_none.
  - unfold prevSection.
    destruct (Z.leb_spec (currentSectionIndex this) 0); [exact Hy |].
    set (t1 := with_index this (currentSectionIndex this - 1)).
    assert (Hb1 : index_in_bounds t1).
    { unfold index_in_bounds in *. cbn. lia. }
    pose proof (Re t1 eq_refl Hb1) as HS.
    unfold fadeIn. destruct (container t1) eqn:Ec.
    + destruct (renderSection t1) as [t []]; exact HS.
    + cbn. now apply synced_none.
  - unfold submitQuizAnswer.
    destruct (getCurrentSection this) as [s |] eqn:E; [| exact Hy].
    destruct (content s) as [| | qs cq sc] eqn:C; try exact Hy.
    destruct (JS.index qs cq) as [q |]; [| exact Hy].
    assert (Hq : forall t : SequentialStudy,
               container t = container this ->
               (exists s', getCurrentSection t = Some s' /\ type s' = type s) ->
               currentSectionIndex t = currentSectionIndex this ->
               Synced (fst (match container t with
                            | Some (DomSection quiz _) =>
                                (with_container t
                                   (Some (DomSection quiz
                                            (Some {| fb_correct := isCorrect q a;
                                                     fb_section :=
                                                       currentSectionIndex this |}))),
                                 Returned)
                            | _ => (t, Threw)
                            end))).
    { intros t Ec (s' & E' & T') Ei.
      assert (Keep : Synced t).
      { intros ty fb H. rewrite Ec in H. destruct (Hy ty fb H) as (s0 & E0 & T0).
        rewrite E in E0. injection E0 as <-. exists s'. split; congruence. }
      destruct (container t) as [[| [] fb |] |] eqn:Ect; try exact Keep.
      cbn [fst]. intros ty' fb' H. cbn in H. injection H as <- _.
      destruct (Keep quiz fb Ect) as (s1 & E1 & T1). now exists s1. }
    cbv zeta. destruct (isCorrect q a) eqn:Ok.
    + apply (Hq (with_sections this
                   (JS.update (sections this) (currentSectionIndex this)
                      increment_score))); [reflexivity | | reflexivity].
      exists (increment_score s). split.
      * unfold getCurrentSection. cbn. rewrite JS_index_update.
        unfold getCurrentSection in E. now rewrite E.
      * unfold increment_score. now rewrite C.
    + apply (Hq this); [reflexivity | | reflexivity]. now exists s.
  - unfold nextQuizQuestion.
    destruct (container this) as [[| [] [fb |] |] |] eqn:Ec; try exact Hy.
    destruct (JS.index (sections this) (fb_section fb)) as [s |] eqn:Es;
      [| exact Hy].
    destruct (content s) as [| | qs cq sc] eqn:Cs; try exact Hy.
    destruct (Z.ltb_spec cq (JS.length qs - 1)) as [Hlt | Hge].
    + set (t1 := with_sections this _).
      destruct (renderSection_synced t1) as [H | [Ec1 _]]; [| | exact H |].
      * unfold index_in_bounds in *. cbn. now rewrite JS_update_length.
      * cbn. eapply renderable_increment; eauto.
      * cbn in Ec1. congruence.
    + unfold showQuizResults.
      destruct (getCurrentSection this) as [s0 |]; [| exact Hy].
      destruct (content s0) as [| | qs0 cq0 sc0]; try exact Hy.
      rewrite Ec. cbn [fst]. intros ty fb' H. discriminate H.
Qed.





Lemma step_events_cases (this : SequentialStudy) (op : Op) :
  step_events this op
  = match op with
    | OpNextSection => snd (fst (nextSection this))
    | OpPrevSection => snd (fst (prevSection this))
    | _ => []
    end.
Proof.
  unfold step_events, step. destruct op as [| callback | | | a |]; try reflexivity.
  - now destruct (render this).
  - now destruct (submitQuizAnswer a this).
  - now destruct (nextQuizQuestion this).
Qed.

(** X3. A call on a state reached from a new controller produces no event,
    or the pair fade out, fade in, or one completion.  The pair comes from a
    [nextSection] or [prevSection] that moves, with a container attached; the
    completion from a [nextSection] on the last section with a handler
    registered. *)
Theorem transitions_are_paired (d : StudyPlanData) (ops : list Op) (op : Op) :
  step_events (run (new_SequentialStudy d) ops) op = []
  \/ (step_events (run (new_SequentialStudy d) ops) op = [FadeOut; FadeIn]
      /\ container (run (new_SequentialStudy d) ops) <> None
      /\ ((op = OpNextSection
           /\ currentSectionIndex (step_state (run (new_SequentialStudy d) ops) op)
              = currentSectionIndex (run (new_SequentialStudy d) ops) + 1)
          \/ (op = OpPrevSection
              /\ currentSectionIndex (step_state (run (new_SequentialStudy d) ops) op)
                 = currentSectionIndex (run (new_SequentialStudy d) ops) - 1)))
  \/ (exists callback,
        step_events (run (new_SequentialStudy d) ops) op = [Completed callback]
        /\ op = OpNextSection
        /\ onComplete (run (new_SequentialStudy d) ops) = Some callback
        /\ currentSectionIndex (run (new_SequentialStudy d) ops)
           = JS.length (sections (run (new_SequentialStudy d) ops)) - 1).
Proof.
  pose proof (run_new_reached d ops) as R.
  pose proof (reached_renderable _ _ _ R) as Hr.
  pose proof (reached_index _ _ _ R) as Hb.
  set (t := run (new_SequentialStudy d) ops) in *.
  rewrite step_events_cases, step_state_cases.
  destruct op as [| callback | | | a |]; try now left.
  - destruct (nextSection_events t Hr) as [_ ->].
    destruct (Z.geb_spec (currentSectionIndex t) (JS.length (sections t) - 1))
      as [Hge | Hlt].
    + destruct (onComplete t) as [callback |] eqn:Ec; [| now left].
      right. right. exists callback. repeat split.
      unfold index_in_bounds in Hb. lia.
    + destruct (container t) eqn:Ec; [| now left].
      right. left. repeat split; [discriminate |]. left. split; [reflexivity |].
      now destruct (nextSection_inner t Hlt) as (E & _).
  - destruct (prevSection_events t Hr) as [_ ->].
    destruct (Z.leb_spec (currentSectionIndex t) 0) as [Hle | Hgt]; [now left |].
    destruct (container t) eqn:Ec; [| now left].
    right. left. repeat split; [discriminate |]. right. split; [reflexivity |].
    now destruct (prevSection_inner t Hgt) as (E & _).
Qed.

Lemma reached_current_plain (d : StudyPlanData) (log : list Z)
  (this : SequentialStudy) (s : StudySection) :
  Reached d log this -> getCurrentSection this = Some s -> type s <> quiz ->
  plain_section s.
Proof.
  intros [Hb Hs _] E Hty. pose proof (leading_plain d) as HL.
  destruct (present_nonempty (active_recall d)) as [active |].
  - destruct Hs as (cq & sc & en & Hs & _).
    destruct (current_section_cases _ _ _ Hs HL Hb)
      as [[_ E'] | [_ (s' & E' & P)]]; rewrite E in E'; injection E' as ->.
    + now destruct Hty.
    + exact P.
  - unfold getCurrentSection in E. rewrite Hs in E.
    eapply index_plain; eauto.
Qed.

(** X4. On a state reached from a new controller, [submitQuizAnswer] called
    while the Explanation or the Example section is current throws and leaves
    the controller exactly as it was. *)
Theorem submitQuizAnswer_outside_quiz (d : StudyPlanData) (ops : list Op)
  (a : string) (s : StudySection) :
  getCurrentSection (run (new_SequentialStudy d) ops) = Some s ->
  type s <> quiz ->
  submitQuizAnswer a (run (new_SequentialStudy d) ops)
  = (run (new_SequentialStudy d) ops, Threw).
Proof.
  intros E Hty. apply submitQuizAnswer_threw.
  eapply plain_current_question; [exact E |].
  eapply reached_current_plain; eauto using run_new_reached.
Qed.

Lemma submitQuizAnswer_outside_quiz_witness :
  submitQuizAnswer "a"
    (run (new_SequentialStudy (sample_doc [sample_example] [mc_question "a"]))
       [OpRender; OpNextSection])
  = (run (new_SequentialStudy (sample_doc [sample_example] [mc_question "a"]))
       [OpRender; OpNextSection], Threw).
Proof.
  apply (submitQuizAnswer_outside_quiz
           (sample_doc [sample_example] [mc_question "a"])
           [OpRender; OpNextSection] "a" (example_section [sample_example])).
  - reflexivity.
  - discriminate.
Defined.

Lemma submitQuizAnswer_container (a : string) (this : SequentialStudy) :
  shows_quiz_question (container this) = false ->
  container (fst (submitQuizAnswer a this)) = container this.
Proof.
  intros H. unfold submitQuizAnswer.
  destruct (getCurrentSection this) as [s |]; [| reflexivity].
  destruct (content s) as [| | qs cq sc]; try reflexivity.
  destruct (JS.index qs cq) as [q |]; [| reflexivity].
  destruct (isCorrect q a); cbn [with_sections container];
    destruct (container this) as [[| [] fb |] |] eqn:Ec; cbn in *;
    rewrite ?Ec; first [reflexivity | discriminate H].
Qed.

(** X5. On a state reached from a new controller with a question to grade but
    no quiz question on display (in particular before [render]),
    [submitQuizAnswer] throws, and the score has nevertheless been raised by
    one for an answer judged correct. *)
Theorem submitQuizAnswer_counts_then_throws (d : StudyPlanData) (ops : list Op)
  (a : string) (i : Z) (q : Question) :
  current_question (run (new_SequentialStudy d) ops) = Some (i, q) ->
  shows_quiz_question (container (run (new_SequentialStudy d) ops)) = false ->
  snd (submitQuizAnswer a (run (new_SequentialStudy d) ops)) = Threw
  /\ quiz_score (fst (submitQuizAnswer a (run (new_SequentialStudy d) ops)))
     = quiz_score (run (new_SequentialStudy d) ops)
       + (if isCorrect q a then 1 else 0)
  /\ container (fst (submitQuizAnswer a (run (new_SequentialStudy d) ops)))
     = container (run (new_SequentialStudy d) ops).
Proof.
  intros Ecq Hc. pose proof (run_new_reached d ops) as R.
  set (t := run (new_SequentialStudy d) ops) in *.
  split; [| split].
  - pose proof (submitQuizAnswer_outcome a t) as O.
    destruct (snd (submitQuizAnswer a t)); [| reflexivity].
    destruct (proj1 O eq_refl) as [_ H]. congruence.
  - destruct (step_reached d _ t (OpSubmitQuizAnswer a) R) as (_ & E & _).
    rewrite step_state_cases in E. rewrite E. unfold score_delta.
    now rewrite Ecq.
  - now apply submitQuizAnswer_container.
Qed.

Lemma submitQuizAnswer_counts_then_throws_witness :
  snd (submitQuizAnswer "a"
         (run (new_SequentialStudy (sample_doc [] [mc_question "a"]))
            [OpNextSection])) = Threw
  /\ quiz_score
       (fst (submitQuizAnswer "a"
               (run (new_SequentialStudy (sample_doc [] [mc_question "a"]))
                  [OpNextSection])))
     = quiz_score (run (new_SequentialStudy (sample_doc [] [mc_question "a"]))
                     [OpNextSection])
       + (if isCorrect (mc_question "a") "a" then 1 else 0).
Proof.
  destruct (submitQuizAnswer_counts_then_throws
              (sample_doc [] [mc_question "a"]) [OpNextSection] "a" 0
              (mc_question "a") eq_refl eq_refl) as (H1 & H2 & _).
  split; [exact H1 | exact H2].
Defined.

Lemma SequentialStudy_eq (a b : SequentialStudy) :
  data a = data b -> currentSectionIndex a = currentSectionIndex b ->
  sections a = sections b -> container a = container b ->
  onComplete a = onComplete b -> a = b.
Proof. destruct a, b. cbn. intros -> -> -> -> ->. reflexivity. Qed.

Lemma renderSection_state (this : SequentialStudy) (s : StudySection) :
  Renderable (sections this) -> getCurrentSection this = Some s ->
  container this <> None ->
  fst (renderSection this)
  = with_container this (Some (DomSection (type s) None)).
Proof.
  intros Hr E Hc. unfold renderSection.
  destruct (container this); [| contradiction]. rewrite E.
  destruct (SectionType_eqb (type s) quiz) eqn:T; [| reflexivity].
  rewrite (Hr _ _ E); [reflexivity |]. now destruct (type s).
Qed.

Lemma fadeIn_to (this : SequentialStudy) (i : Z) :
  Renderable (sections this) -> 0 <= i < JS.length (sections this) ->
  container this = None \/ Shown this ->
  let t := fst (fst (fadeIn (with_index this i))) in
  data t = data this /\ currentSectionIndex t = i
  /\ sections t = sections this /\ onComplete t = onComplete this
  /\ (container this = None -> container t = None)
  /\ (Shown this -> Shown t).
Proof.
  intros Hr Hi Hc. cbn zeta. unfold fadeIn. cbn [container with_index].
  destruct (container this) as [c |] eqn:Ec.
  - destruct (JS_index_Some (sections this) i Hi) as [s E].
    assert (F : fst (renderSection (with_index this i))
                = with_container (with_index this i)
                    (Some (DomSection (type s) None))).
    { apply renderSection_state; cbn; [exact Hr | exact E | congruence]. }
    destruct (renderSection (with_index this i)) as [t []]; cbn [fst] in *;
      subst t; cbn; repeat split; try discriminate;
      intros _; exists s; now split.
  - cbn. repeat split; auto. intros (s & _ & H). congruence.
Qed.

(** X6. Going forward and back again, or back and forward again, returns the
    controller to exactly the state it was in, whenever the state is one that
    navigation leaves behind: the current section on display (or no
    container) and every quiz question renderable. *)
Theorem navigation_round_trip (this : SequentialStudy) :
  Renderable (sections this) ->
  container this = None \/ Shown this ->
  (0 <= currentSectionIndex this < JS.length (sections this) - 1 ->
   fst (fst (prevSection (fst (fst (nextSection this))))) = this)
  /\ (0 < currentSectionIndex this <= JS.length (sections this) - 1 ->
      fst (fst (nextSection (fst (fst (prevSection this))))) = this).
Proof.
  intros Hr Hc.
  assert (Back : forall t i,
             data t = data this -> currentSectionIndex t = i ->
             sections t = sections this -> onComplete t = onComplete this ->
             (container this = None -> container t = None) ->
             (Shown this -> Shown t) ->
             0 <= currentSectionIndex this < JS.length (sections this) ->
             fst (fst (fadeIn (with_index t (currentSectionIndex this)))) = this).
  { intros t i Ed Ei Es Eo Cn Cs Hb.
    destruct (fadeIn_to t (currentSectionIndex this)) as (D & I & S & O & N & Sh);
      rewrite ?Es; auto; [destruct Hc; auto |].
    apply SequentialStudy_eq; try congruence.
    destruct Hc as [Hn | (s & E & C)].
    - rewrite (N (Cn Hn)). now rewrite Hn.
    - destruct (Sh (Cs (ex_intro _ s (conj E C)))) as (s' & E' & C').
      rewrite C', C. unfold getCurrentSection in E, E'.
      rewrite I, S, Es, E in E'. now injection E' as <-. }
  split; intros Hi.
  - unfold nextSection at 1, nextSection_resume.
    destruct (Z.geb_spec (currentSectionIndex this) (JS.length (sections this) - 1));
      [lia |].
    destruct (fadeIn_to this (currentSectionIndex this + 1))
      as (D & I & S & O & N & Sh); auto; [lia |].
    destruct (fadeIn (with_index this (currentSectionIndex this + 1)))
      as [[t inn] o]. cbn [fst] in *. unfold prevSection.
    destruct (Z.leb_spec (currentSectionIndex t) 0); [lia |].
    rewrite I. replace (currentSectionIndex this + 1 - 1)
      with (currentSectionIndex this) by lia.
    pose proof (Back t _ D I S O N Sh ltac:(lia)) as B.
    destruct (fadeIn (with_index t (currentSectionIndex this))) as [[t' inn'] o'].
    exact B.
  - unfold prevSection at 1.
    destruct (Z.leb_spec (currentSectionIndex this) 0); [lia |].
    destruct (fadeIn_to this (currentSectionIndex this - 1))
      as (D & I & S & O & N & Sh); auto; [lia |].
    destruct (fadeIn (with_index this (currentSectionIndex this - 1)))
      as [[t inn] o]. cbn [fst] in *. unfold nextSection, nextSection_resume.
    rewrite I, S.
    destruct (Z.geb_spec (currentSectionIndex this - 1)
                (JS.length (sections this) - 1)); [lia |].
    replace (currentSectionIndex this - 1 + 1)
      with (currentSectionIndex this) by lia.
    pose proof (Back t _ D I S O N Sh ltac:(lia)) as B.
    destruct (fadeIn (with_index t (currentSectionIndex this))) as [[t' inn'] o'].
    exact B.
Qed.

Lemma navigation_round_trip_witness :
  fst (fst (prevSection
              (fst (fst (nextSection
                           (run (new_SequentialStudy two_question_doc) [OpRender]))))))
  = run (new_SequentialStudy two_question_doc) [OpRender].
Proof.
  apply (navigation_round_trip (run (new_SequentialStudy two_question_doc) [OpRender])).
  - apply (reached_renderable two_question_doc _ _
             (run_new_reached two_question_doc [OpRender])).
  - right. eexists. split; reflexivity.
  - vm_compute. split; [discriminate | reflexivity].
Defined.

(** ** More on strings *)

Lemma string_app_nil_r (s : string) : (s ++ EmptyString)%string = s.
Proof. induction s as [| c s IH]; cbn; [reflexivity | now rewrite IH]. Qed.

Lemma string_app_assoc (a b c : string) :
  ((a ++ b) ++ c)%string = (a ++ (b ++ c))%string.
Proof. induction a as [| x a IH]; cbn; [reflexivity | now rewrite IH]. Qed.

Lemma includes_refl (s : string) : JS.includes s s = true.
Proof.
  apply includes_spec. exists EmptyString, EmptyString.
  cbn. now rewrite string_app_nil_r.
Qed.

Lemma includes_empty (s : string) : JS.includes s EmptyString = true.
Proof. apply includes_spec. now exists EmptyString, s. Qed.

Lemma toLowerCase_app (a b : string) :
  JS.toLowerCase (a ++ b) = (JS.toLowerCase a ++ JS.toLowerCase b)%string.
Proof. induction a as [| c a IH]; cbn; [reflexivity | now rewrite IH]. Qed.

Lemma lower_char_idempotent (c : ascii) :
  JS.lower_char (JS.lower_char c) = JS.lower_char c.
Proof. destruct c as [[] [] [] [] [] [] [] []]; reflexivity. Qed.

Lemma lower_char_whitespace (c : ascii) :
  JS.is_whitespace (JS.lower_char c) = JS.is_whitespace c.
Proof. destruct c as [[] [] [] [] [] [] [] []]; reflexivity. Qed.

Lemma toLowerCase_idempotent (s : string) :
  JS.toLowerCase (JS.toLowerCase s) = JS.toLowerCase s.
Proof.
  induction s as [| c s IH]; cbn; [reflexivity |].
  now rewrite lower_char_idempotent, IH.
Qed.

Lemma toLowerCase_whitespace (s : string) :
  all_whitespace (JS.toLowerCase s) = all_whitespace s.
Proof.
  induction s as [| c s IH]; cbn; [reflexivity |].
  now rewrite lower_char_whitespace, IH.
Qed.

Lemma trimStart_whitespace (w : string) :
  all_whitespace w = true -> JS.trimStart w = EmptyString.
Proof.
  induction w as [| c w IH]; cbn; [reflexivity |].
  intros H. apply andb_true_iff in H. destruct H as [-> H]. auto.
Qed.

Lemma trimEnd_whitespace (w : string) :
  all_whitespace w = true -> JS.trimEnd w = EmptyString.
Proof.
  induction w as [| c w IH]; cbn; [reflexivity |].
  intros H. apply andb_true_iff in H. destruct H as [Hc H].
  now rewrite (IH H), Hc.
Qed.

Lemma trimStart_app (s t : string) :
  JS.trimStart (s ++ t)
  = if all_whitespace s then JS.trimStart t else (JS.trimStart s ++ t)%string.
Proof.
  induction s as [| c s IH]; cbn; [reflexivity |].
  destruct (JS.is_whitespace c); cbn; [exact IH | reflexivity].
Qed.

Lemma trimEnd_app_whitespace (s w : string) :
  all_whitespace w = true -> JS.trimEnd (s ++ w) = JS.trimEnd s.
Proof.
  intros H. induction s as [| c s IH]; cbn.
  - now apply trimEnd_whitespace.
  - now rewrite IH.
Qed.

Lemma trim_padding (l s r : string) :
  all_whitespace l = true -> all_whitespace r = true ->
  JS.trim (l ++ s ++ r) = JS.trim s.
Proof.
  intros Hl Hr. unfold JS.trim. rewrite trimStart_app, Hl, trimStart_app.
  destruct (all_whitespace s) eqn:Hs.
  - now rewrite (trimStart_whitespace r Hr), (trimStart_whitespace s Hs).
  - now apply trimEnd_app_whitespace.
Qed.

(** ** More on grading *)

(** X7. The stored answer itself is judged correct, for every question. *)
Theorem stored_answer_is_correct (question : Question) :
  isCorrect question (q_answer question) = true.
Proof.
  unfold isCorrect. destruct (String.eqb (q_type question) "multiple_choice").
  - apply String.eqb_refl.
  - now rewrite includes_refl.
Qed.

(** X8. For a question that is not multiple choice the empty candidate is
    judged correct whatever the stored answer is, and so is every candidate
    when the stored answer is empty. *)
Theorem short_answer_empty_strings (question : Question) (candidate : string) :
  q_type question <> "multiple_choice"%string ->
  isCorrect question EmptyString = true
  /\ (q_answer question = EmptyString -> isCorrect question candidate = true).
Proof.
  intros Hty. apply String.eqb_neq in Hty. unfold isCorrect. rewrite Hty.
  split.
  - cbn [JS.toLowerCase]. rewrite includes_empty. apply orb_true_r.
  - intros ->. cbn [JS.toLowerCase]. now rewrite includes_empty.
Qed.

Lemma short_answer_empty_strings_witness :
  isCorrect (short_question "mitochondria") EmptyString = true.
Proof.
  apply (proj1 (short_answer_empty_strings (short_question "mitochondria")
                  EmptyString ltac:(discriminate))).
Defined.

(** X9. The verdict does not depend on the letter case of the candidate, for
    any question; for a multiple-choice question it does not depend on
    whitespace around the candidate either. *)
Theorem verdict_ignores_case_and_padding (question : Question) (candidate : string) :
  isCorrect question (JS.toLowerCase candidate) = isCorrect question candidate
  /\ (q_type question = "multiple_choice"%string ->
      forall l r, all_whitespace l = true -> all_whitespace r = true ->
                  isCorrect question (l ++ candidate ++ r) = isCorrect question candidate).
Proof.
  split.
  - unfold isCorrect. now rewrite toLowerCase_idempotent.
  - intros Hty l r Hl Hr. unfold isCorrect. rewrite Hty, String.eqb_refl.
    rewrite !toLowerCase_app, trim_padding; [reflexivity | |];
      now rewrite toLowerCase_whitespace.
Qed.

Lemma verdict_ignores_case_and_padding_witness :
  isCorrect (mc_question "Paris") "  paris " = isCorrect (mc_question "Paris") "paris".
Proof.
  apply (proj2 (verdict_ignores_case_and_padding (mc_question "Paris") "paris")
           eq_refl "  "%string " "%string); reflexivity.
Defined.

(** X10. For a question that is not multiple choice, a candidate in which the
    stored answer occurs stays correct when text is added before and after
    it. *)
Theorem short_answer_containment_extends (question : Question)
  (pre candidate post : string) :
  q_type question <> "multiple_choice"%string ->
  JS.includes (JS.toLowerCase candidate) (JS.toLowerCase (q_answer question)) = true ->
  isCorrect question (pre ++ candidate ++ post) = true.
Proof.
  intros Hty H. apply String.eqb_neq in Hty. unfold isCorrect. rewrite Hty.
  apply orb_true_iff. left. apply includes_spec. apply includes_spec in H.
  destruct H as (p & q & E). rewrite !toLowerCase_app, E.
  exists (JS.toLowerCase pre ++ p)%string, (q ++ JS.toLowerCase post)%string.
  now rewrite !string_app_assoc.
Qed.

Lemma short_answer_containment_extends_witness :
  isCorrect (short_question "cell") ("I think " ++ "the Cell" ++ " wall") = true.
Proof.
  apply (short_answer_containment_extends (short_question "cell")
           "I think " "the Cell" " wall").
  - discriminate.
  - reflexivity.
Defined.

(** ** The result message and the stars *)

Lemma overcount_message_tables :
  overcount_message_table 1 = true /\ overcount_message_table 2 = true
  /\ overcount_message_table 3 = true.
Proof. vm_compute. repeat split. Qed.

(** X11. For a quiz of one to three questions and a score between zero and
    the number of questions, the result screen says "Perfect Score" exactly
    for a full score, "Good start" for half or more, "Keep practicing" below
    half, and never "Great job"; a score above the number of questions (a
    question graded more than once) is reported as "Great job". *)
Theorem result_message_cases (score total : Z) :
  1 <= total <= 3 ->
  (0 <= score <= total ->
   result_message (percentage_of score total)
   = if score =? total then "Perfect Score! You're a master."%string
     else if total <=? 2 * score
          then "Good start, review the concepts again."%string
          else "Keep practicing, you'll get there!"%string)
  /\ (total < score <= total + 1 + Z.of_nat checked_overcount ->
      result_message (percentage_of score total)
      = "Great job! You have a solid grasp."%string).
Proof.
  intros Ht. split.
  - intros Hs.
    assert (C : (total = 1 \/ total = 2 \/ total = 3)
                /\ (score = 0 \/ score = 1 \/ score = 2 \/ score = 3)) by lia.
    destruct C as [[-> | [-> | ->]] [-> | [-> | [-> | ->]]]];
      try lia; vm_compute; reflexivity.
  - intros Hs. destruct overcount_message_tables as (T1 & T2 & T3).
    assert (T : overcount_message_table total = true).
    { assert (C : total = 1 \/ total = 2 \/ total = 3) by lia.
      destruct C as [-> | [-> | ->]]; assumption. }
    unfold overcount_message_table in T. rewrite forallb_forall in T.
    specialize (T (Z.to_nat (score - total - 1))).
    rewrite Z2Nat.id in T by lia.
    replace (total + 1 + (score - total - 1)) with score in T by lia.
    apply String.eqb_eq, T, in_seq. lia.
Qed.

Lemma result_message_cases_witness :
  result_message (percentage_of 2 3) = "Good start, review the concepts again."%string.
Proof.
  apply (proj1 (result_message_cases 2 3 ltac:(lia))). lia.
Defined.

(** X12. [renderQuiz] always shows five stars, the lit ones first; their
    number is the difficulty rating cut to the range 0..5, a missing rating or
    a rating of 0 counting as 3. *)
Theorem difficulty_stars_shape (question : Question) :
  difficulty_stars question
  = repeat true (Z.to_nat (Z.max 0 (Z.min 5 (effective_rating question))))
    ++ repeat false (5 - Z.to_nat (Z.max 0 (Z.min 5 (effective_rating question))))
  /\ List.length (difficulty_stars question) = 5%nat
  /\ (q_difficulty_rating question = None \/ q_difficulty_rating question = Some 0 ->
      difficulty_stars question = [true; true; true; false; false]).
Proof.
  split; [| split].
  - unfold difficulty_stars. generalize (effective_rating question). intros r.
    assert (C : r <= 0 \/ r = 1 \/ r = 2 \/ r = 3 \/ r = 4 \/ 5 <= r) by lia.
    destruct C as [H | [-> | [-> | [-> | [-> | H]]]]]; try reflexivity.
    + replace (Z.max 0 (Z.min 5 r)) with 0 by lia. cbn.
      repeat match goal with
             | |- context [?a <? r] => destruct (Z.ltb_spec a r); [lia |]
             end. reflexivity.
    + replace (Z.max 0 (Z.min 5 r)) with 5 by lia. cbn.
      repeat match goal with
             | |- context [?a <? r] => destruct (Z.ltb_spec a r); [| lia]
             end. reflexivity.
  - unfold difficulty_stars. now rewrite length_map.
  - unfold difficulty_stars, effective_rating. now intros [-> | ->].
Qed.

Lemma difficulty_stars_shape_witness :
  difficulty_stars (mc_question "a") = [true; true; true; false; false].
Proof.
  apply (difficulty_stars_shape (mc_question "a")). left. reflexivity.
Defined.

(** ** Pages reached by clicks *)

Lemma page_run_controller (evs : list UIEvent) (u : Page) :
  controller (page_run u evs) = run (controller u) (page_ops u evs).
Proof.
  revert u. induction evs as [| ev evs IH]; intros u; [reflexivity |].
  cbn [page_run page_ops]. rewrite IH. unfold page_step.
  destruct (handled u ev) as [op |]; reflexivity.
Qed.

Lemma page_open_controller (d : StudyPlanData) (evs : list UIEvent) :
  controller (page_run (page_open d) evs)
  = run (new_SequentialStudy d) (OpRender :: page_ops (page_open d) evs).
Proof. now rewrite page_run_controller. Qed.

Lemma listeners_of_spec (this : SequentialStudy) (s : StudySection) :
  getCurrentSection this = Some s ->
  on_continue (listeners_of this) = enabled (next_button s)
  /\ on_back (listeners_of this) = (0 <? currentSectionIndex this)
  /\ (on_option (listeners_of this) = true \/ on_short_answer (listeners_of this) = true ->
      type s = quiz
      /\ exists i q, current_question this = Some (i, q)
                     /\ (on_option (listeners_of this) = true -> option_buttons q <> [])
                     /\ (on_short_answer (listeners_of this) = true ->
                         has_option_buttons q = false)).
Proof.
  intros E. unfold listeners_of. rewrite E. cbn.
  split; [reflexivity |]. split; [reflexivity |].
  destruct (type s); cbn; try (intros [H | H]; discriminate H).
  destruct (current_question this) as [[i q] |]; cbn;
    [| intros [H | H]; discriminate H].
  intros _. split; [reflexivity |]. exists i, q. split; [reflexivity |]. split.
  - destruct (option_buttons q); [discriminate | discriminate].
  - intros H. now apply negb_true_iff in H.
Qed.

Lemma rerender_wired (this : SequentialStudy) (w : Listeners) :
  index_in_bounds this -> Renderable (sections this) -> container this <> None ->
  Wired {| controller := fst (renderSection this);
           listeners := renderSection_wires this w |}.
Proof.
  intros Hb Hr Hc. destruct (JS_index_Some _ _ Hb) as [s E].
  fold (getCurrentSection this) in E.
  rewrite (renderSection_state this s Hr E Hc).
  assert (W : renderSection_wires this w = listeners_of this).
  { unfold renderSection_wires. rewrite E, (renderSection_returns this Hr).
    destruct (container this); [reflexivity | contradiction]. }
  rewrite W. destruct (listeners_of_spec this s E) as (L1 & L2 & L3).
  constructor; cbn.
  - discriminate.
  - rewrite L1. intros H. now exists s.
  - rewrite L2. intros H. now apply Z.ltb_lt.
  - intros H. destruct (L3 H) as (T & i & q & Q & O & S).
    rewrite T. split; [reflexivity |]. now exists i, q.
Qed.

Lemma index_persists (l l' : list StudySection) (i : Z) (s : StudySection) :
  Forall2 section_persists l l' -> JS.index l i = Some s ->
  exists s', JS.index l' i = Some s' /\ section_persists s s'.
Proof.
  intros H. unfold JS.index. destruct (i <? 0); [discriminate |].
  generalize (Z.to_nat i). induction H as [| x y l l' Hxy _ IH]; intros [| n] E;
    cbn in *; try discriminate.
  - injection E as <-. now exists y.
  - now apply IH.
Qed.

Lemma continue_persists (t t' : SequentialStudy) :
  Forall2 section_persists (sections t) (sections t') ->
  currentSectionIndex t' = currentSectionIndex t ->
  (exists s, getCurrentSection t = Some s /\ enabled (next_button s) = true) ->
  exists s', getCurrentSection t' = Some s' /\ enabled (next_button s') = true.
Proof.
  intros F I (s & E & En). unfold getCurrentSection in *. rewrite I.
  destruct (index_persists _ _ _ _ F E) as (s' & E' & P).
  exists s'. split; [exact E' |]. now apply P.
Qed.

Lemma wired_same (u : Page) (t : SequentialStudy) :
  Wired u -> container t = container (controller u) ->
  currentSectionIndex t = currentSectionIndex (controller u) ->
  sections t = sections (controller u) ->
  Wired {| controller := t; listeners := listeners u |}.
Proof.
  intros [W1 W2 W3 W4] Ec Ei Es.
  assert (Eg : getCurrentSection t = getCurrentSection (controller u)).
  { unfold getCurrentSection. now rewrite Ei, Es. }
  assert (Eq : current_question t = current_question (controller u)).
  { unfold current_question. now rewrite Eg. }
  constructor; cbn; rewrite ?Ec, ?Ei, ?Eg, ?Eq; assumption.
Qed.

Lemma wired_cleared (u : Page) (t : SequentialStudy) :
  Wired u -> container t <> None ->
  currentSectionIndex t = currentSectionIndex (controller u) ->
  Forall2 section_persists (sections (controller u)) (sections t) ->
  Wired {| controller := t; listeners := clear_form (listeners u) |}.
Proof.
  intros [W1 W2 W3 W4] Ec Ei Es. constructor; cbn.
  - exact Ec.
  - intros H. apply (continue_persists (controller u) t Es Ei (W2 H)).
  - rewrite Ei. exact W3.
  - intros [H | H]; discriminate H.
Qed.

Lemma nextSection_state_moving (this : SequentialStudy) :
  currentSectionIndex this < JS.length (sections this) - 1 ->
  container this <> None ->
  fst (fst (nextSection this))
  = fst (renderSection (with_index this (currentSectionIndex this + 1))).
Proof.
  intros Hlt Hc. unfold nextSection, nextSection_resume.
  destruct (Z.geb_spec (currentSectionIndex this) (JS.length (sections this) - 1));
    [lia |].
  pose proof (fadeIn_state (with_index this (currentSectionIndex this + 1)) Hc) as F.
  now destruct (fadeIn (with_index this (currentSectionIndex this + 1)))
    as [[t inn] o].
Qed.

Lemma prevSection_state_moving (this : SequentialStudy) :
  0 < currentSectionIndex this ->
  container this <> None ->
  fst (fst (prevSection this))
  = fst (renderSection (with_index this (currentSectionIndex this - 1))).
Proof.
  intros Hlt Hc. unfold prevSection.
  destruct (Z.leb_spec (currentSectionIndex this) 0); [lia |].
  pose proof (fadeIn_state (with_index this (currentSectionIndex this - 1)) Hc) as F.
  now destruct (fadeIn (with_index this (currentSectionIndex this - 1)))
    as [[t inn] o].
Qed.

Lemma showQuizResults_cases (this : SequentialStudy) :
  showQuizResults this = (this, Threw)
  \/ exists sc tot p,
      showQuizResults this
      = (with_sections (with_container this (Some (DomResults sc tot p)))
           (JS.update (sections this) (currentSectionIndex this) enable_next_button),
         Returned).
Proof.
  unfold showQuizResults.
  destruct (getCurrentSection this) as [s |]; [| now left].
  destruct (content s) as [| | qs cq sc]; try now left.
  destruct (container this) as [[| ty fb |] |]; try now left.
  - right. now exists sc, (JS.length qs), (percentage_of sc (JS.length qs)).
  - right. now exists sc, (JS.length qs), (percentage_of sc (JS.length qs)).
Qed.

Lemma handled_submit (u : Page) (ev : UIEvent) (a : string) :
  handled u ev = Some (OpSubmitQuizAnswer a) ->
  (ev = ClickOption a /\ on_option (listeners u) = true)
  \/ (exists v, ev = ClickSubmitShortAnswer v /\ JS.trim v = a
                /\ a <> EmptyString /\ on_short_answer (listeners u) = true).
Proof.
  destruct ev as [| | b | v | | cb]; cbn.
  - destruct (on_continue (listeners u)); discriminate.
  - destruct (on_back (listeners u)); discriminate.
  - destruct (on_option (listeners u)) eqn:E; [| discriminate].
    intros H. injection H as ->. now left.
  - destruct (on_short_answer (listeners u)) eqn:E; [| discriminate].
    destruct (JS.trim v) as [| c t] eqn:T; [discriminate |].
    intros H. injection H as <-. right. exists v. repeat split; auto. discriminate.
  - discriminate.
  - discriminate.
Qed.

Lemma submit_on_fresh_question (u : Page) (ev : UIEvent) (a : string) :
  Wired u -> handled u ev = Some (OpSubmitQuizAnswer a) ->
  container (controller u) = Some (DomSection quiz None)
  /\ snd (submitQuizAnswer a (controller u)) = Returned
  /\ exists fb, container (fst (submitQuizAnswer a (controller u)))
                = Some (DomSection quiz (Some fb)).
Proof.
  intros W Eh.
  assert (Hf : on_option (listeners u) = true \/ on_short_answer (listeners u) = true).
  { destruct (handled_submit u ev a Eh) as [[_ H] | (v & _ & _ & _ & H)]; auto. }
  destruct (wired_form u W Hf) as (Ec & i & q & Eq & _).
  split; [exact Ec |].
  assert (O : snd (submitQuizAnswer a (controller u)) = Returned).
  { apply submitQuizAnswer_outcome. rewrite Eq, Ec. split; [discriminate | reflexivity]. }
  split; [exact O |].
  unfold current_question in Eq.
  destruct (getCurrentSection (controller u)) as [s |] eqn:Es; [| discriminate].
  destruct (content s) as [| | qs cq sc] eqn:Cs; try discriminate.
  destruct (JS.index qs cq) as [q' |] eqn:Eq'; [| discriminate].
  destruct (submitQuizAnswer_grades a (controller u) s qs cq sc q' Es Cs Eq')
    as (_ & H).
  destruct (H None Ec) as (C & _). eexists. exact C.
Qed.

Lemma page_step_wired (d : StudyPlanData) (log : list Z) (u : Page) (ev : UIEvent) :
  Reached d log (controller u) -> Wired u -> Wired (fst (page_step u ev)).
Proof.
  intros R W. pose proof (reached_renderable _ _ _ R) as Hr.
  pose proof (reached_index _ _ _ R) as Hb.
  pose proof (wired_container u W) as Hc.
  assert (Same : forall t, t = controller u ->
                           Wired {| controller := t; listeners := listeners u |}).
  { intros t ->. now apply wired_same. }
  unfold page_step. destruct (handled u ev) as [op |] eqn:Eh; [| exact W].
  cbn [fst]. rewrite step_state_cases.
  destruct op as [| callback | | | a |]; cbn [listeners_after].
  - unfold render. apply rerender_wired; cbn; [exact Hb | exact Hr | discriminate].
  - now apply wired_same.
  - destruct (Z.geb_spec (currentSectionIndex (controller u))
                (JS.length (sections (controller u)) - 1)) as [Hge | Hlt].
    + apply Same. now rewrite nextSection_last by lia.
    + rewrite nextSection_state_moving by assumption.
      apply rerender_wired; cbn; [| exact Hr | exact Hc].
      unfold index_in_bounds in *. cbn. lia.
  - destruct (Z.leb_spec (currentSectionIndex (controller u)) 0) as [Hle | Hgt].
    + apply Same. unfold prevSection.
      destruct (Z.leb_spec (currentSectionIndex (controller u)) 0);
        [reflexivity | lia].
    + rewrite prevSection_state_moving by assumption.
      apply rerender_wired; cbn; [| exact Hr | exact Hc].
      unfold index_in_bounds in *. cbn. lia.
  - destruct (submit_on_fresh_question u ev a W Eh) as (_ & O & fb & C).
    rewrite O. apply wired_cleared; [exact W | congruence | |].
    + apply submitQuizAnswer_frame.
    + pose proof (step_sections_persist (controller u) (OpSubmitQuizAnswer a)) as P.
      now rewrite step_state_cases in P.
  - unfold nextQuizQuestion.
    destruct (container (controller u)) as [[| [] [fb |] |] |] eqn:Ec;
      try (now apply Same).
    destruct (JS.index (sections (controller u)) (fb_section fb)) as [s |] eqn:Es;
      [| now apply Same].
    destruct (content s) as [| | qs cq sc] eqn:Cs; try (now apply Same).
    destruct (Z.ltb_spec cq (JS.length qs - 1)) as [Hlt | Hge].
    + apply rerender_wired; cbn.
      * unfold index_in_bounds in *. cbn. now rewrite JS_update_length.
      * eapply renderable_increment; eauto.
      * congruence.
    + destruct (showQuizResults_cases (controller u)) as [-> | (x & y & z & ->)];
        cbn [fst snd].
      * now apply Same.
      * apply wired_cleared; cbn; [exact W | discriminate | reflexivity |].
        apply Forall2_update, enable_next_button_persists.
Qed.

Lemma page_step_reached (d : StudyPlanData) (log : list Z) (u : Page) (ev : UIEvent) :
  Reached d log (controller u) -> Synced (controller u) ->
  (exists log', Reached d log' (controller (fst (page_step u ev))))
  /\ Synced (controller (fst (page_step u ev))).
Proof.
  intros R Hy. unfold page_step. destruct (handled u ev) as [op |].
  - cbn. split.
    + eexists. exact (proj1 (step_reached d log _ op R)).
    + now apply (step_synced d log).
  - cbn. split; [now exists log | exact Hy].
Qed.

(** The invariant of pages. *)
Lemma page_run_invariant (d : StudyPlanData) (evs : list UIEvent) (u : Page) :
  (exists log, Reached d log (controller u)) -> Synced (controller u) -> Wired u ->
  (exists log, Reached d log (controller (page_run u evs)))
  /\ Synced (controller (page_run u evs))
  /\ Wired (page_run u evs).
Proof.
  revert u. induction evs as [| ev evs IH]; intros u [log R] Hy W; cbn [page_run].
  - split; [now exists log | now split].
  - destruct (page_step_reached d log u ev R Hy) as (R' & Hy').
    apply IH; [exact R' | exact Hy' | exact (page_step_wired d log u ev R W)].
Qed.

Lemma page_open_invariant (d : StudyPlanData) :
  (exists log, Reached d log (controller (page_open d)))
  /\ Synced (controller (page_open d))
  /\ Wired (page_open d).
Proof.
  pose proof (new_reached d) as R.
  split; [| split].
  - eexists. exact (proj1 (step_reached d [] _ OpRender R)).
  - apply (step_synced d [] _ OpRender R). now apply synced_none.
  - unfold page_open. rewrite step_state_cases. cbn [listeners_after].
    unfold render. apply rerender_wired; cbn.
    + apply (new_index_in_bounds d).
    + apply (reached_renderable _ _ _ R).
    + discriminate.
Qed.

Lemma page_invariant (d : StudyPlanData) (evs : list UIEvent) :
  (exists log, Reached d log (controller (page_run (page_open d) evs)))
  /\ Synced (controller (page_run (page_open d) evs))
  /\ Wired (page_run (page_open d) evs).
Proof.
  destruct (page_open_invariant d) as (R & Hy & W).
  now apply page_run_invariant.
Qed.

(** ** What the clicks can do *)

Lemma reached_last_is_quiz (d : StudyPlanData) (log : list Z)
  (this : SequentialStudy) (s : StudySection) :
  Reached d log this -> quiz_list d <> [] ->
  JS.length (sections this) - 1 <= currentSectionIndex this ->
  getCurrentSection this = Some s ->
  quiz_navEnabled this = Some (enabled (next_button s)).
Proof.
  intros [Hb Hs _] Hne Hge E. pose proof (leading_plain d) as HL.
  rewrite (quiz_list_present d Hne) in Hs.
  destruct Hs as (cq & sc & en & Hs & _).
  destruct (quiz_observations _ _ _ _ _ _ Hs HL) as (_ & _ & ->).
  unfold index_in_bounds in Hb. rewrite Hs, JS_length_app in Hb, Hge.
  change (JS.length [quiz_state (JS.slice0 3 (quiz_list d)) cq sc en]) with 1
    in Hb, Hge.
  unfold getCurrentSection in E.
  replace (currentSectionIndex this) with (JS.length (leading_sections d)) in E
    by lia.
  rewrite Hs, index_app_last in E. now injection E as <-.
Qed.

Lemma completed_event (this : SequentialStudy) (op : Op) (callback : nat) :
  Renderable (sections this) ->
  In (Completed callback) (step_events this op) ->
  op = OpNextSection
  /\ JS.length (sections this) - 1 <= currentSectionIndex this.
Proof.
  intros Hr. rewrite step_events_cases.
  destruct op as [| cb | | | a |]; try (intros []).
  - destruct (nextSection_events this Hr) as [_ ->].
    destruct (Z.geb_spec (currentSectionIndex this) (JS.length (sections this) - 1)).
    + intros _. split; [reflexivity | lia].
    + destruct (container this); cbn; intros K;
        repeat (destruct K as [K | K]; [discriminate K |]); contradiction.
  - destruct (prevSection_events this Hr) as [_ ->].
    destruct (currentSectionIndex this <=? 0); [intros [] |].
    destruct (container this); cbn; intros K;
      repeat (destruct K as [K | K]; [discriminate K |]); contradiction.
Qed.

Lemma handled_nextSection (u : Page) (ev : UIEvent) :
  handled u ev = Some OpNextSection ->
  ev = ClickContinue /\ on_continue (listeners u) = true.
Proof.
  destruct ev as [| | b | v | | cb]; cbn; try discriminate.
  - destruct (on_continue (listeners u)); [now split | discriminate].
  - destruct (on_back (listeners u)); discriminate.
  - destruct (on_option (listeners u)); discriminate.
  - destruct (on_short_answer (listeners u)); [| discriminate].
    destruct (JS.trim v); discriminate.
Qed.

(** X13. On a page opened on a document with quiz questions, whatever is
    clicked, the completion callback is invoked only when the next button of
    the Quiz section is enabled: the listeners keep the gate that
    [nextSection] itself does not check. *)
Theorem completion_only_after_quiz (d : StudyPlanData) (evs : list UIEvent)
  (ev : UIEvent) (callback : nat) :
  quiz_list d <> [] ->
  In (Completed callback) (snd (page_step (page_run (page_open d) evs) ev)) ->
  quiz_navEnabled (controller (page_run (page_open d) evs)) = Some true.
Proof.
  intros Hne Hin. destruct (page_invariant d evs) as ((log & R) & _ & W).
  set (u := page_run (page_open d) evs) in *.
  unfold page_step in Hin. destruct (handled u ev) as [op |] eqn:Eh;
    [| destruct Hin].
  cbn [snd] in Hin.
  destruct (completed_event _ _ _ (reached_renderable _ _ _ R) Hin) as (-> & Hge).
  destruct (handled_nextSection u ev Eh) as (_ & Hon).
  destruct (wired_continue u W Hon) as (s & E & En).
  rewrite (reached_last_is_quiz d log _ s R Hne Hge E). now rewrite En.
Qed.

Lemma find_quiz_update_nat (f : StudySection -> StudySection)
  (l : list StudySection) (n : nat) :
  (forall s, nth_error l n = Some s ->
             type (f s) = type s
             /\ enabled (next_button (f s)) = enabled (next_button s)) ->
  option_map (fun s => enabled (next_button s)) (find_quiz (JS.update_nat l n f))
  = option_map (fun s => enabled (next_button s)) (find_quiz l).
Proof.
  revert n. unfold find_quiz.
  induction l as [| x xs IH]; intros [| n] H; cbn; try reflexivity.
  - destruct (H x eq_refl) as [-> E].
    destruct (SectionType_eqb (type x) quiz); cbn; [now rewrite E | reflexivity].
  - destruct (SectionType_eqb (type x) quiz); [reflexivity |].
    apply IH. intros s E. now apply H.
Qed.

Lemma navEnabled_update (f : StudySection -> StudySection)
  (this that : SequentialStudy) (i : Z) :
  sections that = JS.update (sections this) i f ->
  (forall s, JS.index (sections this) i = Some s ->
             type (f s) = type s
             /\ enabled (next_button (f s)) = enabled (next_button s)) ->
  quiz_navEnabled that = quiz_navEnabled this.
Proof.
  intros Es H. unfold quiz_navEnabled. rewrite Es. unfold JS.update.
  unfold JS.index in H. destruct (i <? 0); [reflexivity |].
  now apply find_quiz_update_nat.
Qed.

Lemma navEnabled_sections (this that : SequentialStudy) :
  sections that = sections this -> quiz_navEnabled that = quiz_navEnabled this.
Proof. unfold quiz_navEnabled. now intros ->. Qed.

Lemma increment_score_keeps (s : StudySection) :
  type (increment_score s) = type s
  /\ enabled (next_button (increment_score s)) = enabled (next_button s).
Proof. unfold increment_score. now destruct (content s). Qed.

Lemma increment_currentQuestion_keeps (s : StudySection) :
  type (increment_currentQuestion s) = type s
  /\ enabled (next_button (increment_currentQuestion s)) = enabled (next_button s).
Proof. unfold increment_currentQuestion. now destruct (content s). Qed.

(** A call that turns the quiz's next button on is the click that shows the
    results, and the section it enables is the current one. *)
Lemma enabling_step (this : SequentialStudy) (op : Op) :
  quiz_navEnabled (step_state this op) <> quiz_navEnabled this ->
  op = OpNextQuizQuestion
  /\ snd (showQuizResults this) = Returned
  /\ fst (nextQuizQuestion this) = fst (showQuizResults this)
  /\ (forall s, getCurrentSection this = Some s -> enabled (next_button s) = false)
  /\ forall w, listeners_after this op w = clear_form w.
Proof.
  rewrite step_state_cases. intros H.
  destruct op as [| callback | | | a |].
  - destruct H. apply navEnabled_sections. apply render_frame.
  - now destruct H.
  - destruct H. apply navEnabled_sections, nextSection_sections.
  - destruct H. apply navEnabled_sections, prevSection_sections.
  - destruct H. destruct (submitQuizAnswer_sections a this) as [E | E].
    + now apply navEnabled_sections.
    + eapply navEnabled_update; [exact E |]. intros s _. apply increment_score_keeps.
  - split; [reflexivity |]. revert H. unfold nextQuizQuestion. cbn [listeners_after].
    destruct (container this) as [[| [] [fb |] |] |] eqn:Ec;
      try (intros H; now destruct H).
    destruct (JS.index (sections this) (fb_section fb)) as [s |] eqn:Es;
      [| intros H; now destruct H].
    destruct (content s) as [| | qs cq sc] eqn:Cs; try (intros H; now destruct H).
    destruct (cq <? JS.length qs - 1).
    + intros H. destruct H.
      destruct (renderSection_frame
                  (with_sections this
                     (JS.update (sections this) (fb_section fb)
                        increment_currentQuestion))) as (_ & F & _).
      eapply navEnabled_update; [exact F |].
      intros s' _. apply increment_currentQuestion_keeps.
    + destruct (showQuizResults_cases this) as [E | (x & y & z & E)];
        rewrite E; cbn [fst snd].
      * intros H. now destruct H.
      * intros H. split; [reflexivity |]. split; [reflexivity |].
        split; [| reflexivity].
        intros s0 E0. destruct (enabled (next_button s0)) eqn:En; [| reflexivity].
        destruct H. eapply navEnabled_update; [reflexivity |].
        intros s1 E1. unfold getCurrentSection in E0. rewrite E0 in E1.
        injection E1 as <-. cbn. now rewrite En.
Qed.

Lemma handled_nextQuizQuestion (u : Page) (ev : UIEvent) :
  handled u ev = Some OpNextQuizQuestion -> ev = ClickNextQuestion.
Proof.
  destruct ev as [| | b | v | | cb]; cbn; try discriminate; try reflexivity.
  - destruct (on_continue (listeners u)); discriminate.
  - destruct (on_back (listeners u)); discriminate.
  - destruct (on_option (listeners u)); discriminate.
  - destruct (on_short_answer (listeners u)); [| discriminate].
    destruct (JS.trim v); discriminate.
Qed.

(** X14. On a page reached by clicks, the click that turns the Quiz section's
    next button from disabled to enabled is the one that shows the results,
    and right after it the continue button has no click listener: a click on
    it changes nothing and invokes no callback. *)
Theorem continue_unhandled_after_results (d : StudyPlanData) (evs : list UIEvent)
  (ev : UIEvent) :
  quiz_navEnabled (controller (page_run (page_open d) evs)) = Some false ->
  quiz_navEnabled (controller (fst (page_step (page_run (page_open d) evs) ev)))
  = Some true ->
  ev = ClickNextQuestion
  /\ on_continue (listeners (fst (page_step (page_run (page_open d) evs) ev))) = false
  /\ page_step (fst (page_step (page_run (page_open d) evs) ev)) ClickContinue
     = (fst (page_step (page_run (page_open d) evs) ev), []).
Proof.
  intros H0 H1. destruct (page_invariant d evs) as (_ & _ & W).
  set (u := page_run (page_open d) evs) in *.
  assert (Eu : exists op,
             handled u ev = Some op
             /\ fst (page_step u ev)
                = {| controller := step_state (controller u) op;
                     listeners := listeners_after (controller u) op (listeners u) |}).
  { unfold page_step in *. destruct (handled u ev) as [op |].
    - now exists op.
    - cbn in H1. congruence. }
  destruct Eu as (op & Eh & Eu). rewrite Eu in *. cbn [controller] in H1.
  destruct (enabling_step (controller u) op) as (-> & _ & _ & Hs & L);
    [congruence |].
  assert (Off : on_continue (listeners u) = false).
  { destruct (on_continue (listeners u)) eqn:On; [| reflexivity].
    destruct (wired_continue u W On) as (s & E & En).
    rewrite (Hs s E) in En. discriminate En. }
  split; [exact (handled_nextQuizQuestion u ev Eh) |].
  rewrite L. cbn [listeners clear_form on_continue]. split; [exact Off |].
  unfold page_step, handled. cbn [listeners clear_form on_continue].
  now rewrite Off.
Qed.


(** X16. Whitespace around the text typed into the answer box does not
    matter, and a blank text is not graded: on any page, submitting a padded
    text has the effect of submitting the text, and submitting whitespace
    only has no effect. *)
Theorem typed_answer_is_trimmed (u : Page) (value : string) :
  (forall l r, all_whitespace l = true -> all_whitespace r = true ->
               page_step u (ClickSubmitShortAnswer (l ++ value ++ r))
               = page_step u (ClickSubmitShortAnswer value))
  /\ (all_whitespace value = true ->
      page_step u (ClickSubmitShortAnswer value) = (u, [])).
Proof.
  split.
  - intros l r Hl Hr. unfold page_step, handled. now rewrite trim_padding.
  - intros Hv. unfold page_step, handled, JS.trim.
    rewrite (trimStart_whitespace value Hv). cbn.
    now destruct (on_short_answer (listeners u)).
Qed.

Lemma completion_only_after_quiz_witness :
  quiz_navEnabled
    (controller
       (page_run (page_open two_question_doc)
          [HostSetOnComplete 1%nat; ClickContinue; ClickOption "a";
           ClickNextQuestion; ClickSubmitShortAnswer " b "; ClickNextQuestion;
           ClickBack; ClickContinue]))
  = Some true.
Proof.
  apply (completion_only_after_quiz two_question_doc
           [HostSetOnComplete 1%nat; ClickContinue; ClickOption "a";
            ClickNextQuestion; ClickSubmitShortAnswer " b "; ClickNextQuestion;
            ClickBack; ClickContinue]
           ClickContinue 1%nat).
  - discriminate.
  - vm_compute. left. reflexivity.
Defined.

Lemma continue_unhandled_after_results_witness :
  page_step
    (fst (page_step
            (page_run (page_open two_question_doc)
               [ClickContinue; ClickOption "a"; ClickNextQuestion;
                ClickSubmitShortAnswer "b"])
            ClickNextQuestion))
    ClickContinue
  = (fst (page_step
            (page_run (page_open two_question_doc)
               [ClickContinue; ClickOption "a"; ClickNextQuestion;
                ClickSubmitShortAnswer "b"])
            ClickNextQuestion), []).
Proof.
  apply (continue_unhandled_after_results two_question_doc
           [ClickContinue; ClickOption "a"; ClickNextQuestion;
            ClickSubmitShortAnswer "b"] ClickNextQuestion).
  - vm_compute. reflexivity.
  - vm_compute. reflexivity.
Defined.


Lemma typed_answer_is_trimmed_witness :
  page_step (page_run (page_open two_question_doc)
               [ClickContinue; ClickOption "a"; ClickNextQuestion])
    (ClickSubmitShortAnswer ("  " ++ "b" ++ " "))
  = page_step (page_run (page_open two_question_doc)
                 [ClickContinue; ClickOption "a"; ClickNextQuestion])
      (ClickSubmitShortAnswer "b").
Proof.
  apply (proj1 (typed_answer_is_trimmed
                  (page_run (page_open two_question_doc)
                     [ClickContinue; ClickOption "a"; ClickNextQuestion]) "b"));
    reflexivity.
Defined.

Lemma blocked_current_question (d : StudyPlanData) (q : Question)
  (rest : list Question) (this : SequentialStudy) (i : Z) (q' : Question) :
  active_recall d = Some (q :: rest) ->
  sections this = buildSections d ->
  current_question this = Some (i, q') -> q' = q.
Proof.
  intros Ea Es Eq. pose proof (leading_plain d) as HL.
  rewrite buildSections_leading in Es. unfold present_nonempty in Es.
  rewrite Ea in Es. unfold current_question, getCurrentSection in Eq.
  rewrite Es in Eq.
  destruct (JS.index _ (currentSectionIndex this)) as [s |] eqn:E;
    [| discriminate].
  destruct (index_app_cases _ _ _ _ E) as [[_ ->] | [E' _]].
  - cbn in Eq. now injection Eq as _ <-.
  - destruct (index_plain _ _ _ HL E') as [_ P].
    destruct (content s) as [| | qs cq sc] eqn:C; try discriminate.
    now destruct (P qs cq sc).
Qed.

Lemma blocked_step (d : StudyPlanData) (q : Question) (rest : list Question)
  (log : list Z) (u : Page) (ev : UIEvent) :
  active_recall d = Some (q :: rest) ->
  q_type q = "multiple_choice"%string -> q_options q = Some [] ->
  Reached d log (controller u) -> Wired u ->
  sections (controller u) = buildSections d ->
  no_feedback (container (controller u)) ->
  sections (controller (fst (page_step u ev))) = buildSections d
  /\ no_feedback (container (controller (fst (page_step u ev)))).
Proof.
  intros Ea Ety Eo R W Es Nf.
  pose proof (reached_renderable _ _ _ R) as Hr.
  pose proof (reached_index _ _ _ R) as Hb.
  pose proof (wired_container u W) as Hc.
  unfold page_step. destruct (handled u ev) as [op |] eqn:Eh; [| now split].
  cbn [fst controller]. rewrite step_state_cases.
  destruct op as [| callback | | | a |].
  - unfold render. split.
    + destruct (renderSection_frame (with_container (controller u) (Some DomForeign)))
        as (_ & -> & _). exact Es.
    + apply renderSection_clears; [exact Hb |]. intros s E. apply (Hr _ _ E).
  - now split.
  - rewrite nextSection_sections. split; [exact Es |].
    destruct (Z.lt_ge_cases (currentSectionIndex (controller u))
                (JS.length (sections (controller u)) - 1)) as [Hlt | Hge].
    + rewrite nextSection_state_moving by assumption.
      apply renderSection_clears.
      * unfold index_in_bounds in *. cbn. lia.
      * intros s E. apply (Hr _ _ E).
    + now rewrite nextSection_last by lia.
  - rewrite prevSection_sections. split; [exact Es |].
    destruct (Z.lt_ge_cases 0 (currentSectionIndex (controller u))) as [Hlt | Hge].
    + rewrite prevSection_state_moving by assumption.
      apply renderSection_clears.
      * unfold index_in_bounds in *. cbn. lia.
      * intros s E. apply (Hr _ _ E).
    + unfold prevSection.
      destruct (Z.leb_spec (currentSectionIndex (controller u)) 0); [exact Nf | lia].
  - exfalso.
    assert (Hf : on_option (listeners u) = true \/ on_short_answer (listeners u) = true).
    { destruct (handled_submit u ev a Eh) as [[_ H] | (v & _ & _ & _ & H)]; auto. }
    destruct (wired_form u W Hf) as (_ & i & q' & Eq & Ho & Hs).
    rewrite (blocked_current_question d q rest _ i q' Ea Es Eq) in Ho, Hs.
    assert (Hb' : has_option_buttons q = true).
    { unfold has_option_buttons. now rewrite Ety, Eo. }
    destruct Hf as [H | H].
    + apply (Ho H). unfold option_buttons. now rewrite Hb', Eo.
    + rewrite (Hs H) in Hb'. discriminate Hb'.
  - unfold nextQuizQuestion.
    destruct (container (controller u)) as [[| [] [fb |] |] |] eqn:Ec;
      cbn [fst]; rewrite ?Ec;
      first [now split | now destruct (Nf fb eq_refl)].
Qed.

(** X17. When the first quiz question is multiple choice with an empty list
    of options, the page shows neither an option nor the answer box for it:
    whatever is clicked, no answer is ever graded, the section list stays as
    built, the Quiz section's next button stays disabled and the completion
    callback is never invoked. *)
Theorem empty_options_block_the_quiz (d : StudyPlanData) (q : Question)
  (rest : list Question) (evs : list UIEvent) :
  active_recall d = Some (q :: rest) ->
  q_type q = "multiple_choice"%string ->
  q_options q = Some [] ->
  sections (controller (page_run (page_open d) evs)) = buildSections d
  /\ quiz_navEnabled (controller (page_run (page_open d) evs)) = Some false
  /\ forall ev callback,
      ~ In (Completed callback) (snd (page_step (page_run (page_open d) evs) ev)).
Proof.
  intros Ea Ety Eo.
  assert (K : forall evs u,
             (exists log, Reached d log (controller u)) -> Synced (controller u) ->
             Wired u -> sections (controller u) = buildSections d ->
             no_feedback (container (controller u)) ->
             sections (controller (page_run u evs)) = buildSections d).
  { induction evs0 as [| ev evs0 IH]; intros u [log R] Hy W Es Nf; cbn [page_run];
      [exact Es |].
    destruct (blocked_step d q rest log u ev Ea Ety Eo R W Es Nf) as (Es' & Nf').
    destruct (page_step_reached d log u ev R Hy) as (R' & Hy').
    apply IH; auto. exact (page_step_wired d log u ev R W). }
  destruct (page_open_invariant d) as (R0 & Hy0 & W0).
  assert (Es : sections (controller (page_run (page_open d) evs)) = buildSections d).
  { apply K; auto.
    - unfold page_open. cbn [controller]. rewrite step_state_cases.
      now destruct (render_frame (new_SequentialStudy d)) as (_ & ->).
    - unfold page_open. cbn [controller]. rewrite step_state_cases. unfold render.
      apply renderSection_clears; [apply (new_index_in_bounds d) |].
      intros s E.
      apply (reached_renderable _ _ _ (new_reached d) _ _ E). }
  assert (Hne : quiz_list d <> []).
  { unfold quiz_list. rewrite Ea. discriminate. }
  assert (En : quiz_navEnabled (controller (page_run (page_open d) evs)) = Some false).
  { unfold quiz_navEnabled. rewrite Es, buildSections_leading.
    rewrite (quiz_list_present d Hne).
    now rewrite find_quiz_app by (auto using leading_plain; reflexivity). }
  split; [exact Es |]. split; [exact En |].
  intros ev callback Hin.
  destruct (page_invariant d evs) as ((log & R) & _ & W).
  set (u := page_run (page_open d) evs) in *.
  unfold page_step in Hin. destruct (handled u ev) as [op |] eqn:Eh;
    [| destruct Hin].
  cbn [snd] in Hin.
  destruct (completed_event _ _ _ (reached_renderable _ _ _ R) Hin) as (-> & Hge).
  destruct (handled_nextSection u ev Eh) as (_ & Hon).
  destruct (wired_continue u W Hon) as (s & E & Ens).
  rewrite (reached_last_is_quiz d log _ s R Hne Hge E), Ens in En.
  discriminate En.
Qed.

Lemma empty_options_block_the_quiz_witness :
  quiz_navEnabled
    (controller
       (page_run (page_open (sample_doc [] [optionless_question]))
          [ClickContinue; ClickOption "a"; ClickSubmitShortAnswer "a";
           ClickNextQuestion; ClickContinue]))
  = Some false.
Proof.
  apply (empty_options_block_the_quiz (sample_doc [] [optionless_question])
           optionless_question []
           [ClickContinue; ClickOption "a"; ClickSubmitShortAnswer "a";
            ClickNextQuestion; ClickContinue]); reflexivity.
Defined.

(** ** The progress indicator *)

Lemma bars_from_upcoming (current idx : Z) (secs : list StudySection) :
  current < idx ->
  bars_from current idx secs = repeat BarUpcoming (List.length secs).
Proof.
  revert idx. induction secs as [| s secs IH]; intros idx H; cbn; [reflexivity |].
  rewrite IH by lia. unfold bar.
  destruct (Z.eqb_spec idx current); [lia |].
  destruct (Z.ltb_spec idx current); [lia | reflexivity].
Qed.

Lemma bars_from_spec (current idx : Z) (secs : list StudySection) :
  idx <= current < idx + JS.length secs ->
  bars_from current idx secs
  = repeat BarDone (Z.to_nat (current - idx)) ++ [BarCurrent]
    ++ repeat BarUpcoming (List.length secs - Z.to_nat (current - idx) - 1).
Proof.
  revert idx. induction secs as [| s secs IH]; intros idx H.
  - unfold JS.length in H. cbn in H. lia.
  - cbn [bars_from]. unfold bar. destruct (Z.eqb_spec idx current) as [-> | Hne].
    + rewrite bars_from_upcoming by lia. rewrite Z.sub_diag. cbn.
      now rewrite Nat.sub_0_r.
    + destruct (Z.ltb_spec idx current); [| lia].
      rewrite IH.
      * replace (Z.to_nat (current - idx)) with (S (Z.to_nat (current - (idx + 1))))
          by lia. reflexivity.
      * unfold JS.length in *. cbn [List.length] in H. lia.
Qed.

(** X18. On every state reached from a new controller the progress indicator
    has one bar per section: the bars of the sections before the current one
    are marked done, exactly one bar is marked current, the others are
    upcoming; and the step label reads a number between 1 and the number of
    sections. *)
Theorem progress_indicator (d : StudyPlanData) (ops : list Op) :
  progress_bars (run (new_SequentialStudy d) ops)
  = repeat BarDone (Z.to_nat (currentSectionIndex (run (new_SequentialStudy d) ops)))
    ++ [BarCurrent]
    ++ repeat BarUpcoming
         (List.length (sections (run (new_SequentialStudy d) ops))
          - Z.to_nat (currentSectionIndex (run (new_SequentialStudy d) ops)) - 1)
  /\ 1 <= fst (step_label (run (new_SequentialStudy d) ops))
       <= snd (step_label (run (new_SequentialStudy d) ops)).
Proof.
  pose proof (run_index_in_bounds ops _ (new_index_in_bounds d)) as Hb.
  unfold index_in_bounds in Hb. split.
  - unfold progress_bars. rewrite bars_from_spec by lia.
    now rewrite Z.sub_0_r.
  - unfold step_label. cbn. lia.
Qed.

(** ** The summary *)

Lemma replace_newlines_app (a b : string) :
  replace_newlines (a ++ b) = (replace_newlines a ++ replace_newlines b)%string.
Proof.
  induction a as [| c a IH]; cbn; [reflexivity |].
  destruct (is_newline c); cbn; now rewrite IH.
Qed.

Lemma replace_newlines_plain (s : string) :
  string_forallb (fun c => negb (is_newline c)) s = true -> replace_newlines s = s.
Proof.
  induction s as [| c s IH]; cbn; [reflexivity |].
  intros H. apply andb_true_iff in H. destruct H as [Hc H].
  apply negb_true_iff in Hc. now rewrite Hc, IH.
Qed.

Lemma startsWith_stars (c : ascii) (s : string) :
  is_star c = false -> JS.startsWith (String c s) "**" = false.
Proof.
  destruct c as [[] [] [] [] [] [] [] []]; intros H;
    first [discriminate H | reflexivity].
Qed.

Lemma replace_bold_plain_prefix (pre s : string) :
  string_forallb (fun c => negb (is_star c)) pre = true ->
  replace_bold 0 (pre ++ s) = (pre ++ replace_bold 0 s)%string.
Proof.
  induction pre as [| c pre IH]; [reflexivity |].
  intros H. cbn [string_forallb] in H. apply andb_true_iff in H.
  destruct H as [Hc H]. apply negb_true_iff in Hc.
  change (String c pre ++ s)%string with (String c (pre ++ s)).
  cbn [replace_bold]. rewrite (startsWith_stars c _ Hc), (IH H). reflexivity.
Qed.

Lemma bold_group_found (x post : string) :
  string_forallb (fun c => negb (is_star c) && negb (is_line_terminator c)) x = true ->
  bold_group (x ++ "**" ++ post) = Some x.
Proof.
  induction x as [| c x IH]; [now destruct post |].
  intros H. cbn [string_forallb] in H. apply andb_true_iff in H.
  destruct H as [Hc H]. apply andb_true_iff in Hc. destruct Hc as [Hs Hl].
  apply negb_true_iff in Hs, Hl.
  change (String c x ++ "**" ++ post)%string with (String c (x ++ "**" ++ post)).
  cbn [bold_group]. now rewrite (startsWith_stars c _ Hs), Hl, (IH H).
Qed.

Lemma replace_bold_skip (a b : string) (n : nat) :
  replace_bold (String.length a + n) (a ++ b) = replace_bold n b.
Proof. induction a as [| c a IH]; [reflexivity | exact IH]. Qed.

Lemma string_length_app (a b : string) :
  String.length (a ++ b) = (String.length a + String.length b)%nat.
Proof. induction a as [| c a IH]; cbn; [reflexivity | now rewrite IH]. Qed.

Lemma replace_bold_start (c : ascii) (s' : string) :
  replace_bold 0 (String c s')
  = match (if JS.startsWith (String c s') "**"
           then match s' with
                | String _ after => bold_group after
                | EmptyString => None
                end
           else None) with
    | Some group =>
        (strong_open ++ group ++ strong_close
         ++ replace_bold (String.length group + 3) s')%string
    | None => String c (replace_bold 0 s')
    end.
Proof. reflexivity. Qed.

Lemma replace_bold_pair (x post : string) :
  string_forallb (fun c => negb (is_star c) && negb (is_line_terminator c)) x = true ->
  replace_bold 0 ("**" ++ x ++ "**" ++ post)
  = (strong_open ++ x ++ strong_close ++ replace_bold 0 post)%string.
Proof.
  intros H.
  change ("**" ++ x ++ "**" ++ post)%string
    with (String "*" (String "*" (x ++ "**" ++ post))).
  rewrite replace_bold_start.
  assert (S : forall t, JS.startsWith (String "*" (String "*" t)) "**" = true).
  { intros t. cbn. now destruct t. }
  rewrite S, (bold_group_found x post H).
  do 3 f_equal.
  assert (E : String "*" (x ++ "**" ++ post) = (("*" ++ x ++ "**") ++ post)%string).
  { change (("*" ++ x ++ "**") ++ post)%string
      with (String "*" ((x ++ "**") ++ post)).
    now rewrite string_app_assoc. }
  assert (L : (String.length x + 3 = String.length ("*" ++ x ++ "**") + 0)%nat).
  { change ("*" ++ x ++ "**")%string with (String "*" (x ++ "**")).
    cbn [String.length]. rewrite string_length_app. cbn [String.length]. lia. }
  rewrite E, L. exact (replace_bold_skip ("*" ++ x ++ "**") post 0).
Qed.

(** X19. A summary without asterisks and without newlines is put into the
    page as it is, markup included: nothing in it is escaped, and only the
    empty summary is replaced by a notice. *)
Theorem plain_summary_verbatim (summary_text : string) :
  string_forallb plain_char summary_text = true ->
  formattedSummary summary_text
  = match summary_text with
    | EmptyString => "No summary available."%string
    | _ => summary_text
    end.
Proof.
  intros H. unfold formattedSummary.
  destruct summary_text as [| c s]; [reflexivity |].
  assert (Hs : string_forallb (fun c => negb (is_star c)) (String c s) = true
               /\ string_forallb (fun c => negb (is_newline c)) (String c s) = true).
  { revert H. generalize (String c s). intros t.
    induction t as [| a t IH]; cbn; [now split |].
    unfold plain_char at 1. rewrite !andb_true_iff. intros [[H1 H2] H3].
    destruct (IH H3) as [I1 I2]. now rewrite H1, H2, I1, I2. }
  destruct Hs as [H1 H2].
  pose proof (replace_bold_plain_prefix (String c s) EmptyString H1) as E.
  cbn [replace_bold] in E. rewrite !string_app_nil_r in E. rewrite E.
  now apply replace_newlines_plain.
Qed.

Lemma plain_summary_verbatim_witness :
  formattedSummary "<script>x</script>" = "<script>x</script>"%string.
Proof.
  apply (plain_summary_verbatim "<script>x</script>"). reflexivity.
Defined.

(** X20. In a summary, a text between two pairs of asterisks, itself free of
    asterisks and line breaks, is wrapped into a [strong] element, the
    asterisks are dropped, and what comes before (free of asterisks) and
    after is treated on its own. *)
Theorem bold_markup_is_replaced (pre x post : string) :
  string_forallb (fun c => negb (is_star c)) pre = true ->
  string_forallb (fun c => negb (is_star c) && negb (is_line_terminator c)) x = true ->
  formattedSummary (pre ++ "**" ++ x ++ "**" ++ post)
  = (replace_newlines pre ++ strong_open ++ x ++ strong_close
     ++ replace_newlines (replace_bold 0 post))%string.
Proof.
  intros Hp Hx. unfold formattedSummary.
  assert (Ne : match (pre ++ "**" ++ x ++ "**" ++ post)%string with
               | EmptyString => "No summary available."%string
               | _ => (pre ++ "**" ++ x ++ "**" ++ post)%string
               end = (pre ++ "**" ++ x ++ "**" ++ post)%string).
  { now destruct pre. }
  rewrite Ne, (replace_bold_plain_prefix _ _ Hp), (replace_bold_pair x post Hx).
  rewrite !replace_newlines_app.
  assert (Hn : replace_newlines x = x).
  { apply replace_newlines_plain.
    revert Hx. clear. induction x as [| c x IH]; cbn; [reflexivity |].
    rewrite !andb_true_iff. intros [[_ Hl] H]. split; [| now apply IH].
    destruct c as [[] [] [] [] [] [] [] []]; first [reflexivity | discriminate Hl]. }
  rewrite Hn. reflexivity.
Qed.

Lemma bold_markup_is_replaced_witness :
  formattedSummary ("Cells: " ++ "**" ++ "mitochondria" ++ "**" ++ " matter")
  = (replace_newlines "Cells: " ++ strong_open ++ "mitochondria" ++ strong_close
     ++ replace_newlines (replace_bold 0 " matter"))%string.
Proof.
  apply (bold_markup_is_replaced "Cells: " "mitochondria" " matter"); reflexivity.
Defined.

(** ** Overlapping calls *)

Lemma JS_index_outside {A : Type} (l : list A) (i : Z) :
  i < 0 \/ JS.length l <= i -> JS.index l i = None.
Proof.
  intros H. destruct (JS.index l i) as [x |] eqn:E; [| reflexivity].
  apply JS_index_bounds in E. lia.
Qed.

Lemma fadeIn_outside (this : SequentialStudy) (i : Z) :
  i < 0 \/ JS.length (sections this) <= i ->
  fst (fst (fadeIn (with_index this i))) = with_index this i
  /\ snd (fadeIn (with_index this i)) = Returned.
Proof.
  intros H. unfold fadeIn, renderSection, getCurrentSection.
  cbn [container sections currentSectionIndex with_index].
  rewrite (JS_index_outside _ _ H). now destruct (container this).
Qed.

Lemma fadeIn_inside (this : SequentialStudy) (i : Z) (s : StudySection) :
  Renderable (sections this) -> container this <> None ->
  JS.index (sections this) i = Some s ->
  fst (fst (fadeIn (with_index this i)))
  = with_container (with_index this i) (Some (DomSection (type s) None)).
Proof.
  intros Hr Hc E.
  rewrite fadeIn_state by exact Hc.
  now apply renderSection_state.
Qed.

Lemma outside_calls (this : SequentialStudy) :
  getCurrentSection this = None ->
  forall a, submitQuizAnswer a this = (this, Threw).
Proof.
  intros E a. apply submitQuizAnswer_threw. unfold current_question. now rewrite E.
Qed.

(** X21. Two overlapping [nextSection] calls on the section before the last
    one (a double click on the continue button) leave the index past the
    last section: the last section is on display, but [getCurrentSection]
    returns null, every [submitQuizAnswer] throws, and a further
    [nextSection] invokes the completion callback at once. *)
Theorem double_nextSection_overshoots (this : SequentialStudy) :
  container this <> None ->
  Renderable (sections this) ->
  0 <= currentSectionIndex this ->
  currentSectionIndex this = JS.length (sections this) - 2 ->
  (currentSectionIndex this >=? JS.length (sections this) - 1) = false
  /\ currentSectionIndex (nextSection_overlapped this) = JS.length (sections this)
  /\ sections (nextSection_overlapped this) = sections this
  /\ getCurrentSection (nextSection_overlapped this) = None
  /\ (exists last,
        JS.index (sections this) (JS.length (sections this) - 1) = Some last
        /\ container (nextSection_overlapped this)
           = Some (DomSection (type last) None))
  /\ (forall a, submitQuizAnswer a (nextSection_overlapped this)
                = (nextSection_overlapped this, Threw))
  /\ nextSection (nextSection_overlapped this)
     = (nextSection_overlapped this,
        match onComplete this with
        | Some callback => [Completed callback]
        | None => []
        end,
        Returned).
Proof.
  intros Hc Hr H0 Hi.
  destruct (JS_index_Some (sections this) (currentSectionIndex this + 1))
    as [last El]; [lia |].
  pose proof (fadeIn_inside this _ last Hr Hc El) as E1.
  assert (E2 : nextSection_overlapped this
               = with_index
                   (with_container this (Some (DomSection (type last) None)))
                   (JS.length (sections this))).
  { unfold nextSection_overlapped, nextSection_resume at 2. rewrite E1.
    unfold nextSection_resume.
    cbn [currentSectionIndex with_container with_index].
    destruct (fadeIn_outside
                (with_container (with_index this (currentSectionIndex this + 1))
                   (Some (DomSection (type last) None)))
                (currentSectionIndex this + 1 + 1)) as [E _].
    - right. cbn. lia.
    - rewrite E. apply SequentialStudy_eq; cbn; auto. lia. }
  assert (G : getCurrentSection (nextSection_overlapped this) = None).
  { rewrite E2. unfold getCurrentSection. cbn. apply JS_index_outside. lia. }
  split; [| split; [| split; [| split; [| split; [| split]]]]].
  - destruct (Z.geb_spec (currentSectionIndex this) (JS.length (sections this) - 1));
      [lia | reflexivity].
  - now rewrite E2.
  - now rewrite E2.
  - exact G.
  - exists last. split; [| now rewrite E2].
    replace (JS.length (sections this) - 1) with (currentSectionIndex this + 1) by lia.
    exact El.
  - now apply outside_calls.
  - rewrite nextSection_last; [now rewrite E2 |].
    rewrite E2. cbn. lia.
Qed.

Lemma double_nextSection_overshoots_witness :
  getCurrentSection
    (nextSection_overlapped
       (run (new_SequentialStudy two_question_doc) [OpRender]))
  = None.
Proof.
  apply (double_nextSection_overshoots
           (run (new_SequentialStudy two_question_doc) [OpRender])).
  - discriminate.
  - apply (reached_renderable two_question_doc _ _
             (run_new_reached two_question_doc [OpRender])).
  - vm_compute. discriminate.
  - reflexivity.
Defined.

(** X22. Two overlapping [prevSection] calls on the second section (a double
    click on the back button) leave the index at -1: the first section is on
    display, [getCurrentSection] returns null, every [submitQuizAnswer]
    throws, [prevSection] does nothing, and one [nextSection] brings the
    controller back to the first section. *)
Theorem double_prevSection_undershoots (this : SequentialStudy) :
  container this <> None ->
  Renderable (sections this) ->
  currentSectionIndex this = 1 ->
  1 < JS.length (sections this) ->
  (currentSectionIndex this <=? 0) = false
  /\ currentSectionIndex (prevSection_overlapped this) = -1
  /\ sections (prevSection_overlapped this) = sections this
  /\ getCurrentSection (prevSection_overlapped this) = None
  /\ (exists first,
        JS.index (sections this) 0 = Some first
        /\ container (prevSection_overlapped this)
           = Some (DomSection (type first) None))
  /\ (forall a, submitQuizAnswer a (prevSection_overlapped this)
                = (prevSection_overlapped this, Threw))
  /\ prevSection (prevSection_overlapped this)
     = (prevSection_overlapped this, [], Returned)
  /\ fst (fst (nextSection (prevSection_overlapped this)))
     = fst (fst (prevSection this)).
Proof.
  intros Hc Hr Hi Hn.
  destruct (JS_index_Some (sections this) 0) as [first Ef]; [lia |].
  assert (E1 : fst (fst (prevSection_resume this))
               = with_container (with_index this 0)
                   (Some (DomSection (type first) None))).
  { unfold prevSection_resume. rewrite Hi. cbn [Z.sub Z.pos_sub Z.add Z.opp].
    now apply fadeIn_inside. }
  assert (E2 : prevSection_overlapped this
               = with_index
                   (with_container this (Some (DomSection (type first) None)))
                   (-1)).
  { unfold prevSection_overlapped. rewrite E1.
    unfold prevSection_resume.
    cbn [currentSectionIndex with_container with_index].
    destruct (fadeIn_outside
                (with_container (with_index this 0)
                   (Some (DomSection (type first) None))) (0 - 1)) as [E _].
    - left. lia.
    - rewrite E. apply SequentialStudy_eq; cbn; auto. }
  assert (G : getCurrentSection (prevSection_overlapped this) = None).
  { rewrite E2. unfold getCurrentSection.
    cbn [currentSectionIndex sections with_index with_container].
    apply JS_index_outside. lia. }
  split; [| split; [| split; [| split; [| split; [| split; [| split]]]]]].
  - rewrite Hi. reflexivity.
  - now rewrite E2.
  - now rewrite E2.
  - exact G.
  - exists first. split; [exact Ef | now rewrite E2].
  - now apply outside_calls.
  - rewrite E2. reflexivity.
  - rewrite E2.
    unfold nextSection, nextSection_resume, prevSection.
    cbn [currentSectionIndex sections with_index with_container].
    destruct (Z.geb_spec (-1) (JS.length (sections this) - 1)); [lia |].
    rewrite Hi. cbn [Z.leb Z.compare Z.sub Z.add Z.pos_sub Z.opp].
    pose proof (fadeIn_inside this 0 first Hr Hc Ef) as F1.
    pose proof (fadeIn_inside
                  (with_container this (Some (DomSection (type first) None)))
                  0 first Hr ltac:(discriminate) Ef) as F2.
    change (with_index
              (with_index
                 (with_container this (Some (DomSection (type first) None))) (-1))
              0)
      with (with_index
              (with_container this (Some (DomSection (type first) None))) 0).
    destruct (fadeIn (with_index this 0)) as [[t1 i1] o1].
    destruct (fadeIn
                (with_index
                   (with_container this (Some (DomSection (type first) None))) 0))
      as [[t2 i2] o2].
    cbn [fst] in *. now rewrite F1, F2.
Qed.

Lemma double_prevSection_undershoots_witness :
  getCurrentSection
    (prevSection_overlapped
       (run (new_SequentialStudy two_question_doc) [OpRender; OpNextSection]))
  = None.
Proof.
  apply (double_prevSection_undershoots
           (run (new_SequentialStudy two_question_doc) [OpRender; OpNextSection])).
  - discriminate.
  - apply (reached_renderable two_question_doc _ _
             (run_new_reached two_question_doc [OpRender; OpNextSection])).
  - reflexivity.
  - reflexivity.
Defined.
